(** * DeepSeek-OCR-Web: job console client and job orchestration

    A shallow embedding of the parts of the React client that deal with
    jobs (JobQueuePanel.tsx, HistoryPanel.tsx, App.tsx, ConsoleOutput.tsx)
    and of the job orchestration contract the client talks to.

    Conventions of the embedding:
    - a JavaScript [string] is a Rocq [string] (a sequence of bytes); the
      functions modelled here only look at ASCII characters;
    - a JavaScript [number] holding a time in milliseconds or a duration in
      seconds is a [Z]; [NaN] is [None] in an [option Z];
    - a React state variable is a field of a state record and an event
      handler is a function from state to state;
    - a JSX element is a small record or inductive value keeping the
      element's kind, its class name and its text. *)

From Stdlib Require Import ZArith Ascii String.
From stdpp Require Import base list strings pretty sorting gmap.

Local Open Scope Z_scope.

(** ** JavaScript primitives used by the client *)
Module JS.

(** A JavaScript string is modelled by the string of its characters, one
    [ascii] for each. For strings of ASCII characters this is the
    sequence of UTF-16 code units that the language works on, so lengths,
    positions, white space and character classes agree; the statements
    that depend on these are made for such strings ([is_ascii]). *)
Definition is_ascii (s : string) : bool :=
  forallb (λ c, (nat_of_ascii c <? 128)%nat) (String.list_ascii_of_string s).

(** [a === b] on strings. *)
Definition str_eq (a b : string) : bool := String.eqb a b.

(** Truthiness of a string: only the empty string is falsy. *)
Definition truthy (s : string) : bool :=
  match s with
  | EmptyString => false
  | String _ _ => true
  end.

Definition chars (s : string) : list ascii := String.list_ascii_of_string s.
Definition of_chars (l : list ascii) : string := String.string_of_list_ascii l.

(** The white space and line terminators that [String.prototype.trim]
    removes, among the ASCII characters: TAB, LF, VT, FF, CR and SPACE.
    (Beyond ASCII it also removes U+00A0, U+FEFF, U+2028, U+2029 and the
    space separators; see [is_ascii].) *)
Definition is_space (c : ascii) : bool :=
  let n := nat_of_ascii c in
  ((9 <=? n)%nat && (n <=? 13)%nat) || (n =? 32)%nat.

Fixpoint drop_space (l : list ascii) : list ascii :=
  match l with
  | [] => []
  | c :: l' => if is_space c then drop_space l' else l
  end.

(** [s.trim()] *)
Definition trim (s : string) : string :=
  of_chars (rev (drop_space (rev (drop_space (chars s))))).

(** [arr.slice(0, n)] *)
Definition slice0 {A} (n : nat) (l : list A) : list A := take n l.

(** [arr.find(p)] *)
Definition find {A} (p : A -> bool) (l : list A) : option A := List.find p l.

(** The number a sort comparator returns; [None] is [NaN]. *)
Definition cmp_result := option Z.

(** [Array.prototype.sort] treats a [NaN] comparison as [+0]. *)
Definition cmp_value (r : cmp_result) : Z := default 0 r.

Section Sort.
Context {A : Type} (cmp : A -> A -> cmp_result).

(** [before a b]: the comparator does not ask for [a] after [b]. *)
Definition before (a b : A) : bool := cmp_value (cmp a b) <=? 0.

Fixpoint sort_insert (x : A) (l : list A) : list A :=
  match l with
  | [] => [x]
  | y :: l' => if before x y then x :: l else y :: sort_insert x l'
  end.

(** [arr.sort(cmp)]: the sort is stable (ECMAScript 2019), so for a
    consistent comparator the result is the one a stable insertion
    sort gives: elements that compare equal keep their input order.
    For a comparator that is not consistent (it can return [NaN] for
    some pairs only) the language leaves the order to the engine, and
    this function is one admissible outcome. *)
Fixpoint sort (l : list A) : list A :=
  match l with
  | [] => []
  | x :: l' => sort_insert x (sort l')
  end.
End Sort.

End JS.

(** ** Numbers and dates *)
Module Num.

(** Subtraction of two numbers, either of which may be [NaN]. *)
Definition sub (a b : option Z) : option Z :=
  match a, b with
  | Some x, Some y => Some (x - y)
  | _, _ => None
  end.

(** [Math.floor(x / 1000)] for an integral [x]. *)
Definition floor_div (a : option Z) (d : Z) : option Z :=
  (fun x => x / d) <$> a.

(** [`${n}`] for an integral number. *)
Definition to_string (n : Z) : string := pretty n.

(** [`${mins}m ${secs}s`] or [`${secs}s`], the body shared by every
    [formatTime] and by [formatElapsed]. *)
Definition format_seconds (seconds : Z) : string :=
  let mins := seconds / 60 in
  let secs := Z.rem seconds 60 in
  if 0 <? mins then to_string mins +:+ "m " +:+ to_string secs +:+ "s"
  else to_string secs +:+ "s".

End Num.

(** ** JobQueuePanel.tsx *)
Module JobQueuePanel.
Import JS.

Record Job := mkJob {
  task_id : string;
  filename : string;
  original_filename : string;
  timestamp : string;
  runtime : option Z;      (* number | null *)
  status : string;
  elapsed : option Z       (* optional field *)
}.

(** The body of the [/api/history] answer: [data.status] and [data.jobs]
    ([None] when the field is absent). *)
Record HistoryData := mkHistoryData {
  data_status : string;
  data_jobs : option (list Job)
}.

Definition is_running (j : Job) : bool := str_eq (status j) "running".
Definition is_finished (j : Job) : bool := str_eq (status j) "finished".

Section WithDate.
(** [new Date(s).getTime()]: milliseconds since the epoch, or [NaN]. *)
Context (getTime : string -> option Z).

(** The comparator of [fetchJobs]: running jobs first, then newest. *)
Definition recent_cmp (a b : Job) : cmp_result :=
  if is_running a && negb (is_running b) then Some (-1)
  else if negb (is_running a) && is_running b then Some 1
  else Num.sub (getTime (timestamp b)) (getTime (timestamp a)).

Definition recentJobs_of (jobs : list Job) : list Job :=
  slice0 5 (sort recent_cmp (slice0 10 jobs)).

(** [fetchJobs] on an answer of the server: the new [jobs] state and
    the task id passed to [onJobComplete], if the callback is given
    and fires. A failed fetch leaves the state as it is. *)
Definition fetchJobs (has_callback : bool) (jobs : list Job)
    (answer : option HistoryData) : list Job * option string :=
  match answer with
  | Some data =>
      match str_eq (data_status data) "success", data_jobs data with
      | true, Some all =>
          let recentJobs := recentJobs_of all in
          let notified :=
            match find is_running recentJobs with
            | Some _ => None
            | None =>
                if has_callback
                then task_id <$> find is_finished recentJobs
                else None
            end in
          (recentJobs, notified)
      | _, _ => (jobs, None)
      end
  | None => (jobs, None)
  end.
End WithDate.

Definition runningJobs (jobs : list Job) : list Job := filter (fun j => is_running j = true) jobs.
Definition recentJobs (jobs : list Job) : list Job :=
  slice0 3 (filter (fun j => is_running j = false) jobs).

(** [name.length]: the number of UTF-16 code units, which for a string
    of ASCII characters ([JS.is_ascii]) is the number of its characters;
    [String.substring] below is [name.substring] under the same proviso. *)
Definition str_length (s : string) : nat := String.length s.

Definition getDisplayName (job : Job) : string :=
  if truthy (original_filename job) && truthy (trim (original_filename job)) then
    let name := original_filename job in
    if (20 <? str_length name)%nat then String.substring 0 17 name +:+ "..." else name
  else "Task " +:+ task_id job.

Inductive IconKind := Loader2 | CheckCircle2 | XCircle | AlertCircle.

Record Icon := mkIcon { icon_kind : IconKind; icon_class : string }.

Global Instance IconKind_eq_dec : EqDecision IconKind.
Proof. solve_decision. Defined.
Global Instance Icon_eq_dec : EqDecision Icon.
Proof. solve_decision. Defined.

Definition icon_default : Icon := mkIcon AlertCircle "h-3.5 w-3.5 text-gray-400".

Definition getStatusIcon (status : string) : Icon :=
  if str_eq status "running" then mkIcon Loader2 "h-3.5 w-3.5 animate-spin text-blue-500"
  else if str_eq status "finished" then mkIcon CheckCircle2 "h-3.5 w-3.5 text-emerald-500"
  else if str_eq status "error" then mkIcon AlertCircle "h-3.5 w-3.5 text-red-500"
  else if str_eq status "cancelled" then mkIcon XCircle "h-3.5 w-3.5 text-gray-400"
  else icon_default.

Definition formatElapsed (job : Job) : string :=
  if negb (is_running job) then ""
  else Num.format_seconds (default 0 (elapsed job)).

Record RunningRow := mkRunningRow {
  running_key : string;
  running_name : string;
  running_caption : string;
  running_cancel : string        (* task id the cancel button posts *)
}.

Record RecentRow := mkRecentRow {
  recent_key : string;
  recent_icon : Icon;
  recent_name : string;
  recent_runtime : string
}.

Inductive TriggerLabel :=
  | RunningCount (n : nat)       (* spinner and "<n> running" *)
  | JobsLabel.                   (* check mark and "Jobs" *)

(** What the component returns when it renders the dropdown. *)
Record Dropdown := mkDropdown {
  dropdown_open : bool;
  trigger : TriggerLabel;
  running_section : option (list RunningRow);
  recent_section : option (bool * list RecentRow);   (* "Recent" caption shown, rows *)
  empty_state : bool                                 (* the "No recent jobs" block *)
}.

Definition running_row (job : Job) : RunningRow :=
  mkRunningRow (task_id job) (getDisplayName job)
    ("Processing... " +:+ formatElapsed job) (task_id job).

Definition runtime_text (r : option Z) : string :=
  match r with
  | Some n => if n =? 0 then "" else Num.to_string n +:+ "s"
  | None => ""
  end.

Definition recent_row (job : Job) : RecentRow :=
  mkRecentRow (task_id job) (getStatusIcon (status job)) (getDisplayName job)
    (runtime_text (runtime job)).

(** The value returned by the component function for the state
    [jobs], [isOpen]; [None] is the [null] of the early return. *)
Definition render (jobs : list Job) (isOpen : bool) : option Dropdown :=
  let running := runningJobs jobs in
  let recent := recentJobs jobs in
  if (length jobs =? 0)%nat then None
  else Some {|
    dropdown_open := isOpen;
    trigger := if (0 <? length running)%nat then RunningCount (length running) else JobsLabel;
    running_section :=
      if (0 <? length running)%nat then Some (running_row <$> running) else None;
    recent_section :=
      if (0 <? length recent)%nat
      then Some ((0 <? length running)%nat, recent_row <$> recent) else None;
    empty_state := (length jobs =? 0)%nat
  |}.

End JobQueuePanel.

(** ** The upload file-name pattern of HistoryPanel.tsx

    [/^user_upload_\d+_\d+_[a-f0-9]+\.(.+)$/i] read left to right. Every
    [+] group is followed by a literal that its class excludes, so the
    greedy match of the class is the only one the regular expression
    admits; [exec] returns the text captured by group 1. *)
Module UploadPattern.
Import JS.

Definition code (c : ascii) : nat := nat_of_ascii c.

(** Case folding of the [i] flag on ASCII letters. *)
Definition fold_case (c : ascii) : ascii :=
  if ((97 <=? code c) && (code c <=? 122))%nat then ascii_of_nat (code c - 32) else c.

Definition same_char (a b : ascii) : bool := Ascii.eqb (fold_case a) (fold_case b).

(** [\d] *)
Definition is_digit (c : ascii) : bool := ((48 <=? code c) && (code c <=? 57))%nat.

(** [[a-f0-9]] under the [i] flag *)
Definition is_hex (c : ascii) : bool :=
  is_digit c || ((65 <=? code (fold_case c)) && (code (fold_case c) <=? 70))%nat.

(** [.] matches any character but a line terminator; among the ASCII
    characters these are LF and CR (beyond ASCII also U+2028 and U+2029;
    see [JS.is_ascii]). *)
Definition is_dot (c : ascii) : bool := negb ((code c =? 10) || (code c =? 13))%nat.

(** A literal, case-insensitively; the rest of the input on success. *)
Fixpoint literal (lit l : list ascii) : option (list ascii) :=
  match lit, l with
  | [], _ => Some l
  | a :: lit', c :: l' => if same_char a c then literal lit' l' else None
  | _ :: _, [] => None
  end.

Fixpoint skip (p : ascii -> bool) (l : list ascii) : list ascii :=
  match l with
  | c :: l' => if p c then skip p l' else l
  | [] => []
  end.

(** [p+]: at least one character of the class, then as many as follow. *)
Definition plus (p : ascii -> bool) (l : list ascii) : option (list ascii) :=
  match l with
  | c :: l' => if p c then Some (skip p l') else None
  | [] => None
  end.

Definition exec (s : string) : option string :=
  r ← literal (chars "user_upload_") (chars s);
  r ← plus is_digit r;
  r ← literal (chars "_") r;
  r ← plus is_digit r;
  r ← literal (chars "_") r;
  r ← plus is_hex r;
  r ← literal (chars ".") r;
  match r with
  | [] => None
  | _ :: _ => if forallb is_dot r then Some (of_chars r) else None
  end.

(** The pattern as a decomposition of the file name:
    [user_upload_<digits>_<digits>_<hex>.<ext>]. *)
Definition matches (s ext : string) : Prop :=
  ∃ p d1 d2 h : list ascii,
    chars s = p ++ d1 ++ chars "_" ++ d2 ++ chars "_" ++ h ++ chars "." ++ chars ext
    ∧ Forall2 (λ a c, same_char a c = true) (chars "user_upload_") p
    ∧ d1 ≠ [] ∧ Forall (λ c, is_digit c = true) d1
    ∧ d2 ≠ [] ∧ Forall (λ c, is_digit c = true) d2
    ∧ h ≠ [] ∧ Forall (λ c, is_hex c = true) h
    ∧ chars ext ≠ [] ∧ Forall (λ c, is_dot c = true) (chars ext).

End UploadPattern.

(** ** HistoryPanel.tsx *)
Module HistoryPanel.
Import JS.

Record HistoryJob := mkHistoryJob {
  task_id : string;
  filename : string;
  original_filename : string;
  timestamp : string;
  runtime : option Z;      (* number | null *)
  status : string;
  result_dir : string
}.

Inductive SortOption := newest | oldest | by_status | by_runtime.

(** [useState<SortOption>('newest')] *)
Definition sortBy_initial : SortOption := newest.

(** What a property lookup on the object literal [statusOrder] gives:
    one of its four numbers, a member that every object inherits from
    [Object.prototype] (a function, or for [__proto__] the prototype
    itself), or [undefined]. *)
Inductive Member := own (n : Z) | inherited | undefined.

(** The property names of [Object.prototype]. *)
Definition prototype_members : list string :=
  ["constructor"; "hasOwnProperty"; "isPrototypeOf"; "propertyIsEnumerable";
   "toLocaleString"; "toString"; "valueOf"; "__proto__";
   "__defineGetter__"; "__defineSetter__"; "__lookupGetter__"; "__lookupSetter__"].

(** [statusOrder[s]] *)
Definition statusOrder (s : string) : Member :=
  if str_eq s "running" then own 0
  else if str_eq s "finished" then own 1
  else if str_eq s "error" then own 2
  else if str_eq s "cancelled" then own 3
  else if existsb (str_eq s) prototype_members then inherited
  else undefined.

(** [statusOrder[s] ?? 4] as the subtraction reads it: only [undefined]
    is replaced by 4, and an inherited member is not a number ([None]
    is [NaN]). *)
Definition status_rank (s : string) : option Z :=
  match statusOrder s with
  | own n => Some n
  | inherited => None
  | undefined => Some 4
  end.

(** [r ?? 0] *)
Definition runtime_or_zero (r : option Z) : Z := default 0 r.

Section WithDate.
Context (getTime : string -> option Z).

Definition newest_cmp (a b : HistoryJob) : cmp_result :=
  Num.sub (getTime (timestamp b)) (getTime (timestamp a)).
Definition oldest_cmp (a b : HistoryJob) : cmp_result :=
  Num.sub (getTime (timestamp a)) (getTime (timestamp b)).
Definition status_cmp (a b : HistoryJob) : cmp_result :=
  Num.sub (status_rank (status a)) (status_rank (status b)).
Definition runtime_cmp (a b : HistoryJob) : cmp_result :=
  Some (runtime_or_zero (runtime b) - runtime_or_zero (runtime a)).

(** [sortedJobs]: a sorted copy of [jobs]. *)
Definition sortedJobs (sortBy : SortOption) (jobs : list HistoryJob) : list HistoryJob :=
  match sortBy with
  | newest => sort newest_cmp jobs
  | oldest => sort oldest_cmp jobs
  | by_status => sort status_cmp jobs
  | by_runtime => sort runtime_cmp jobs
  end.
End WithDate.

Definition getDisplayName (job : HistoryJob) : string :=
  if truthy (original_filename job) && truthy (trim (original_filename job)) then
    original_filename job
  else if truthy (filename job) && truthy (trim (filename job)) then
    match UploadPattern.exec (filename job) with
    | Some ext => "Document." +:+ ext
    | None => filename job
    end
  else "Task " +:+ task_id job.

Inductive Marker :=
  | Dot (cls : string)     (* a small coloured circle *)
  | Spinner                (* Loader2, spinning *)
  | NoMarker.

Record Badge := mkBadge {
  badge_class : string;
  badge_marker : Marker;
  badge_text : string
}.

Global Instance Marker_eq_dec : EqDecision Marker.
Proof. solve_decision. Defined.
Global Instance Badge_eq_dec : EqDecision Badge.
Proof. solve_decision. Defined.

Definition badge_base : string :=
  "inline-flex items-center px-2.5 py-1 text-xs font-medium rounded-full ".

(** The [default:] branch of [getStatusBadge]. *)
Definition badge_default (status : string) : Badge :=
  mkBadge (badge_base +:+ "bg-gray-50 text-gray-600 ring-1 ring-inset ring-gray-500/20")
    NoMarker status.

Definition getStatusBadge (status : string) : Badge :=
  if str_eq status "finished" then
    mkBadge (badge_base +:+ "bg-emerald-50 text-emerald-700 ring-1 ring-inset ring-emerald-600/20")
      (Dot "w-1.5 h-1.5 rounded-full bg-emerald-500 mr-1.5") "Completed"
  else if str_eq status "running" then
    mkBadge (badge_base +:+ "bg-blue-50 text-blue-700 ring-1 ring-inset ring-blue-600/20")
      Spinner "Running"
  else if str_eq status "error" then
    mkBadge (badge_base +:+ "bg-red-50 text-red-700 ring-1 ring-inset ring-red-600/20")
      (Dot "w-1.5 h-1.5 rounded-full bg-red-500 mr-1.5") "Error"
  else if str_eq status "cancelled" then
    mkBadge (badge_base +:+ "bg-gray-50 text-gray-600 ring-1 ring-inset ring-gray-500/20")
      (Dot "w-1.5 h-1.5 rounded-full bg-gray-400 mr-1.5") "Cancelled"
  else badge_default status.

(** The export formats of [handleDownloadZip]. *)
Inductive Format := mmd | md | txt.

Definition format_name (f : Format) : string :=
  match f with mmd => "mmd" | md => "md" | txt => "txt" end.

(** The request issued by [handleDownloadZip(taskId, format)]. *)
Definition download_url (base taskId : string) (f : Format) : string :=
  base +:+ "/api/download/zip/" +:+ taskId +:+ "?format=" +:+ format_name f.

(** The name under which the answer is saved. *)
Definition download_name (taskId : string) : string :=
  "ocr_results_" +:+ taskId +:+ ".zip".

(** One entry of the download menu: the label and the call it makes. *)
Record DownloadItem := mkDownloadItem {
  item_label : string;
  item_task : string;
  item_format : Format
}.

Definition download_menu (job : HistoryJob) : list DownloadItem :=
  [ mkDownloadItem "Download as .mmd" (task_id job) mmd;
    mkDownloadItem "Download as .md" (task_id job) md;
    mkDownloadItem "Download as .txt" (task_id job) txt ].

(** The action column of one row of the list. *)
Record Actions := mkActions {
  cancel_button : option bool;              (* shown; [true] when disabled *)
  download_control : option (list DownloadItem);
  delete_button : string                    (* always shown; the task it deletes *)
}.

Definition row_actions (cancelling : gset string) (job : HistoryJob) : Actions :=
  {| cancel_button :=
       if str_eq (status job) "running"
       then Some (bool_decide (task_id job ∈ cancelling)) else None;
     download_control :=
       if str_eq (status job) "finished" then Some (download_menu job) else None;
     delete_button := task_id job |}.

Inductive Toast :=
  | toast_success (title : string)
  | toast_error (title : string) (description : option string).

(** The body of the answer to the delete request: [data.status] and
    [data.message]. *)
Inductive DeleteAnswer :=
  | delete_answer (status : string) (message : option string).

(** The address of the [DELETE] request of [handleDeleteTask(taskId)]. *)
Definition delete_request (base taskId : string) : string :=
  base +:+ "/api/delete/" +:+ taskId.

(** What [handleDeleteTask] does once the user has answered the
    confirmation: nothing when the user declined; otherwise, on the
    server's answer ([None]: the request failed), the toast shown and
    whether the history is fetched again. *)
Definition handleDeleteTask (confirmed : bool) (answer : option DeleteAnswer)
    : option (Toast * bool) :=
  if negb confirmed then None
  else match answer with
       | Some (delete_answer st msg) =>
           if str_eq st "success" then Some (toast_success "Task deleted", true)
           else Some (toast_error "Failed to delete task" msg, false)
       | None => Some (toast_error "Failed to delete task" None, false)
       end.

End HistoryPanel.

(** ** ConsoleOutput.tsx *)
Module ConsoleOutput.
Import JS.

(** [msg.includes(sub)] *)
Definition includes (msg sub : string) : bool :=
  match String.index 0 sub msg with
  | Some _ => true
  | None => false
  end.

Definition includes_any (msg : string) (subs : list string) : bool :=
  existsb (includes msg) subs.

Definition line_class (msg : string) : string :=
  if includes_any msg ["Error"; "error"; "ERROR"] then "text-red-400"
  else if includes_any msg ["Warning"; "warning"; "WARN"] then "text-yellow-400"
  else if includes_any msg ["✅"; "Success"; "success"] then "text-green-400"
  else if includes_any msg ["🔄"; "Loading"; "loading"] then "text-blue-400"
  else "text-gray-300".

(** [s.padStart(3, ' ')] *)
Definition padStart3 (s : string) : string :=
  of_chars (replicate (3 - String.length s) " "%char) +:+ s.

Record Line := mkLine {
  line_key : nat;
  line_class_name : string;
  line_number : string;      (* the gutter, "  1|" *)
  line_text : string
}.

Definition line (idx : nat) (msg : string) : Line :=
  mkLine idx (line_class msg) (padStart3 (Num.to_string (Z.of_nat idx + 1)) +:+ "|") msg.




End ConsoleOutput.

(** ** App.tsx *)
Module App.
Import JS.
Export JobQueuePanel (Job, HistoryData).

Inductive Toast :=
  | toast_info (title : string) (description : option string)
  | toast_success (title : string) (description : option string)
  | toast_error (title : string) (description : option string).

(** What a [setInterval] callback of the component does. *)
Inductive Interval :=
  | Timer (startTime : Z)
  | Poller (taskIdToTrack : string) (startTime : Z).

(** The state of the mounted component: the state variables and refs the
    job handling reads or writes, and the browser resources it holds
    (running intervals, open console sockets, toasts shown so far). *)
Record State := mkState {
  uploadedFilePath : string;
  originalFilename : string;
  isProcessing : bool;
  taskId : string;
  resultDir : string;
  parseCompleted : bool;
  consoleMessages : list string;
  elapsedTime : option Z;            (* a number; [None] is [NaN] *)
  totalRuntime : option Z;           (* number | null *)
  hasRestoredState : bool;           (* ref *)
  pollIntervalRef : option nat;      (* ref; [None] is [null] *)
  timerIntervalRef : option nat;     (* ref *)
  intervals : gmap nat Interval;     (* the intervals that still fire *)
  next_interval : nat;               (* the id [setInterval] hands out next *)
  sockets : list string;             (* console sockets opened, by task id *)
  toasts : list Toast
}.

(** The state right after mount. *)
Definition initial : State :=
  mkState "" "" false "" "" false [] (Some 0) None false None None ∅ 1 [] [].

Definition set_intervals (f : gmap nat Interval -> gmap nat Interval) (st : State) : State :=
  mkState (uploadedFilePath st) (originalFilename st) (isProcessing st) (taskId st)
    (resultDir st) (parseCompleted st) (consoleMessages st) (elapsedTime st)
    (totalRuntime st) (hasRestoredState st) (pollIntervalRef st) (timerIntervalRef st)
    (f (intervals st)) (next_interval st) (sockets st) (toasts st).

(** [setInterval(callback, ms)]: a fresh id, and the callback fires from
    now on. *)
Definition setInterval (iv : Interval) (st : State) : nat * State :=
  let id := next_interval st in
  (id,
   mkState (uploadedFilePath st) (originalFilename st) (isProcessing st) (taskId st)
     (resultDir st) (parseCompleted st) (consoleMessages st) (elapsedTime st)
     (totalRuntime st) (hasRestoredState st) (pollIntervalRef st) (timerIntervalRef st)
     (<[id := iv]> (intervals st)) (S id) (sockets st) (toasts st)).

(** [if (ref.current) clearInterval(ref.current)] *)
Definition clearInterval (ref : option nat) (st : State) : State :=
  match ref with
  | Some id => set_intervals (delete id) st
  | None => st
  end.

Definition set_refs (poll timer : option nat) (st : State) : State :=
  mkState (uploadedFilePath st) (originalFilename st) (isProcessing st) (taskId st)
    (resultDir st) (parseCompleted st) (consoleMessages st) (elapsedTime st)
    (totalRuntime st) (hasRestoredState st) poll timer
    (intervals st) (next_interval st) (sockets st) (toasts st).

Definition setIsProcessing (b : bool) (st : State) : State :=
  mkState (uploadedFilePath st) (originalFilename st) b (taskId st)
    (resultDir st) (parseCompleted st) (consoleMessages st) (elapsedTime st)
    (totalRuntime st) (hasRestoredState st) (pollIntervalRef st) (timerIntervalRef st)
    (intervals st) (next_interval st) (sockets st) (toasts st).

Definition setElapsedTime (e : option Z) (st : State) : State :=
  mkState (uploadedFilePath st) (originalFilename st) (isProcessing st) (taskId st)
    (resultDir st) (parseCompleted st) (consoleMessages st) e
    (totalRuntime st) (hasRestoredState st) (pollIntervalRef st) (timerIntervalRef st)
    (intervals st) (next_interval st) (sockets st) (toasts st).

Definition setConsoleMessages (f : list string -> list string) (st : State) : State :=
  mkState (uploadedFilePath st) (originalFilename st) (isProcessing st) (taskId st)
    (resultDir st) (parseCompleted st) (f (consoleMessages st)) (elapsedTime st)
    (totalRuntime st) (hasRestoredState st) (pollIntervalRef st) (timerIntervalRef st)
    (intervals st) (next_interval st) (sockets st) (toasts st).

Definition toast (t : Toast) (st : State) : State :=
  mkState (uploadedFilePath st) (originalFilename st) (isProcessing st) (taskId st)
    (resultDir st) (parseCompleted st) (consoleMessages st) (elapsedTime st)
    (totalRuntime st) (hasRestoredState st) (pollIntervalRef st) (timerIntervalRef st)
    (intervals st) (next_interval st) (sockets st) (toasts st ++ [t]).

(** [Math.floor((Date.now() - startTime) / 1000)] *)
Definition seconds_since (now : Z) (startTime : option Z) : option Z :=
  Num.floor_div (Num.sub (Some now) startTime) 1000.

(** [startPolling(taskIdToTrack, startTime)]: two intervals are started
    and the two refs are pointed at them; what the refs held before is
    overwritten, not cleared. *)
Definition startPolling (taskIdToTrack : string) (startTime : Z) (st : State) : State :=
  let '(timer, st1) := setInterval (Timer startTime) st in
  let st2 := set_refs (pollIntervalRef st1) (Some timer) st1 in
  let '(poll, st3) := setInterval (Poller taskIdToTrack startTime) st2 in
  set_refs (Some poll) (timerIntervalRef st3) st3.

(** The answers of [/api/progress/<id>] and [/api/result/<id>]. *)
Record ProgressData := mkProgress { progress_status : string; progress_state : string }.

Record ResultData := mkResult {
  result_status : string;
  result_state : string;
  result_dir : string;
  result_runtime : option Z
}.

(** [state === 'finished' || state === 'error' || state === 'cancelled'] *)
Definition terminal (state : string) : bool :=
  str_eq state "finished" || str_eq state "error" || str_eq state "cancelled".

(** The test that ends the polling: the answer is well-formed and
    carries a terminal state. *)
Definition observes_terminal (p : ProgressData) : bool :=
  str_eq (progress_status p) "success" && terminal (progress_state p).

(** [resultData.runtime || fallback] *)
Definition runtime_or (r : option Z) (fallback : Z) : Z :=
  match r with
  | Some n => if n =? 0 then fallback else n
  | None => fallback
  end.

Definition show_result (now startTime : Z) (r : ResultData) (st : State) : State :=
  if str_eq (result_status r) "success" && str_eq (result_state r) "finished" then
    let runtime := runtime_or (result_runtime r) ((now - startTime) / 1000) in
    toast (toast_success "Processing complete!"
             (Some ("Finished in " +:+ Num.format_seconds runtime)))
      (mkState (uploadedFilePath st) (originalFilename st) (isProcessing st) (taskId st)
         (result_dir r) true (consoleMessages st) (elapsedTime st)
         (Some runtime) (hasRestoredState st) (pollIntervalRef st) (timerIntervalRef st)
         (intervals st) (next_interval st) (sockets st) (toasts st))
  else st.

(** One firing of the polling callback of [startPolling(task, startTime)]
    with the answers of the server ([None]: the request threw, which the
    callback logs and ignores). *)
Definition poll_tick (startTime now : Z) (progress : option ProgressData)
    (result : option ResultData) (st : State) : State :=
  match progress with
  | Some p =>
      if observes_terminal p then
        let st1 := clearInterval (pollIntervalRef st) st in
        let st2 := clearInterval (timerIntervalRef st1) st1 in
        let st3 := setIsProcessing false st2 in
        if str_eq (progress_state p) "finished" then
          match result with
          | Some r => show_result now startTime r st3
          | None => st3
          end
        else if str_eq (progress_state p) "cancelled" then
          toast (toast_info "Task was cancelled" None) st3
        else if str_eq (progress_state p) "error" then
          toast (toast_error "Processing failed" None) st3
        else st3
      else st
  | None => st
  end.

(** One firing of the elapsed-time callback. *)
Definition timer_tick (startTime now : Z) (st : State) : State :=
  setElapsedTime (seconds_since now (Some startTime)) st.

(** The interval [id] fires: nothing happens once it has been cleared. *)
Definition fire (id : nat) (now : Z) (progress : option ProgressData)
    (result : option ResultData) (st : State) : State :=
  match intervals st !! id with
  | Some (Timer startTime) => timer_tick startTime now st
  | Some (Poller _ startTime) => poll_tick startTime now progress result st
  | None => st
  end.

(** [a || b || ''] on strings *)
Definition first_truthy (a b : string) : string :=
  if truthy a then a else if truthy b then b else "".

Section WithDate.
Context (getTime : string -> option Z).

(** The restoration performed by [checkRunningJobs] for the running
    job found in the history; [now] is [Date.now()] while this
    synchronous block runs. *)
Definition restore (now : Z) (runningJob : Job) (st : State) : State :=
  let st1 :=
    mkState (uploadedFilePath st)
      (first_truthy (JobQueuePanel.original_filename runningJob)
                    (JobQueuePanel.filename runningJob))
      true (JobQueuePanel.task_id runningJob)
      (resultDir st) (parseCompleted st) (consoleMessages st) (elapsedTime st)
      (totalRuntime st) true (pollIntervalRef st) (timerIntervalRef st)
      (intervals st) (next_interval st) (sockets st) (toasts st) in
  let st2 :=
    if truthy (JobQueuePanel.timestamp runningJob)
    then setElapsedTime
           (seconds_since now (getTime (JobQueuePanel.timestamp runningJob))) st1
    else st1 in
  let st3 :=
    toast (toast_info "Resuming running job"
             (Some ("Task " +:+ JobQueuePanel.task_id runningJob
                    +:+ " is still processing"))) st2 in
  startPolling (JobQueuePanel.task_id runningJob) now st3.

(** [checkRunningJobs], run once by the mount effect. The function first
    tests [hasRestoredState] and returns at once when it is set; otherwise
    it fetches the history and goes on with the answer. *)
Definition checkRunningJobs_guard (st : State) : bool := negb (hasRestoredState st).

(** The rest of [checkRunningJobs], on the answer of the history request
    ([None]: the fetch threw, which is logged and ignored). *)
Definition checkRunningJobs_answer (now : Z) (answer : option HistoryData) (st : State)
    : State :=
  match answer with
  | Some data =>
      match str_eq (JobQueuePanel.data_status data) "success",
            JobQueuePanel.data_jobs data with
      | true, Some jobs =>
          match find JobQueuePanel.is_running jobs with
          | Some runningJob => restore now runningJob st
          | None => st
          end
      | _, _ => st
      end
  | None => st
  end.

(** One run of [checkRunningJobs] whose request is answered before the
    function is entered again. *)
Definition checkRunningJobs (now : Z) (answer : option HistoryData) (st : State) : State :=
  if checkRunningJobs_guard st then checkRunningJobs_answer now answer st else st.
End WithDate.

(** A message of the console socket, after [JSON.parse]. *)
Record ConsoleMessage := mkConsoleMessage { type : string; content : string }.

(** [ws.onmessage] *)
Definition onmessage (message : ConsoleMessage) (st : State) : State :=
  if str_eq (type message) "log"
  then setConsoleMessages (λ prev, prev ++ [content message]) st
  else st.

(** The first, synchronous part of [handleStartParsing], and whether the
    start request is sent: without an uploaded file an error is shown and
    the handler returns; otherwise the run state is reset and the request
    goes out. *)
Definition handleStartParsing_begin (st : State) : State * bool :=
  if negb (truthy (uploadedFilePath st))
  then (toast (toast_error "Please upload a file first" None) st, false)
  else
    (mkState (uploadedFilePath st) (originalFilename st) true (taskId st)
       "" false [] (Some 0) None (hasRestoredState st)
       (pollIntervalRef st) (timerIntervalRef st)
       (intervals st) (next_interval st) (sockets st) (toasts st),
     true).

(** The answer of [/api/start]. *)
Record StartData := mkStart {
  start_status : string;
  start_task_id : string;
  start_message : option string
}.

(** The second part of [handleStartParsing], on the answer of the
    server: the console socket of the task is opened and the polling
    starts. *)
Definition handleStartParsing_answer (startTime : Z) (answer : option StartData)
    (st : State) : State :=
  match answer with
  | Some data =>
      if str_eq (start_status data) "running" && truthy (start_task_id data) then
        startPolling (start_task_id data) startTime
          (mkState (uploadedFilePath st) (originalFilename st) (isProcessing st)
             (start_task_id data)
             (resultDir st) (parseCompleted st) (consoleMessages st) (elapsedTime st)
             (totalRuntime st) (hasRestoredState st)
             (pollIntervalRef st) (timerIntervalRef st)
             (intervals st) (next_interval st)
             (sockets st ++ [start_task_id data]) (toasts st))
      else
        setIsProcessing false
          (toast (toast_error "Failed to start processing task"
                    (Some (first_truthy (default "" (start_message data))
                                        "Unknown error"))) st)
  | None =>
      setIsProcessing false
        (toast (toast_error "Processing failed"
                  (Some "Unable to connect to backend service")) st)
  end.

(** [handleFileChange(null)]: the file is removed and the run state is
    reset; the refs and the running intervals are left as they are. *)
Definition handleFileChange_null (st : State) : State :=
  mkState "" "" false "" "" false [] (Some 0) None (hasRestoredState st)
    (pollIntervalRef st) (timerIntervalRef st)
    (intervals st) (next_interval st) (sockets st) (toasts st).

(** [handleFileChange(file)] once the upload has succeeded: the path and
    the name of the file are kept ([name] is
    [data.original_filename || file.name]). *)
Definition handleFileChange_uploaded (file_path name file_name : string) (st : State)
    : State :=
  toast (toast_success "File uploaded successfully" (Some ("Uploaded " +:+ file_name)))
    (mkState file_path name (isProcessing st) (taskId st)
       (resultDir st) (parseCompleted st) (consoleMessages st) (elapsedTime st)
       (totalRuntime st) (hasRestoredState st) (pollIntervalRef st) (timerIntervalRef st)
       (intervals st) (next_interval st) (sockets st) (toasts st)).


(** What happens to the mounted component while a console socket is
    open: a message of the socket arrives, or an interval fires. *)
Inductive Event :=
  | on_message (message : ConsoleMessage)
  | on_interval (id : nat) (now : Z) (progress : option ProgressData)
      (result : option ResultData).

Definition handle (ev : Event) (st : State) : State :=
  match ev with
  | on_message m => onmessage m st
  | on_interval id now progress result => fire id now progress result st
  end.

Definition run (evs : list Event) (st : State) : State :=
  foldl (λ s ev, handle ev s) st evs.

(** The contents of the log messages among the events, in arrival order. *)
Definition log_lines (evs : list Event) : list string :=
  omap (λ ev, match ev with
              | on_message m => if str_eq (type m) "log" then Some (content m) else None
              | on_interval _ _ _ _ => None
              end) evs.

End App.

(** ** The job orchestration service

    The server side (job records, runner, log broadcaster) is not part of
    the client sources; its operations are modelled from the written
    contract of the orchestration subsystem. *)
Module Orchestrator.

(** Modelled from the spec: the status of a JobRecord (data model, §3). *)
Inductive Status := pending | running | finished | error | cancelled.

Global Instance Status_eq_dec : EqDecision Status.
Proof. solve_decision. Defined.

(** Modelled from the spec: the terminal states. *)
Definition terminal (s : Status) : bool :=
  match s with
  | finished | error | cancelled => true
  | pending | running => false
  end.

(** Modelled from the spec: a JobRecord, one per submission. *)
Record JobRecord := mkJobRecord {
  id : nat;
  status : Status;
  sourceFileName : string;
  displayName : string;
  submittedAt : Z;
  startedAt : option Z;
  endedAt : option Z;
  resultLocation : option string;
  errorDetail : option string
}.

(** Modelled from the spec: the errors returned to the caller of an
    operation. *)
Inductive Error := InvalidInput | NotFound | Conflict | NotReady.

Inductive Result (A : Type) :=
  | Ok (a : A)
  | Err (e : Error).
Global Arguments Ok {A} a.
Global Arguments Err {A} e.

(** Modelled from the spec: the invocation spec of a submission. *)
Record InvocationSpec := mkSpec {
  artifact : string;       (* reference to the input artifact *)
  configuration : string   (* the prompt *)
}.

(** Modelled from the spec: how the external process of the running job
    ended. *)
Inductive Exit :=
  | exited (code : Z) (result : option (string * string)) (message : option string)
      (* exit code; location and text of the result artifact if one is
         found; the process's own error message if any *)
  | launch_failed (reason : string).

(** Modelled from the spec: the textual export formats and the packaged
    result. *)
Inductive Format := mmd | md | txt.

Record Package := mkPackage { package_format : Format; package_body : string }.

(** Modelled from the spec: the state of the orchestration subsystem
    (JobRecord Store, Job Runner queue and worker slot, result
    artifacts); the server sources are missing. [store], [results] and
    [next_id] are durable, the other fields live in the runner process. *)
Record System := mkSystem {
  store : gmap nat JobRecord;
  results : gmap nat string;       (* result artifacts, by job *)
  next_id : nat;
  queue : list nat;                (* pending jobs in arrival order *)
  slot : option nat;               (* the job whose process is live *)
  cancel_requested : gset nat
}.

(** The record mutators of the transitions: a start sets [startedAt], an
    end sets [endedAt] with the result location or the error detail. *)
Definition start_at (now : Z) (r : JobRecord) : JobRecord :=
  mkJobRecord (id r) running (sourceFileName r) (displayName r) (submittedAt r)
    (Some now) (endedAt r) (resultLocation r) (errorDetail r).

Definition end_at (now : Z) (s : Status) (loc detail : option string) (r : JobRecord)
    : JobRecord :=
  mkJobRecord (id r) s (sourceFileName r) (displayName r) (submittedAt r)
    (startedAt r) (Some now) loc detail.

(** Modelled from the spec: the diagnostic of a record orphaned by a
    restart. *)
Definition orphan_diagnostic : string :=
  "the process of this job did not survive a restart and cannot be recovered".

(** Modelled from the spec: startup reconciliation of one record. A record
    found [running] has no live process and is forced to [error]. *)
Definition reconcile (now : Z) (r : JobRecord) : JobRecord :=
  match status r with
  | running => end_at now error None (Some orphan_diagnostic) r
  | _ => r
  end.

Definition is_pending (st : gmap nat JobRecord) (i : nat) : bool :=
  match st !! i with
  | Some r => bool_decide (status r = pending)
  | None => false
  end.

(** Modelled from the spec: Runner startup on the persisted state.
    Reconciliation comes first; the runner that accepts jobs is the value
    returned. Pending records are queued again in arrival order. *)
Definition startup (now : Z) (persisted : gmap nat JobRecord) (res : gmap nat string)
    (next : nat) : System :=
  let st := reconcile now <$> persisted in
  mkSystem st res next (filter (λ i, is_pending st i = true) (seq 0 next)) None ∅.

(** Modelled from the spec: [submit]. *)
Definition submit (now : Z) (spec : InvocationSpec) (sys : System) : Result nat * System :=
  if bool_decide (artifact spec = "") || bool_decide (configuration spec = "")
  then (Err InvalidInput, sys)
  else
    let i := next_id sys in
    let r := mkJobRecord i pending (artifact spec) (artifact spec) now None None None None in
    (Ok i,
     mkSystem (<[i := r]> (store sys)) (results sys) (S i) (queue sys ++ [i]) (slot sys)
       (cancel_requested sys)).

(** Modelled from the spec: the runner takes the job at the front of the
    queue when the worker slot is free. *)
Definition dispatch (now : Z) (sys : System) : System :=
  match slot sys, queue sys with
  | None, i :: rest =>
      mkSystem (alter (start_at now) i (store sys)) (results sys) (next_id sys) rest
        (Some i) (cancel_requested sys)
  | _, _ => sys
  end.

(** Modelled from the spec: outcome classification. Cancellation intent
    takes precedence over the exit code. *)
Definition classify (cancelled_by_user : bool) (e : Exit)
    : Status * option string * option string * option string :=
  if cancelled_by_user then (cancelled, None, None, None)
  else match e with
       | exited code (Some (loc, text)) msg =>
           if code =? 0 then (finished, Some loc, None, Some text)
           else (error, None, Some (default "the process exited with a failure code" msg), None)
       | exited code None msg =>
           (error, None, Some (default "the expected result artifact is missing" msg), None)
       | launch_failed reason => (error, None, Some reason, None)
       end.

(** Modelled from the spec: the process in the worker slot has ended. *)
Definition process_exit (now : Z) (e : Exit) (sys : System) : System :=
  match slot sys with
  | Some i =>
      let '(s, loc, detail, text) := classify (bool_decide (i ∈ cancel_requested sys)) e in
      mkSystem (alter (end_at now s loc detail) i (store sys))
        (match text with Some t => <[i := t]> (results sys) | None => results sys end)
        (next_id sys) (queue sys) None (cancel_requested sys ∖ {[i]})
  | None => sys
  end.

(** Modelled from the spec: [cancel]. A pending job is cancelled without
    a process ever starting; a running job's process is signalled and the
    record changes on its exit; on a terminal job nothing happens. *)
Definition cancel (now : Z) (i : nat) (sys : System) : Result Status * System :=
  match store sys !! i with
  | None => (Err NotFound, sys)
  | Some r =>
      match status r with
      | pending =>
          (Ok cancelled,
           mkSystem (alter (end_at now cancelled None None) i (store sys)) (results sys)
             (next_id sys) (filter (λ j, j ≠ i) (queue sys)) (slot sys)
             (cancel_requested sys))
      | running =>
          (Ok running,
           mkSystem (store sys) (results sys) (next_id sys) (queue sys) (slot sys)
             ({[i]} ∪ cancel_requested sys))
      | s => (Ok s, sys)
      end
  end.

(** Modelled from the spec: [delete]. *)
Definition delete_job (i : nat) (sys : System) : Result unit * System :=
  match store sys !! i with
  | None => (Err NotFound, sys)
  | Some r =>
      if terminal (status r) then
        (Ok (),
         mkSystem (delete i (store sys)) (delete i (results sys)) (next_id sys) (queue sys)
           (slot sys) (cancel_requested sys))
      else (Err Conflict, sys)
  end.

(** Modelled from the spec: [fetchResultPackage]. *)
Definition fetchResultPackage (i : nat) (f : Format) (sys : System) : Result Package :=
  match store sys !! i with
  | None => Err NotFound
  | Some r =>
      match status r with
      | finished => Ok (mkPackage f (default "" (results sys !! i)))
      | _ => Err NotReady
      end
  end.

(** Modelled from the spec: [status]. *)
Definition status_of (i : nat) (sys : System) : Result JobRecord :=
  match store sys !! i with
  | Some r => Ok r
  | None => Err NotFound
  end.

(** Modelled from the spec: [list]; the ids of the records present. *)
Definition list_ids (sys : System) : list nat := (map_to_list (store sys)).*1.

(** The events that change the state of the subsystem. *)
Inductive Event :=
  | ev_submit (now : Z) (spec : InvocationSpec)
  | ev_dispatch (now : Z)
  | ev_exit (now : Z) (e : Exit)
  | ev_cancel (now : Z) (i : nat)
  | ev_delete (i : nat)
  | ev_restart (now : Z).

Definition step (ev : Event) (sys : System) : System :=
  match ev with
  | ev_submit now spec => (submit now spec sys).2
  | ev_dispatch now => dispatch now sys
  | ev_exit now e => process_exit now e sys
  | ev_cancel now i => (cancel now i sys).2
  | ev_delete i => (delete_job i sys).2
  | ev_restart now => startup now (store sys) (results sys) (next_id sys)
  end.

Definition run (evs : list Event) (sys : System) : System :=
  foldl (λ s ev, step ev s) sys evs.

(** The transitions of the job state machine that the operations above
    perform. *)
Inductive transition : Status -> Status -> Prop :=
  | t_start : transition pending running
  | t_cancel_pending : transition pending cancelled
  | t_finish : transition running finished
  | t_fail : transition running error
  | t_cancel_running : transition running cancelled.

(** The path [pending → running → {finished | error | cancelled}] alone. *)
Inductive drawn_transition : Status -> Status -> Prop :=
  | d_start : drawn_transition pending running
  | d_finish : drawn_transition running finished
  | d_fail : drawn_transition running error
  | d_cancel : drawn_transition running cancelled.

(** The first start of the service, with nothing persisted. *)
Definition boot (now : Z) : System := startup now ∅ ∅ 0.

(** The states the service can be in. *)
Definition reachable (sys : System) : Prop := ∃ now evs, sys = run evs (boot now).

(** The queue holds pending jobs, each once; the worker slot holds the
    running job; ids at or above [next_id] are unused. *)
Definition well_formed (sys : System) : Prop :=
  (∀ i r, store sys !! i = Some r → (i < next_id sys)%nat)
  ∧ (∀ i, i ∈ queue sys → ∃ r, store sys !! i = Some r ∧ status r = pending)
  ∧ NoDup (queue sys)
  ∧ (∀ i, slot sys = Some i → ∃ r, store sys !! i = Some r ∧ status r = running)
  ∧ (∀ i r, store sys !! i = Some r → status r = running → slot sys = Some i).

(** A record that claims to run while no process is live for it. *)
Definition stale (sys : System) (i : nat) : Prop :=
  ∃ r, store sys !! i = Some r ∧ status r = running ∧ slot sys ≠ Some i.

End Orchestrator.

(** ** The display name as the specification words it *)
Module DisplayName.
Import JS.

(** The original file name when it is non-empty after trimming;
    otherwise the pattern-derived name when the stored file name matches
    the upload pattern; otherwise the stored file name when non-empty;
    otherwise the name derived from the id. *)
Definition documented (job : HistoryPanel.HistoryJob) : string :=
  if truthy (trim (HistoryPanel.original_filename job)) then
    HistoryPanel.original_filename job
  else match UploadPattern.exec (HistoryPanel.filename job) with
       | Some ext => "Document." +:+ ext
       | None =>
           if truthy (HistoryPanel.filename job) then HistoryPanel.filename job
           else "Task " +:+ HistoryPanel.task_id job
       end.

End DisplayName.

(** ** The status values surfaced to the client *)
Module StatusValue.

Definition surfaced : list string :=
  ["pending"; "running"; "finished"; "error"; "cancelled"].

(** The values that have a [case] of their own in [getStatusIcon] and in
    [getStatusBadge]. *)
Definition with_case : list string := ["running"; "finished"; "error"; "cancelled"].

End StatusValue.

(** ** Vocabulary of the ordering properties *)
Module Order.

(** [R] holds of every pair of elements of [l], the earlier one first. *)
Definition ordered {A} (R : A -> A -> Prop) (l : list A) : Prop :=
  ∀ i j a b, (i < j)%nat → l !! i = Some a → l !! j = Some b → R a b.

Section WithDate.
Context (getTime : string -> option Z).

(** The time stamp of the job is a date. *)
Definition valid_date (j : HistoryPanel.HistoryJob) : Prop :=
  is_Some (getTime (HistoryPanel.timestamp j)).

(** The same for a job of the job-queue panel. *)
Definition queue_valid_date (j : JobQueuePanel.Job) : Prop :=
  is_Some (getTime (JobQueuePanel.timestamp j)).

(** [a] was submitted no earlier than [b]. *)
Definition not_older (a b : HistoryPanel.HistoryJob) : Prop :=
  ∃ ta tb, getTime (HistoryPanel.timestamp a) = Some ta
           ∧ getTime (HistoryPanel.timestamp b) = Some tb ∧ tb <= ta.

(** [a] was submitted strictly later than [b]. *)
Definition newer (a b : HistoryPanel.HistoryJob) : Prop :=
  ∃ ta tb, getTime (HistoryPanel.timestamp a) = Some ta
           ∧ getTime (HistoryPanel.timestamp b) = Some tb ∧ tb < ta.
End WithDate.

(** The status of the job is not the name of a member that objects
    inherit, so that its rank is a number. *)
Definition plain_status (j : HistoryPanel.HistoryJob) : Prop :=
  is_Some (HistoryPanel.status_rank (HistoryPanel.status j)).

Definition rank_le (a b : HistoryPanel.HistoryJob) : Prop :=
  ∃ ra rb, HistoryPanel.status_rank (HistoryPanel.status a) = Some ra
           ∧ HistoryPanel.status_rank (HistoryPanel.status b) = Some rb ∧ ra <= rb.

(** A running job is never behind a job that is not running. *)
Definition running_first (a b : HistoryPanel.HistoryJob) : Prop :=
  HistoryPanel.status b = "running" → HistoryPanel.status a = "running".

Definition runtime_ge (a b : HistoryPanel.HistoryJob) : Prop :=
  HistoryPanel.runtime_or_zero (HistoryPanel.runtime b)
  <= HistoryPanel.runtime_or_zero (HistoryPanel.runtime a).

Definition queue_running_first (a b : JobQueuePanel.Job) : Prop :=
  JobQueuePanel.is_running b = true → JobQueuePanel.is_running a = true.

End Order.

(** ** Sample data used in the examples *)
Module Samples.

(** [new Date(s).getTime()] on the time stamps of the examples; any
    other string is taken as an invalid date. *)
Definition getTime (s : string) : option Z :=
  if JS.str_eq s "2025-01-01T00:00:00Z" then Some 1735689600000
  else if JS.str_eq s "2025-01-01T00:01:00Z" then Some 1735689660000
  else if JS.str_eq s "2025-01-02T00:00:00Z" then Some 1735776000000
  else None.

Definition hjob (i name ts st : string) (rt : option Z) : HistoryPanel.HistoryJob :=
  HistoryPanel.mkHistoryJob i ("user_upload_20250101_000000_ab12.pdf") name ts rt st "".

Definition h1 := hjob "t1" "a.pdf" "2025-01-01T00:00:00Z" "finished" (Some 12).
Definition h2 := hjob "t2" "b.pdf" "2025-01-01T00:00:00Z" "error" None.
Definition h3 := hjob "t3" "c.pdf" "2025-01-02T00:00:00Z" "running" None.
Definition h4 := hjob "t4" "d.pdf" "2025-01-01T00:01:00Z" "cancelled" (Some 40).

Definition qjob (i name ts st : string) : JobQueuePanel.Job :=
  JobQueuePanel.mkJob i "" name ts None st None.

Definition q1 := qjob "t1" "a.pdf" "2025-01-01T00:00:00Z" "finished".
Definition q2 := qjob "t2" "b.pdf" "2025-01-01T00:01:00Z" "running".
Definition q3 := qjob "t3" "c.pdf" "" "running".

(** The page once a file has been uploaded. *)
Definition ready : App.State :=
  App.mkState "uploads/user_upload_20250101_000000_ab12.pdf" "a.pdf" false "" "" false []
    (Some 0) None false None None ∅ 1 [] [].

Definition started : App.StartData := App.mkStart "running" "t7" None.

Definition log (s : string) : App.Event := App.on_message (App.mkConsoleMessage "log" s).

(** The page polling for task "t7", started at time 0. *)
Definition polling : App.State := App.startPolling "t7" 0 ready.

Definition spec_a : Orchestrator.InvocationSpec :=
  Orchestrator.mkSpec "uploads/a.pdf" "<image>Convert the document to markdown.".

(** The service after one submission, and after that job has started. *)
Definition queued : Orchestrator.System :=
  Orchestrator.run [Orchestrator.ev_submit 10 spec_a] (Orchestrator.boot 0).
Definition busy : Orchestrator.System :=
  Orchestrator.run [Orchestrator.ev_submit 10 spec_a; Orchestrator.ev_dispatch 11]
    (Orchestrator.boot 0).
Definition done_ok : Orchestrator.System :=
  Orchestrator.run
    [Orchestrator.ev_submit 10 spec_a; Orchestrator.ev_dispatch 11;
     Orchestrator.ev_exit 50
       (Orchestrator.exited 0 (Some ("results/0", "# Page 1")) None)]
    (Orchestrator.boot 0).

(** A second run started from the page while the first one is still
    polled: the file is removed, another one is uploaded, and processing
    is started again. *)
Definition first_run : App.State :=
  App.handleStartParsing_answer 0 (Some started) (App.handleStartParsing_begin ready).1.
Definition second_run : App.State :=
  App.handleStartParsing_answer 100 (Some (App.mkStart "running" "t8" None))
    (App.handleStartParsing_begin
       (App.handleFileChange_uploaded "uploads/user_upload_20250101_000100_cd34.pdf"
          "b.pdf" "b.pdf" (App.handleFileChange_null first_run))).1.

(** A record whose stored file name is a single space. *)
Definition blank_name : HistoryPanel.HistoryJob :=
  HistoryPanel.mkHistoryJob "t9" " " "" "2025-01-01T00:00:00Z" None "finished" "".

(** A record without an original file name. *)
Definition unnamed : HistoryPanel.HistoryJob :=
  HistoryPanel.mkHistoryJob "t8" "user_upload_20250101_000000_ab12.pdf" ""
    "2025-01-01T00:00:00Z" None "finished" "".

End Samples.

(** ** config/api.ts and the address of the console socket *)
Module Api.

(** [getBackendUrl()]: the host the page was loaded from, on the port of
    the backend; [None] is a run outside a browser. *)
Definition getBackendUrl (hostname : option string) : string :=
  match hostname with
  | Some h => "http://" +:+ h +:+ ":8002"
  | None => "http://127.0.0.1:8002"
  end.

Fixpoint drop_chars (n : nat) (s : string) : string :=
  match n, s with
  | S n', String _ s' => drop_chars n' s'
  | _, _ => s
  end.

(** [s.replace(pat, rep)] for a string pattern: the first occurrence
    only ([rep] holds no [$]). *)
Fixpoint replace_first (pat rep s : string) : string :=
  if String.prefix pat s then rep +:+ drop_chars (String.length pat) s
  else match s with
       | EmptyString => EmptyString
       | String c s' => String c (replace_first pat rep s')
       end.

(** The [wsUrl] of [handleStartParsing]. *)
Definition console_url (base task_id : string) : string :=
  replace_first "http" "ws" base +:+ "/ws/console/" +:+ task_id.

(** The host and port every address of the client points at. *)
Definition authority (hostname : option string) : string :=
  default "127.0.0.1" hostname +:+ ":8002".

End Api.

(** ** HistoryPanel.tsx: dates, file icons, cancelling, the list *)
Module HistoryView.
Import JS.
Export HistoryPanel (HistoryJob).

(** [formatTime(seconds)] *)
Definition formatTime (seconds : option Z) : string :=
  match seconds with
  | None => "N/A"
  | Some s => Num.format_seconds s
  end.

Section WithDate.
(** [new Date(s).getTime()] and [new Date(s).toLocaleDateString()]; the
    latter is the text the platform gives, "Invalid Date" included. *)
Context (getTime : string -> option Z) (toLocaleDateString : string -> string).

(** [formatDate(timestamp)] at the time [now]. With an invalid date every
    comparison is false and the platform's text is returned. *)
Definition formatDate (now : Z) (timestamp : string) : string :=
  match getTime timestamp with
  | None => toLocaleDateString timestamp
  | Some t =>
      let diffMs := now - t in
      let diffMins := diffMs / 60000 in
      let diffHours := diffMs / 3600000 in
      let diffDays := diffMs / 86400000 in
      if diffMins <? 1 then "Just now"
      else if diffMins <? 60 then Num.to_string diffMins +:+ "m ago"
      else if diffHours <? 24 then Num.to_string diffHours +:+ "h ago"
      else if diffDays <? 7 then Num.to_string diffDays +:+ "d ago"
      else toLocaleDateString timestamp
  end.
End WithDate.

(** [c.toLowerCase()] on ASCII letters. *)
Definition to_lower (c : ascii) : ascii :=
  let n := nat_of_ascii c in
  if ((65 <=? n) && (n <=? 90))%nat then ascii_of_nat (n + 32) else c.

(** [s.split('.').pop()]: the text after the last dot, the whole string
    when there is none. *)
Definition last_segment (l : list ascii) : list ascii :=
  foldl (λ acc c, if Ascii.eqb c "." then [] else acc ++ [c]) [] l.

Definition extension (filename : string) : string :=
  of_chars (to_lower <$> last_segment (chars filename)).

Inductive FileIconKind := FileText | Image | File.

Record FileIcon := mkFileIcon { file_icon : FileIconKind; file_icon_class : string }.

Definition image_extensions : list string := ["png"; "jpg"; "jpeg"; "gif"; "webp"].

(** The icon chosen for an extension. *)
Definition icon_of_extension (ext : string) : FileIcon :=
  if str_eq ext "pdf" then mkFileIcon FileText "h-5 w-5 text-red-500"
  else if existsb (str_eq ext) image_extensions then mkFileIcon Image "h-5 w-5 text-blue-500"
  else mkFileIcon File "h-5 w-5 text-gray-500".

(** [getFileIcon(job)] *)
Definition getFileIcon (job : HistoryJob) : FileIcon :=
  let filename :=
    App.first_truthy (HistoryPanel.original_filename job) (HistoryPanel.filename job) in
  icon_of_extension (extension filename).

(** The body of the answer to the cancel request. *)
Inductive CancelAnswer :=
  | cancel_answer (status : string) (message : option string).

(** [handleCancelTask(taskId)], first part: the task is marked as being
    cancelled and the request is sent. *)
Definition handleCancelTask_begin (taskId : string) (cancelling : gset string)
    : gset string :=
  {[taskId]} ∪ cancelling.

(** [handleCancelTask(taskId)], on the answer ([None]: the request
    failed): the toast, whether the history is fetched again, and the
    [finally] block that takes the mark away. *)
Definition handleCancelTask_end (taskId : string) (answer : option CancelAnswer)
    (cancelling : gset string) : gset string * HistoryPanel.Toast * bool :=
  let cancelling' := cancelling ∖ {[taskId]} in
  match answer with
  | Some (cancel_answer st msg) =>
      if str_eq st "success"
      then (cancelling', HistoryPanel.toast_success "Task cancelled", true)
      else (cancelling', HistoryPanel.toast_error "Failed to cancel task" msg, false)
  | None => (cancelling', HistoryPanel.toast_error "Failed to cancel task" None, false)
  end.

(** [fetchHistory] on the answer of the server: the new [jobs] and the
    toast of a failed request; [isLoading] is true from the call to the
    answer and false afterwards. *)
Definition fetchHistory (jobs : list HistoryJob)
    (answer : option (string * option (list HistoryJob)))
    : list HistoryJob * option HistoryPanel.Toast :=
  match answer with
  | Some (st, Some fetched) => if str_eq st "success" then (fetched, None) else (jobs, None)
  | Some (_, None) => (jobs, None)
  | None => (jobs, Some (HistoryPanel.toast_error "Failed to load history" None))
  end.

(** [runningCount] *)
Definition runningCount (jobs : list HistoryJob) : nat :=
  length (filter (λ j, str_eq (HistoryPanel.status j) "running" = true) jobs).

(** One card of the list. *)
Record Row := mkRow {
  row_key : string;
  row_title : string;
  row_icon : FileIcon;
  row_date : string;
  row_runtime : option string;
  row_actions : HistoryPanel.Actions;
  row_badge : HistoryPanel.Badge
}.

Inductive Body :=
  | Loading                     (* "Loading history..." *)
  | Cards (rows : list Row)
  | NoHistory.                  (* "No job history yet" *)

Section WithDate'.
Context (getTime : string -> option Z) (toLocaleDateString : string -> string).

Definition row (now : Z) (cancelling : gset string) (job : HistoryJob) : Row :=
  mkRow (HistoryPanel.task_id job) (HistoryPanel.getDisplayName job) (getFileIcon job)
    (formatDate getTime toLocaleDateString now (HistoryPanel.timestamp job))
    (match HistoryPanel.runtime job with
     | Some r =>
         if negb (str_eq (HistoryPanel.status job) "running")
         then Some (formatTime (Some r)) else None
     | None => None
     end)
    (HistoryPanel.row_actions cancelling job)
    (HistoryPanel.getStatusBadge (HistoryPanel.status job)).

(** The content area of the panel. *)
Definition body (now : Z) (isLoading : bool) (sortBy : HistoryPanel.SortOption)
    (cancelling : gset string) (jobs : list HistoryJob) : Body :=
  let sorted := HistoryPanel.sortedJobs getTime sortBy jobs in
  if isLoading && (length jobs =? 0)%nat then Loading
  else if (0 <? length sorted)%nat then Cards (row now cancelling <$> sorted)
  else NoHistory.
End WithDate'.

End HistoryView.

(** ** The Log Broadcaster *)
Module Broadcaster.

(** The Log Broadcaster (spec 4.2) is server code that is not under
    src/. [append], [subscribe], [snapshot] and unsubscribing follow the
    contract of 4.2. Of the two mechanisms the spec allows for an append
    that never waits for a subscriber, this is the asynchronous delivery:
    an appended line is queued for every subscriber of the job that is
    active at that time and reaches the subscriber with a later
    [deliver]; a subscriber that joins late is queued only the lines
    appended after it joined. *)

(** Modelled from the spec: a live subscription to the lines of one job. *)
Record Subscriber := mkSubscriber {
  job : nat;
  joined : nat;                  (* the lines of the job appended before it joined *)
  queued : list string;          (* appended, not yet delivered *)
  received : list string         (* delivered, in the order of delivery *)
}.

(** Modelled from the spec: the state of the broadcaster. *)
Record State := mkState {
  lines : gmap nat (list string);        (* per job, the lines appended so far *)
  subscribers : gmap nat Subscriber;     (* the live subscriptions *)
  next_subscriber : nat
}.


(** Modelled from the spec: [snapshot(jobId)], the lines already seen, in
    order. *)
Definition snapshot (j : nat) (st : State) : list string := default [] (lines st !! j).

(** Modelled from the spec: a line of job [j] is queued for a subscriber
    of that job. *)
Definition enqueue (j : nat) (line : string) (s : Subscriber) : Subscriber :=
  if decide (job s = j)
  then mkSubscriber (job s) (joined s) (queued s ++ [line]) (received s)
  else s.

(** Modelled from the spec: [append(jobId, line)]; it waits for no
    subscriber. *)
Definition append (j : nat) (line : string) (st : State) : State :=
  mkState (<[j := snapshot j st ++ [line]]> (lines st))
    (enqueue j line <$> subscribers st) (next_subscriber st).

(** Modelled from the spec: [subscribe(jobId)]; the subscriber receives
    the lines appended from now on. *)
Definition subscribe (j : nat) (st : State) : nat * State :=
  let id := next_subscriber st in
  (id,
   mkState (lines st)
     (<[id := mkSubscriber j (length (snapshot j st)) [] []]> (subscribers st)) (S id)).

(** Modelled from the spec: the next queued line of a subscription is
    handed to its consumer. *)
Definition deliver (id : nat) (st : State) : State :=
  match subscribers st !! id with
  | Some s =>
      match queued s with
      | line :: rest =>
          mkState (lines st)
            (<[id := mkSubscriber (job s) (joined s) rest (received s ++ [line])]>
               (subscribers st))
            (next_subscriber st)
      | [] => st
      end
  | None => st
  end.

(** Modelled from the spec: cancelling a subscription, or its abrupt
    disconnect. *)
Definition unsubscribe (id : nat) (st : State) : State :=
  mkState (lines st) (delete id (subscribers st)) (next_subscriber st).

(** Modelled from the spec: what happens to the broadcaster. *)
Inductive Event :=
  | ev_append (j : nat) (line : string)
  | ev_subscribe (j : nat)
  | ev_deliver (id : nat)
  | ev_unsubscribe (id : nat).

Definition step (ev : Event) (st : State) : State :=
  match ev with
  | ev_append j line => append j line st
  | ev_subscribe j => (subscribe j st).2
  | ev_deliver id => deliver id st
  | ev_unsubscribe id => unsubscribe id st
  end.

Definition run (evs : list Event) (st : State) : State :=
  foldl (λ s ev, step ev s) st evs.




End Broadcaster.

(** ** App.tsx: the handlers of the page, run one after another *)
Module Page.
Import JS.
Export App (State).

(** The answer of [/api/upload]. *)
Record UploadData := mkUpload {
  upload_status : string;
  upload_file_path : string;
  upload_original_filename : string;      (* absent is [""] *)
  upload_message : option string
}.

(** [handleFileChange(file)] for a file, on the answer of the upload
    request ([None]: the request threw). *)
Definition handleFileChange_answer (file_name : string) (answer : option UploadData)
    (st : State) : State :=
  match answer with
  | Some data =>
      if str_eq (upload_status data) "success" then
        App.handleFileChange_uploaded (upload_file_path data)
          (if truthy (upload_original_filename data)
           then upload_original_filename data else file_name)
          file_name st
      else
        App.toast (App.toast_error "File upload failed"
                     (Some (App.first_truthy (default "" (upload_message data))
                                             "Unknown error"))) st
  | None =>
      App.toast (App.toast_error "File upload failed"
                   (Some "Unable to connect to backend service")) st
  end.

(** [handleStartParsing] when nothing else happens between the click and
    the answer of [/api/start]. *)
Definition handleStartParsing (startTime : Z) (answer : option App.StartData)
    (st : State) : State :=
  let '(st1, sent) := App.handleStartParsing_begin st in
  if sent then App.handleStartParsing_answer startTime answer st1 else st1.

(** The first three statements of the polling callback once it has seen
    a terminal state: both refs are cleared and processing is off. *)
Definition stopped (st : State) : State :=
  App.setIsProcessing false
    (App.clearInterval
       (App.timerIntervalRef (App.clearInterval (App.pollIntervalRef st) st))
       (App.clearInterval (App.pollIntervalRef st) st)).

(** The cleanup of the mount effect, run when the page is unmounted. *)
Definition unmount (st : State) : State :=
  let st1 := App.clearInterval (App.pollIntervalRef st) st in
  App.clearInterval (App.timerIntervalRef st1) st1.

(** The pieces of code of the page that run to completion without being
    interrupted: the handlers up to their first [await], their
    continuations on the answer of the server, and the callbacks. *)
Inductive Action :=
  | history_answer (now : Z) (answer : option JobQueuePanel.HistoryData)
  | file_removed
  | upload_answer (file_name : string) (answer : option UploadData)
  | parse_clicked
  | start_answer (startTime : Z) (answer : option App.StartData)
  | socket_message (message : App.ConsoleMessage)
  | interval_fired (id : nat) (now : Z) (progress : option App.ProgressData)
      (result : option App.ResultData).

Section WithDate.
Context (getTime : string -> option Z).

Definition act (a : Action) (st : State) : State :=
  match a with
  | history_answer now answer => App.checkRunningJobs_answer getTime now answer st
  | file_removed => App.handleFileChange_null st
  | upload_answer file_name answer => handleFileChange_answer file_name answer st
  | parse_clicked => (App.handleStartParsing_begin st).1
  | start_answer startTime answer => App.handleStartParsing_answer startTime answer st
  | socket_message m => App.onmessage m st
  | interval_fired id now progress result => App.fire id now progress result st
  end.

(** The page after the pieces [l] have run in this order. No order is
    excluded: also those the page cannot show (an answer without its
    request) are covered. *)
Definition run (l : list Action) (st : State) : State :=
  foldl (λ s a, act a s) st l.


End WithDate.

(** The contents of the log messages among the pieces, in arrival
    order. *)
Definition log_lines (l : list Action) : list string :=
  omap (λ a, match a with
             | socket_message m =>
                 if str_eq (App.type m) "log" then Some (App.content m) else None
             | _ => None
             end) l.

(** What the page holds of the browser's timers: the live intervals,
    the two refs, and the next interval id. *)
Definition timers (st : State) : gmap nat App.Interval * option nat * option nat * nat :=
  (App.intervals st, App.pollIntervalRef st, App.timerIntervalRef st,
   App.next_interval st).

(** Timers and pollers come in pairs: the live intervals are pairs of a
    timer and, under the next id, a poller with the same start time; the
    refs are both null or hold the two ids of one such pair, live or
    cleared; every live id has been handed out. *)
Definition paired (st : State) : Prop :=
  (∀ id iv, App.intervals st !! id = Some iv → (id < App.next_interval st)%nat)
  ∧ ((App.pollIntervalRef st = None ∧ App.timerIntervalRef st = None)
     ∨ ∃ t, App.timerIntervalRef st = Some t ∧ App.pollIntervalRef st = Some (S t)
            ∧ (S t < App.next_interval st)%nat
            ∧ (∀ task s, App.intervals st !! t ≠ Some (App.Poller task s))
            ∧ (∀ s, App.intervals st !! S t ≠ Some (App.Timer s)))
  ∧ (∀ id s, App.intervals st !! id = Some (App.Timer s) →
       ∃ task, App.intervals st !! S id = Some (App.Poller task s))
  ∧ (∀ id task s, App.intervals st !! id = Some (App.Poller task s) →
       ∃ id', id = S id' ∧ App.intervals st !! id' = Some (App.Timer s)).

End Page.

(** ** FileUploader.tsx *)
Module FileUploader.

(** A [File] object; [ident] stands for the identity of the object,
    which is what [!==] compares. *)
Record File := mkFile { ident : nat; name : string; type : string }.

#[global] Instance File_eq_dec : EqDecision File.
Proof. solve_decision. Defined.

(** The mounted component with the part of the browser it acts on: its
    two state variables, the object URLs that have been created and not
    revoked, and the calls of [onFileChange] so far. An object URL is
    represented by its number; [previewUrl = None] is the empty
    string. *)
Record State := mkState {
  selectedFile : option File;
  previewUrl : option nat;
  object_urls : gset nat;
  next_url : nat;
  reported : list (option File)
}.

(** [URL.createObjectURL(file)]: a fresh URL *)
Definition createObjectURL (st : State) : nat * State :=
  let url := next_url st in
  (url, mkState (selectedFile st) (previewUrl st) ({[url]} ∪ object_urls st) (S url)
          (reported st)).

(** [if (previewUrl) URL.revokeObjectURL(previewUrl)] *)
Definition revoke (held : option nat) (st : State) : State :=
  match held with
  | Some url => mkState (selectedFile st) (previewUrl st)
                  (object_urls st ∖ {[url]}) (next_url st) (reported st)
  | None => st
  end.

Definition set_file (file : option File) (url : option nat) (st : State) : State :=
  mkState file url (object_urls st) (next_url st) (reported st).

Definition onFileChange (file : option File) (st : State) : State :=
  mkState (selectedFile st) (previewUrl st) (object_urls st) (next_url st)
    (reported st ++ [file]).

(** The effect with dependency [previewUrl]: when a render has changed
    [previewUrl], the cleanup set up by the render before it runs, with
    the value [before] it captured. *)
Definition rerender (before : option nat) (st : State) : State :=
  if decide (previewUrl st = before) then st else revoke before st.

(** [handleFileSelect]; [file] is [e.target.files?.[0]]. *)
Definition handleFileSelect (file : option File) (st : State) : State :=
  match file with
  | Some f =>
      let before := previewUrl st in
      let st1 := revoke before st in
      let st2 := onFileChange (Some f) st1 in
      let '(url, st3) := createObjectURL st2 in
      rerender before (set_file (Some f) (Some url) st3)
  | None => st
  end.

Definition handleDelete (st : State) : State :=
  let before := previewUrl st in
  let st1 := revoke before st in
  rerender before (onFileChange None (set_file None None st1)).

(** The effect with dependency [initialFile], run on mount and when the
    prop has changed. *)
Definition sync (initialFile : option File) (st : State) : State :=
  let before := previewUrl st in
  match initialFile, selectedFile st with
  | Some f, selected =>
      if decide (Some f ≠ selected) then
        let '(url, st1) := createObjectURL st in
        rerender before (set_file (Some f) (Some url) st1)
      else st
  | None, Some _ => rerender before (set_file None None st)
  | None, None => st
  end.

(** Mounting: [useState(initialFile || null)], [useState('')], then the
    effects. [urls] and [next] are the object URLs of the browser at
    that time and the number of the next one. *)
Definition mount (initialFile : option File) (urls : gset nat) (next : nat) : State :=
  sync initialFile (mkState initialFile None urls next []).

(** Unmounting runs the cleanup of the [previewUrl] effect. *)
Definition unmount (st : State) : State := revoke (previewUrl st) st.

(** What is rendered: the delete button, and the preview area. *)
Inductive Preview := Pdf (src : nat) | Img (src : nat) | Placeholder.

Definition delete_disabled (st : State) : bool :=
  match selectedFile st with Some _ => false | None => true end.

Definition preview (st : State) : Preview :=
  match previewUrl st with
  | Some url =>
      match selectedFile st with
      | Some f => if JS.str_eq (type f) "application/pdf" then Pdf url else Img url
      | None => Img url
      end
  | None => Placeholder
  end.

Inductive Event :=
  | file_chosen (file : option File)
  | delete_clicked
  | prop_changed (initialFile : option File).

Definition handle (ev : Event) (st : State) : State :=
  match ev with
  | file_chosen file => handleFileSelect file st
  | delete_clicked => handleDelete st
  | prop_changed initialFile => sync initialFile st
  end.

Definition run (evs : list Event) (st : State) : State :=
  foldl (λ s ev, handle ev s) st evs.

(** The object URL the component holds in [previewUrl], as a set. *)
Definition held (st : State) : gset nat :=
  match previewUrl st with Some url => {[url]} | None => ∅ end.

(** The object URLs of the browser are those that were there when the
    component was mounted ([urls], numbered below [next]) and the one URL
    the component holds; a held URL goes with a selected file. *)
Definition tidy (urls : gset nat) (next : nat) (st : State) : Prop :=
  object_urls st = urls ∪ held st
  ∧ (next ≤ next_url st)%nat
  ∧ (∀ url, previewUrl st = Some url → (next ≤ url < next_url st)%nat)
  ∧ (previewUrl st ≠ None → selectedFile st ≠ None).

(** The files chosen and the deletions among the events, in order. *)
Definition choices (evs : list Event) : list (option File) :=
  omap (λ ev, match ev with
              | file_chosen (Some f) => Some (Some f)
              | delete_clicked => Some None
              | file_chosen None | prop_changed _ => None
              end) evs.

End FileUploader.

(** ** HistoryPanel.tsx: the refresh effect *)
Module AutoRefresh.
Import JS.
Export HistoryPanel (HistoryJob).

(** The answer of [/api/history] as [fetchHistory] reads it. *)
Definition Answer : Type := option (string * option (list HistoryJob)).

(** The mounted panel: the [jobs] state, the [jobs] value the callback
    of the running interval closes over (that of the render in which the
    effect last ran), and the number of calls of [fetchHistory] so far. *)
Record Panel := mkPanel {
  jobs : list HistoryJob;
  seen : list HistoryJob;
  fetches : nat
}.

(** [jobs.some(job => job.status === 'running')] *)
Definition hasRunningJobs (l : list HistoryJob) : bool :=
  existsb (λ job, str_eq (HistoryPanel.status job) "running") l.

(** The effect with dependency [jobs.length]: it calls [fetchHistory]
    and starts the interval, whose callback sees the [jobs] of this
    render. *)
Definition effect (p : Panel) : Panel := mkPanel (jobs p) (jobs p) (S (fetches p)).

(** Mounting: the first render has [jobs = []], then the effect runs. *)
Definition mount : Panel := effect (mkPanel [] [] 0).

(** A manual call of [fetchHistory] (the refresh button, or after a
    deletion or a cancellation). *)
Definition refresh (p : Panel) : Panel := mkPanel (jobs p) (seen p) (S (fetches p)).

(** The interval fires. *)
Definition tick (p : Panel) : Panel :=
  if hasRunningJobs (seen p) then mkPanel (jobs p) (seen p) (S (fetches p)) else p.

(** An answer to a call of [fetchHistory] arrives: [jobs] is set, and
    the effect runs again when the render has another [jobs.length]. *)
Definition answered (answer : Answer) (p : Panel) : Panel :=
  let jobs' := (HistoryView.fetchHistory (jobs p) answer).1 in
  if (length jobs' =? length (jobs p))%nat then mkPanel jobs' (seen p) (fetches p)
  else effect (mkPanel jobs' (seen p) (fetches p)).

Inductive Event := on_tick | on_refresh | on_answer (answer : Answer).

Definition handle (ev : Event) (p : Panel) : Panel :=
  match ev with
  | on_tick => tick p
  | on_refresh => refresh p
  | on_answer answer => answered answer p
  end.

Definition run (evs : list Event) (p : Panel) : Panel :=
  foldl (λ q ev, handle ev q) p evs.

(** The answer does not change the number of jobs of a list of [n] jobs. *)
Definition keeps_length (n : nat) (ev : Event) : bool :=
  match ev with
  | on_answer (Some (st, Some fetched)) =>
      negb (str_eq st "success") || (length fetched =? n)%nat
  | _ => true
  end.

(** The calls of [fetchHistory] the events make when the interval
    callback fetches ([auto]) or not. *)
Fixpoint calls (auto : bool) (evs : list Event) : nat :=
  match evs with
  | [] => 0
  | on_tick :: evs => (if auto then 1 else 0) + calls auto evs
  | on_refresh :: evs => 1 + calls auto evs
  | on_answer _ :: evs => calls auto evs
  end.

End AutoRefresh.

(** ** Further vocabulary and sample data *)
Module Cases.

(** [a] was submitted no later than [b]. *)
Definition not_newer (getTime : string -> option Z) (a b : HistoryPanel.HistoryJob) : Prop :=
  ∃ ta tb, getTime (HistoryPanel.timestamp a) = Some ta
           ∧ getTime (HistoryPanel.timestamp b) = Some tb ∧ ta <= tb.

(** The row of the history list shows a cancel button. *)
Definition has_cancel (r : HistoryView.Row) : Prop :=
  is_Some (HistoryPanel.cancel_button (HistoryView.row_actions r)).

(** The platform's date text in the examples. *)
Definition toLocaleDateString (s : string) : string := "1/1/2025".



End Cases.

(** * Properties *)

(** ** The sort of the client *)
Section SortFacts.
Context {A : Type} (cmp : A -> A -> JS.cmp_result).

Lemma sort_insert_perm x l : JS.sort_insert cmp x l ≡ₚ x :: l.
Proof.
  induction l as [|y l IH]; simpl; [done|].
  destruct (JS.before cmp x y); [done|].
  rewrite IH. apply Permutation_swap.
Qed.

Lemma sort_perm l : JS.sort cmp l ≡ₚ l.
Proof.
  induction l as [|x l IH]; simpl; [done|].
  by rewrite sort_insert_perm, IH.
Qed.

(** The order the comparator induces on the elements satisfying [P]. *)
Context (P : A -> Prop) (le : A -> A -> Prop).
Hypothesis le_before : ∀ a b, P a → P b → JS.before cmp a b = true → le a b.
Hypothesis le_after : ∀ a b, P a → P b → JS.before cmp a b = false → le b a.
Hypothesis le_trans : ∀ a b c, P a → P b → P c → le a b → le b c → le a c.

Lemma sort_insert_sorted x l :
  P x → Forall P l → StronglySorted le l → StronglySorted le (JS.sort_insert cmp x l).
Proof.
  intros Px Pl Hl. induction Hl as [|y l Hl IH Hy]; simpl.
  - repeat constructor.
  - apply Forall_cons in Pl as [Py Pl].
    destruct (JS.before cmp x y) eqn:Hxy.
    + constructor; [by constructor|].
      assert (le x y) as Lxy by auto.
      constructor; [done|].
      rewrite Forall_forall in Hy, Pl |- *. intros z Hz.
      apply (le_trans x y z); auto.
    + constructor; [auto|].
      rewrite sort_insert_perm. constructor; auto.
Qed.

Lemma sort_sorted l : Forall P l → StronglySorted le (JS.sort cmp l).
Proof.
  induction l as [|x l IH]; simpl; intros Hl; [constructor|].
  apply Forall_cons in Hl as [Px Pl].
  apply sort_insert_sorted; [done| by rewrite sort_perm |auto].
Qed.
End SortFacts.

Lemma StronglySorted_pairs {A} (R : A -> A -> Prop) (l : list A) :
  StronglySorted R l →
  ∀ i j a b, (i < j)%nat → l !! i = Some a → l !! j = Some b → R a b.
Proof.
  induction 1 as [|x l Hl IH Hx]; intros i j a b Hij Hi Hj; [done|].
  destruct j as [|j]; [lia|]. simpl in Hj.
  destruct i as [|i]; simpl in Hi.
  - injection Hi as <-. rewrite Forall_forall in Hx.
    apply Hx. by eapply list_elem_of_lookup_2.
  - apply (IH i j); [lia|done..].
Qed.

Lemma StronglySorted_take {A} (R : A -> A -> Prop) (n : nat) (l : list A) :
  StronglySorted R l → StronglySorted R (take n l).
Proof.
  intros Hl. revert n. induction Hl as [|x l Hl IH Hx]; intros [|n]; simpl; try constructor.
  - apply IH.
  - rewrite Forall_forall in Hx |- *. intros y Hy. apply Hx.
    by eapply subseteq_take.
Qed.

Lemma ordered_of_sorted {A} (R : A -> A -> Prop) (l : list A) :
  StronglySorted R l → Order.ordered R l.
Proof. intros Hl i j a b. by apply StronglySorted_pairs. Qed.

Lemma str_eq_true a b : JS.str_eq a b = true ↔ a = b.
Proof. apply String.eqb_eq. Qed.

Lemma str_eq_false a b : JS.str_eq a b = false ↔ a ≠ b.
Proof. apply String.eqb_neq. Qed.

(** ** Listing orders (HistoryPanel [sortedJobs], JobQueuePanel [fetchJobs]) *)
Section Listing.
Import HistoryPanel.
Context (getTime : string -> option Z).

Lemma sortedJobs_perm sortBy jobs : sortedJobs getTime sortBy jobs ≡ₚ jobs.
Proof. destruct sortBy; apply sort_perm. Qed.

Lemma status_rank_nonneg s r : status_rank s = Some r → 0 <= r.
Proof.
  unfold status_rank, statusOrder.
  repeat (destruct (JS.str_eq s _); [intros [= <-]; lia|]).
  destruct (existsb _ _); [done|]. intros [= <-]. lia.
Qed.

Lemma status_rank_running s : status_rank s = Some 0 ↔ s = "running".
Proof.
  unfold status_rank, statusOrder.
  destruct (JS.str_eq s "running") eqn:E.
  - apply str_eq_true in E. by split.
  - apply str_eq_false in E.
    repeat (destruct (JS.str_eq s _); [split; [intros [=]|done]|]).
    destruct (existsb _ _); split; done.
Qed.

Lemma newest_sorted jobs :
  Forall (Order.valid_date getTime) jobs →
  StronglySorted (Order.not_older getTime) (sortedJobs getTime newest jobs).
Proof.
  apply sort_sorted.
  - intros a b [ta Ha] [tb Hb]. unfold JS.before, newest_cmp. rewrite Ha, Hb. simpl.
    intros H%Z.leb_le. exists ta, tb. repeat split; [done..|lia].
  - intros a b [ta Ha] [tb Hb]. unfold JS.before, newest_cmp. rewrite Ha, Hb. simpl.
    intros H%Z.leb_gt. exists tb, ta. repeat split; [done..|lia].
  - intros a b c _ _ _ (ta & tb & Ha & Hb & Hab) (tb' & tc & Hb' & Hc & Hbc).
    exists ta, tc. repeat split; [done..|]. rewrite Hb in Hb'. injection Hb' as <-. lia.
Qed.

Lemma status_sorted jobs :
  Forall Order.plain_status jobs →
  StronglySorted Order.rank_le (sortedJobs getTime by_status jobs).
Proof.
  apply sort_sorted.
  - intros a b [ra Ha] [rb Hb]. unfold JS.before, status_cmp. rewrite Ha, Hb. simpl.
    intros H%Z.leb_le. exists ra, rb. repeat split; [done..|lia].
  - intros a b [ra Ha] [rb Hb]. unfold JS.before, status_cmp. rewrite Ha, Hb. simpl.
    intros H%Z.leb_gt. exists rb, ra. repeat split; [done..|lia].
  - intros a b c _ _ _ (ra & rb & Ha & Hb & Hab) (rb' & rc & Hb' & Hc & Hbc).
    exists ra, rc. repeat split; [done..|]. rewrite Hb in Hb'. injection Hb' as <-. lia.
Qed.

Lemma runtime_sorted jobs :
  StronglySorted Order.runtime_ge (sortedJobs getTime by_runtime jobs).
Proof.
  apply (sort_sorted _ (λ _, True)); [| | |by apply Forall_true];
    unfold JS.before, runtime_cmp, Order.runtime_ge; simpl.
  - intros a b _ _ H%Z.leb_le. lia.
  - intros a b _ _ H%Z.leb_gt. lia.
  - intros a b c _ _ _. lia.
Qed.

Lemma recent_sorted (all : list JobQueuePanel.Job) :
  StronglySorted Order.queue_running_first (JobQueuePanel.recentJobs_of getTime all).
Proof.
  unfold JobQueuePanel.recentJobs_of, JS.slice0. apply StronglySorted_take.
  apply (sort_sorted _ (λ _, True)); [| | |by apply Forall_true];
    unfold JS.before, JobQueuePanel.recent_cmp, Order.queue_running_first.
  - intros a b _ _.
    destruct (JobQueuePanel.is_running a), (JobQueuePanel.is_running b); simpl; try done.
  - intros a b _ _.
    destruct (JobQueuePanel.is_running a), (JobQueuePanel.is_running b); simpl; try done.
  - intros a b c _ _ _. tauto.
Qed.
End Listing.

(** C6 (as amended). The history list starts in the order "newest first";
    every order of [sortedJobs] is a permutation of the fetched jobs; under
    "newest", when every time stamp is a date, each job is at least as
    recent as every job after it (ties are allowed); under "status", when
    no status is the name of a member that objects inherit (each of the
    five status values qualifies), the ranks never decrease, so every
    running job precedes every job that is not running; under "runtime"
    the runtimes never increase; and in the job-queue panel every running
    job precedes every job that is not. Time stamps that are dates, and
    statuses whose rank is a number, make the comparators that read them
    consistent, so that the order they give does not depend on the
    engine. *)
Theorem C6_listing_orders (getTime : string -> option Z)
    (jobs : list HistoryPanel.HistoryJob) (all : list JobQueuePanel.Job) :
  HistoryPanel.sortBy_initial = HistoryPanel.newest
  ∧ (∀ sortBy, HistoryPanel.sortedJobs getTime sortBy jobs ≡ₚ jobs)
  ∧ (Forall (Order.valid_date getTime) jobs →
     Order.ordered (Order.not_older getTime)
       (HistoryPanel.sortedJobs getTime HistoryPanel.newest jobs))
  ∧ (Forall Order.plain_status jobs →
     Order.ordered Order.rank_le
       (HistoryPanel.sortedJobs getTime HistoryPanel.by_status jobs)
     ∧ Order.ordered Order.running_first
         (HistoryPanel.sortedJobs getTime HistoryPanel.by_status jobs))
  ∧ (∀ s, s ∈ StatusValue.surfaced → is_Some (HistoryPanel.status_rank s))
  ∧ Order.ordered Order.runtime_ge
      (HistoryPanel.sortedJobs getTime HistoryPanel.by_runtime jobs)
  ∧ (Forall (Order.queue_valid_date getTime) all →
     Order.ordered Order.queue_running_first (JobQueuePanel.recentJobs_of getTime all)).
Proof.
  split; [reflexivity|].
  split; [intros sortBy; apply sortedJobs_perm|].
  split; [intros Hvalid; apply ordered_of_sorted, newest_sorted, Hvalid|].
  split.
  { intros Hplain.
    pose proof (ordered_of_sorted _ _ (status_sorted getTime jobs Hplain)) as Hranks.
    split; [done|].
    intros i j a b Hij Ha Hb Hrun.
    destruct (Hranks i j a b Hij Ha Hb) as (ra & rb & Hra & Hrb & Hle).
    apply status_rank_running in Hrun. rewrite Hrun in Hrb. injection Hrb as <-.
    apply status_rank_running. rewrite Hra. f_equal.
    pose proof (status_rank_nonneg _ _ Hra). lia. }
  split.
  { intros s Hs. unfold StatusValue.surfaced in Hs.
    repeat (apply elem_of_cons in Hs as [->|Hs]; [by eexists|]).
    by apply elem_of_nil in Hs. }
  split; [apply ordered_of_sorted, runtime_sorted|].
  intros _. apply ordered_of_sorted, recent_sorted.
Qed.

Lemma C6_listing_orders_witness :
  Order.ordered (Order.not_older Samples.getTime)
    (HistoryPanel.sortedJobs Samples.getTime HistoryPanel.newest
       [Samples.h1; Samples.h2; Samples.h3; Samples.h4])
  ∧ Order.ordered Order.running_first
      (HistoryPanel.sortedJobs Samples.getTime HistoryPanel.by_status
         [Samples.h1; Samples.h2; Samples.h3; Samples.h4])
  ∧ Order.ordered Order.queue_running_first
      (JobQueuePanel.recentJobs_of Samples.getTime [Samples.q1; Samples.q2]).
Proof.
  destruct (C6_listing_orders Samples.getTime
              [Samples.h1; Samples.h2; Samples.h3; Samples.h4] [Samples.q1; Samples.q2])
    as (_ & _ & Hnew & Hstatus & _ & _ & Hqueue).
  split; [|split].
  - apply Hnew. repeat constructor; vm_compute; eexists; reflexivity.
  - apply Hstatus. repeat constructor; vm_compute; eexists; reflexivity.
  - apply Hqueue. repeat constructor; vm_compute; eexists; reflexivity.
Defined.

(** C6, the claim as stated fails: two jobs submitted at the same instant
    are listed one after the other under "newest", so the time stamps are
    not strictly descending. *)
Lemma C6_counterexample :
  Forall (Order.valid_date Samples.getTime) [Samples.h1; Samples.h2]
  ∧ HistoryPanel.sortedJobs Samples.getTime HistoryPanel.newest [Samples.h1; Samples.h2]
    = [Samples.h1; Samples.h2]
  ∧ ¬ Order.ordered (Order.newer Samples.getTime)
        (HistoryPanel.sortedJobs Samples.getTime HistoryPanel.newest
           [Samples.h1; Samples.h2]).
Proof.
  split; [repeat constructor; vm_compute; eexists; reflexivity|].
  split; [reflexivity|].
  intros H.
  destruct (H 0%nat 1%nat Samples.h1 Samples.h2) as (ta & tb & Ha & Hb & Hlt);
    [lia|reflexivity|reflexivity|].
  vm_compute in Ha, Hb. injection Ha as <-. injection Hb as <-. lia.
Qed.

(** ** The job-queue dropdown *)

(** C10. With no job in its state the job-queue panel returns [null];
    whenever it renders the dropdown there is at least one job, and the
    "No recent jobs" block is not part of what is rendered. *)
Theorem C10_no_jobs_no_dropdown (jobs : list JobQueuePanel.Job) (isOpen : bool) :
  (jobs = [] → JobQueuePanel.render jobs isOpen = None)
  ∧ (∀ d, JobQueuePanel.render jobs isOpen = Some d →
          jobs ≠ [] ∧ JobQueuePanel.empty_state d = false).
Proof.
  unfold JobQueuePanel.render. split.
  - by intros ->.
  - intros d. destruct jobs as [|j jobs]; simpl; [done|].
    intros [= <-]. by split.
Qed.

Lemma C10_no_jobs_no_dropdown_witness :
  JobQueuePanel.render [] true = None
  ∧ ∃ d, JobQueuePanel.render [Samples.q1; Samples.q2] true = Some d
         ∧ JobQueuePanel.empty_state d = false.
Proof.
  split.
  - by apply (C10_no_jobs_no_dropdown [] true).
  - eexists. split; [reflexivity|].
    by eapply (C10_no_jobs_no_dropdown [Samples.q1; Samples.q2] true).
Defined.

(** ** Status icons and badges *)

(** C9 (as amended). The icons of the five status values are pairwise
    distinct, and so are their badges. The four values running, finished,
    error and cancelled have a case of their own; pending has none and is
    drawn by the default case of both functions. *)
Theorem C9_status_representations :
  NoDup (JobQueuePanel.getStatusIcon <$> StatusValue.surfaced)
  ∧ NoDup (HistoryPanel.getStatusBadge <$> StatusValue.surfaced)
  ∧ Forall (λ s, JobQueuePanel.getStatusIcon s ≠ JobQueuePanel.icon_default
                 ∧ HistoryPanel.getStatusBadge s ≠ HistoryPanel.badge_default s)
      StatusValue.with_case
  ∧ JobQueuePanel.getStatusIcon "pending" = JobQueuePanel.icon_default
  ∧ HistoryPanel.getStatusBadge "pending" = HistoryPanel.badge_default "pending".
Proof.
  split; [by apply (bool_decide_unpack _); vm_compute|].
  split; [by apply (bool_decide_unpack _); vm_compute|].
  split; [|by split].
  repeat constructor; by vm_compute.
Qed.

(** C9, the claim as stated fails: pending is one of the five values and
    falls through to the default case; its icon is the icon of any value
    the switch does not know. *)
Lemma C9_counterexample :
  "pending" ∈ StatusValue.surfaced
  ∧ JobQueuePanel.getStatusIcon "pending" = JobQueuePanel.icon_default
  ∧ JobQueuePanel.getStatusIcon "pending" = JobQueuePanel.getStatusIcon "queued"
  ∧ HistoryPanel.getStatusBadge "pending" = HistoryPanel.badge_default "pending".
Proof.
  split; [by apply (bool_decide_unpack _); vm_compute|]. by repeat split.
Qed.

(** ** The console *)
Section Console.
Import App.

Lemma clearInterval_consoleMessages ref st :
  consoleMessages (clearInterval ref st) = consoleMessages st.
Proof. by destruct ref. Qed.

Lemma show_result_consoleMessages now start r st :
  consoleMessages (show_result now start r st) = consoleMessages st.
Proof. unfold show_result. by destruct (_ && _). Qed.

Lemma poll_tick_consoleMessages start now progress result st :
  consoleMessages (poll_tick start now progress result st) = consoleMessages st.
Proof.
  unfold poll_tick. destruct progress as [p|]; [|done].
  destruct (observes_terminal p); [|done].
  destruct (JS.str_eq (progress_state p) "finished").
  { destruct result; [rewrite show_result_consoleMessages|];
      simpl; by rewrite !clearInterval_consoleMessages. }
  repeat (destruct (JS.str_eq (progress_state p) _));
    simpl; by rewrite !clearInterval_consoleMessages.
Qed.

Lemma fire_consoleMessages id now progress result st :
  consoleMessages (fire id now progress result st) = consoleMessages st.
Proof.
  unfold fire. destruct (intervals st !! id) as [[?|??]|]; [done| |done].
  apply poll_tick_consoleMessages.
Qed.

Lemma handle_consoleMessages ev st :
  consoleMessages (handle ev st) = consoleMessages st ++ log_lines [ev].
Proof.
  destruct ev as [m|id now progress result]; simpl.
  - unfold onmessage. destruct (JS.str_eq (type m) "log"); simpl; [done|].
    by rewrite app_nil_r.
  - by rewrite fire_consoleMessages, app_nil_r.
Qed.

Lemma run_consoleMessages evs st :
  consoleMessages (run evs st) = consoleMessages st ++ log_lines evs.
Proof.
  revert st. induction evs as [|ev evs IH]; intros st.
  - simpl. by rewrite app_nil_r.
  - change (run (ev :: evs) st) with (run evs (handle ev st)).
    rewrite IH, handle_consoleMessages, <- app_assoc. f_equal.
    unfold log_lines. simpl. by destruct (match ev with on_message _ => _ | _ => _ end).
Qed.

Lemma startPolling_consoleMessages t start st :
  consoleMessages (startPolling t start st) = consoleMessages st.
Proof. done. Qed.
End Console.


(** ** The upload pattern *)
Section Pattern.
Import UploadPattern.

Lemma chars_of_chars l : JS.chars (JS.of_chars l) = l.
Proof. apply String.list_ascii_of_string_of_list_ascii. Qed.

Lemma of_chars_chars s : JS.of_chars (JS.chars s) = s.
Proof. apply String.string_of_list_ascii_of_string. Qed.

Lemma forallb_Forall (q : ascii → bool) l :
  forallb q l = true ↔ Forall (λ c, q c = true) l.
Proof.
  induction l as [|c l IH]; simpl; [by split|].
  rewrite andb_true_iff, Forall_cons. by rewrite IH.
Qed.

Lemma literal_sound lit l r :
  literal lit l = Some r →
  ∃ p, l = p ++ r ∧ Forall2 (λ a c, same_char a c = true) lit p.
Proof.
  revert l. induction lit as [|a lit IH]; intros l; simpl.
  - intros [= ->]. exists []. by split; [|constructor].
  - destruct l as [|c l]; [done|].
    destruct (same_char a c) eqn:E; [|done].
    intros (p & -> & Hp)%IH. exists (c :: p). split; [done|by constructor].
Qed.

Lemma literal_complete lit p r :
  Forall2 (λ a c, same_char a c = true) lit p → literal lit (p ++ r) = Some r.
Proof. induction 1 as [|a c lit p Hac _ IH]; simpl; [done|]. by rewrite Hac. Qed.

Lemma skip_sound q l :
  ∃ d, l = d ++ skip q l ∧ Forall (λ c, q c = true) d.
Proof.
  induction l as [|c l (d & Hd & Hq)]; simpl.
  - exists []. by split.
  - destruct (q c) eqn:E.
    + exists (c :: d). split; [simpl; by f_equal|by constructor].
    + exists []. by split.
Qed.

Lemma skip_complete q d c r :
  Forall (λ c, q c = true) d → q c = false → skip q (d ++ c :: r) = c :: r.
Proof. induction 1 as [|x d Hx _ IH]; simpl; intros Hc; [by rewrite Hc|]. rewrite Hx. auto. Qed.

Lemma skip_complete_nil q d :
  Forall (λ c, q c = true) d → skip q d = [].
Proof. induction 1 as [|x d Hx _ IH]; simpl; [done|]. by rewrite Hx. Qed.

Lemma plus_sound q l r :
  plus q l = Some r → ∃ d, l = d ++ r ∧ d ≠ [] ∧ Forall (λ c, q c = true) d.
Proof.
  destruct l as [|c l]; simpl; [done|].
  destruct (q c) eqn:E; [|done]. intros [= <-].
  destruct (skip_sound q l) as (d & Hd & Hq).
  exists (c :: d). split; [simpl; by f_equal|]. split; [done|by constructor].
Qed.

Lemma plus_complete q d c r :
  d ≠ [] → Forall (λ c, q c = true) d → q c = false → plus q (d ++ c :: r) = Some (c :: r).
Proof.
  intros Hd Hq Hc. destruct Hq as [|x d Hx Hq]; [done|]. simpl. rewrite Hx.
  by rewrite skip_complete.
Qed.

Lemma same_char_underscore c : same_char "_" c = true → c = "_"%char.
Proof. destruct c as [[] [] [] [] [] [] [] []]; by vm_compute. Qed.

Lemma same_char_period c : same_char "." c = true → c = "."%char.
Proof. destruct c as [[] [] [] [] [] [] [] []]; by vm_compute. Qed.

Lemma same_char_u_not_space c : same_char "u" c = true → JS.is_space c = false.
Proof. destruct c as [[] [] [] [] [] [] [] []]; by vm_compute. Qed.

Lemma literal_one_sound a l r :
  literal [a] l = Some r → ∃ c, l = c :: r ∧ same_char a c = true.
Proof.
  intros (p & -> & Hp)%literal_sound.
  inversion Hp as [|? c ? p' Hc Hnil]; subst. inversion Hnil; subst. by exists c.
Qed.

Lemma exec_sound s ext : exec s = Some ext → matches s ext.
Proof.
  unfold exec. intros H.
  apply bind_Some in H as (r0 & (p & Hs & Hp)%literal_sound & H).
  apply bind_Some in H as (r1 & (d1 & -> & Hd1 & Hq1)%plus_sound & H).
  apply bind_Some in H as (r2 & (c2 & -> & ->%same_char_underscore)%literal_one_sound & H).
  apply bind_Some in H as (r3 & (d2 & -> & Hd2 & Hq2)%plus_sound & H).
  apply bind_Some in H as (r4 & (c4 & -> & ->%same_char_underscore)%literal_one_sound & H).
  apply bind_Some in H as (r5 & (h & -> & Hh & Hq5)%plus_sound & H).
  apply bind_Some in H as (r6 & (c6 & -> & ->%same_char_period)%literal_one_sound & H).
  destruct r6 as [|c r6]; [done|].
  destruct (forallb is_dot (c :: r6)) eqn:E7; [|done].
  injection H as <-.
  exists p, d1, d2, h.
  change (String c (JS.of_chars r6)) with (JS.of_chars (c :: r6)). rewrite chars_of_chars.
  split; [exact Hs|]. repeat split; try done.
  by apply forallb_Forall.
Qed.

Lemma literal_one_complete a c r :
  same_char a c = true → literal [a] (c :: r) = Some r.
Proof. simpl. by intros ->. Qed.

Lemma bind_eq {A B} (mx : option A) (f : A → option B) x :
  mx = Some x → mx ≫= f = f x.
Proof. by intros ->. Qed.

Lemma exec_complete s ext : matches s ext → exec s = Some ext.
Proof.
  intros (p & d1 & d2 & h & Hs & Hp & Hd1 & Hq1 & Hd2 & Hq2 & Hh & Hqh & Hext & Hdot).
  unfold exec. simpl in Hs. rewrite Hs.
  rewrite (bind_eq _ _ _ (literal_complete _ _ _ Hp)).
  rewrite (bind_eq _ _ _ (plus_complete is_digit d1 "_"%char _ Hd1 Hq1 eq_refl)).
  rewrite (bind_eq (literal (JS.chars "_") _) _ _
             (literal_one_complete "_" "_" _ eq_refl)).
  rewrite (bind_eq _ _ _ (plus_complete is_digit d2 "_"%char _ Hd2 Hq2 eq_refl)).
  rewrite (bind_eq (literal (JS.chars "_") _) _ _
             (literal_one_complete "_" "_" _ eq_refl)).
  rewrite (bind_eq _ _ _ (plus_complete is_hex h "."%char _ Hh Hqh eq_refl)).
  rewrite (bind_eq (literal (JS.chars ".") _) _ _
             (literal_one_complete "." "." _ eq_refl)).
  destruct (JS.chars ext) as [|c r] eqn:E; [done|].
  apply forallb_Forall in Hdot. rewrite Hdot.
  by rewrite <- E, of_chars_chars.
Qed.

Lemma exec_matches s ext : exec s = Some ext ↔ matches s ext.
Proof. split; [apply exec_sound|apply exec_complete]. Qed.
End Pattern.

(** ** Display names *)
Section DisplayNames.
Import HistoryPanel.

Lemma truthy_true s : JS.truthy s = true ↔ s ≠ "".
Proof. by destruct s. Qed.

Lemma truthy_false s : JS.truthy s = false ↔ s = "".
Proof. by destruct s. Qed.

Lemma truthy_trim s : JS.truthy (JS.trim s) = true → JS.truthy s = true.
Proof. by destruct s. Qed.

Lemma drop_space_snoc l c : JS.is_space c = false → JS.drop_space (l ++ [c]) ≠ [].
Proof.
  intros Hc. induction l as [|x l IH]; simpl.
  - by rewrite Hc.
  - by destruct (JS.is_space x).
Qed.

Lemma of_chars_nonempty l : l ≠ [] → JS.of_chars l ≠ "".
Proof. by destruct l. Qed.

Lemma trim_head s c r :
  JS.chars s = c :: r → JS.is_space c = false → JS.trim s ≠ "".
Proof.
  intros Hs Hc. unfold JS.trim. rewrite Hs. simpl JS.drop_space at 2. rewrite Hc.
  apply of_chars_nonempty. intros Hrev.
  apply (f_equal (@rev _)) in Hrev. rewrite rev_involutive in Hrev. simpl in Hrev.
  by apply (drop_space_snoc (rev r) c).
Qed.

Lemma matches_trim s ext : UploadPattern.matches s ext → JS.trim s ≠ "".
Proof.
  intros (p & d1 & d2 & h & Hs & Hp & _).
  inversion Hp as [|a c lit p' Hc Hrest]; subst.
  apply (trim_head s c (p' ++ d1 ++ JS.chars "_" ++ d2 ++ JS.chars "_" ++ h
                           ++ JS.chars "." ++ JS.chars ext)); [done|].
  by apply same_char_u_not_space.
Qed.
End DisplayNames.

(** C8 (as amended). For a job whose file names are made of ASCII
    characters, the name shown in the history is the original file name
    when that is non-empty after trimming; otherwise 'Document.<ext>' when
    the stored file name has the form
    user_upload_<digits>_<digits>_<hex>.<ext>; otherwise the stored file
    name when that is non-empty after trimming; otherwise 'Task <task_id>'. *)
Theorem C8_display_name (job : HistoryPanel.HistoryJob) :
  JS.is_ascii (HistoryPanel.original_filename job) = true →
  JS.is_ascii (HistoryPanel.filename job) = true →
  (JS.trim (HistoryPanel.original_filename job) ≠ "" →
     HistoryPanel.getDisplayName job = HistoryPanel.original_filename job)
  ∧ (JS.trim (HistoryPanel.original_filename job) = "" →
       (∀ ext, UploadPattern.matches (HistoryPanel.filename job) ext →
               HistoryPanel.getDisplayName job = "Document." +:+ ext)
       ∧ ((∀ ext, ¬ UploadPattern.matches (HistoryPanel.filename job) ext) →
          JS.trim (HistoryPanel.filename job) ≠ "" →
          HistoryPanel.getDisplayName job = HistoryPanel.filename job)
       ∧ (JS.trim (HistoryPanel.filename job) = "" →
          HistoryPanel.getDisplayName job = "Task " +:+ HistoryPanel.task_id job)).
Proof.
  intros _ _. unfold HistoryPanel.getDisplayName. split.
  - intros H%truthy_true. by rewrite H, (truthy_trim _ H).
  - intros H%truthy_false. rewrite H, andb_false_r. split; [|split].
    + intros ext Hm. pose proof (matches_trim _ _ Hm) as Ht%truthy_true.
      rewrite Ht, (truthy_trim _ Ht). simpl.
      by rewrite (proj2 (exec_matches _ _) Hm).
    + intros Hno Ht%truthy_true. rewrite Ht, (truthy_trim _ Ht). simpl.
      destruct (UploadPattern.exec (HistoryPanel.filename job)) as [ext|] eqn:E; [|done].
      by apply exec_matches, Hno in E.
    + intros Ht%truthy_false. by rewrite Ht, andb_false_r.
Qed.

Lemma C8_display_name_witness :
  HistoryPanel.getDisplayName Samples.unnamed = "Document.pdf"
  ∧ HistoryPanel.getDisplayName Samples.h1 = "a.pdf".
Proof.
  split.
  - apply (C8_display_name Samples.unnamed eq_refl eq_refl); [reflexivity|].
    by apply exec_matches.
  - by apply (C8_display_name Samples.h1 eq_refl eq_refl).
Defined.

(** C8, the claim as stated fails: a stored file name made of white space
    is non-empty, yet the job is shown under the name derived from its id. *)
Lemma C8_counterexample :
  JS.is_ascii (HistoryPanel.filename Samples.blank_name) = true
  ∧ HistoryPanel.filename Samples.blank_name ≠ ""
  ∧ DisplayName.documented Samples.blank_name = " "
  ∧ HistoryPanel.getDisplayName Samples.blank_name = "Task t9"
  ∧ HistoryPanel.getDisplayName Samples.blank_name
    ≠ DisplayName.documented Samples.blank_name.
Proof. by repeat split. Qed.

(** ** Restoring a running job on mount *)
Section Restore.
Import App.
Context (getTime : string -> option Z).

Lemma find_none_running (jobs : list Job) :
  (∀ j, j ∈ jobs → JobQueuePanel.status j ≠ "running") →
  JS.find JobQueuePanel.is_running jobs = None.
Proof.
  induction jobs as [|j jobs IH]; intros H; simpl; [done|].
  unfold JobQueuePanel.is_running at 1.
  rewrite (proj2 (str_eq_false _ _) (H j (list_elem_of_here _ _))).
  apply IH. intros j' Hj'. apply H. by apply list_elem_of_further.
Qed.

Lemma find_some_running (jobs : list Job) j :
  JS.find JobQueuePanel.is_running jobs = Some j →
  j ∈ jobs ∧ JobQueuePanel.status j = "running".
Proof.
  intros [Hin Hrun]%List.find_some. split; [by apply list_elem_of_In|].
  by apply str_eq_true.
Qed.

Lemma startPolling_refs t start st :
  pollIntervalRef (startPolling t start st) = Some (S (next_interval st))
  ∧ timerIntervalRef (startPolling t start st) = Some (next_interval st)
  ∧ intervals (startPolling t start st) !! S (next_interval st) = Some (Poller t start)
  ∧ intervals (startPolling t start st) !! next_interval st = Some (Timer start).
Proof.
  unfold startPolling; simpl. repeat split.
  - apply lookup_insert_eq.
  - rewrite lookup_insert_ne by lia. apply lookup_insert_eq.
Qed.

Lemma restore_fields now j st :
  taskId (restore getTime now j st) = JobQueuePanel.task_id j
  ∧ isProcessing (restore getTime now j st) = true
  ∧ hasRestoredState (restore getTime now j st) = true
  ∧ elapsedTime (restore getTime now j st)
    = (if JS.truthy (JobQueuePanel.timestamp j)
       then seconds_since now (getTime (JobQueuePanel.timestamp j))
       else elapsedTime st).
Proof. unfold restore. by destruct (JS.truthy (JobQueuePanel.timestamp j)). Qed.

Lemma restore_polling now j st :
  ∃ id, pollIntervalRef (restore getTime now j st) = Some id
        ∧ intervals (restore getTime now j st) !! id
          = Some (Poller (JobQueuePanel.task_id j) now).
Proof.
  unfold restore. eexists. split; [apply startPolling_refs|].
  match goal with |- intervals (startPolling ?t ?s ?st0) !! _ = _ =>
    destruct (startPolling_refs t s st0) as (_ & _ & H & _) end.
  exact H.
Qed.
End Restore.

(** C7 (as amended). When the history fetched on mount contains a job with
    status running and nothing has been restored yet, the client adopts the
    first such job: its task id becomes the active task, the page is marked
    processing, the elapsed time is set from the job's time stamp when the
    job carries one (and is left as it was when the time stamp is empty),
    and polling for the job's completion starts. A further run of the
    check changes nothing, and neither does a run that finds no running
    job, gets an answer that is not a success, or fails to fetch. *)
Theorem C7_restore_running_job (getTime : string -> option Z) (now : Z)
    (answer : option JobQueuePanel.HistoryData) (st : App.State) :
  (App.hasRestoredState st = true → App.checkRunningJobs getTime now answer st = st)
  ∧ (∀ data jobs j,
       App.hasRestoredState st = false →
       answer = Some data →
       JobQueuePanel.data_status data = "success" →
       JobQueuePanel.data_jobs data = Some jobs →
       JS.find JobQueuePanel.is_running jobs = Some j →
       j ∈ jobs ∧ JobQueuePanel.status j = "running"
       ∧ App.taskId (App.checkRunningJobs getTime now answer st) = JobQueuePanel.task_id j
       ∧ App.isProcessing (App.checkRunningJobs getTime now answer st) = true
       ∧ (JobQueuePanel.timestamp j ≠ "" →
          App.elapsedTime (App.checkRunningJobs getTime now answer st)
          = App.seconds_since now (getTime (JobQueuePanel.timestamp j)))
       ∧ (JobQueuePanel.timestamp j = "" →
          App.elapsedTime (App.checkRunningJobs getTime now answer st) = App.elapsedTime st)
       ∧ (∃ id, App.pollIntervalRef (App.checkRunningJobs getTime now answer st) = Some id
                ∧ App.intervals (App.checkRunningJobs getTime now answer st) !! id
                  = Some (App.Poller (JobQueuePanel.task_id j) now))
       ∧ (∀ now' answer',
            App.checkRunningJobs getTime now' answer'
              (App.checkRunningJobs getTime now answer st)
            = App.checkRunningJobs getTime now answer st))
  ∧ (∀ data jobs,
       answer = Some data → JobQueuePanel.data_jobs data = Some jobs →
       (∀ j, j ∈ jobs → JobQueuePanel.status j ≠ "running") →
       App.checkRunningJobs getTime now answer st = st)
  ∧ (∀ data, answer = Some data → JobQueuePanel.data_status data ≠ "success" →
             App.checkRunningJobs getTime now answer st = st)
  ∧ (answer = None → App.checkRunningJobs getTime now answer st = st).
Proof.
  unfold App.checkRunningJobs, App.checkRunningJobs_guard, App.checkRunningJobs_answer.
  split; [|split; [|split; [|split]]].
  - intros H. by rewrite H.
  - intros data jobs j Hfresh -> Hok Hjobs Hfind.
    rewrite Hfresh, (proj2 (str_eq_true _ _) Hok), Hjobs, Hfind. cbn [negb].
    destruct (find_some_running _ _ Hfind) as [Hin Hrun].
    destruct (restore_fields getTime now j st) as (Ht & Hp & Hr & He).
    repeat split; try done.
    + intros Hts%truthy_true. by rewrite He, Hts.
    + intros Hts%truthy_false. by rewrite He, Hts.
    + apply restore_polling.
    + intros now' answer'. by rewrite Hr.
  - intros data jobs -> Hjobs Hnone.
    destruct (App.hasRestoredState st); [done|]. simpl.
    destruct (JS.str_eq (JobQueuePanel.data_status data) "success"); [|done].
    by rewrite Hjobs, (find_none_running _ Hnone).
  - intros data -> Hbad.
    rewrite (proj2 (str_eq_false _ _) Hbad). by destruct (App.hasRestoredState st).
  - intros ->. by destruct (App.hasRestoredState st).
Qed.

Lemma C7_restore_running_job_witness :
  App.taskId (App.checkRunningJobs Samples.getTime 1735689725000
                (Some (JobQueuePanel.mkHistoryData "success" (Some [Samples.q1; Samples.q2])))
                App.initial) = "t2"
  ∧ App.elapsedTime (App.checkRunningJobs Samples.getTime 1735689725000
                (Some (JobQueuePanel.mkHistoryData "success" (Some [Samples.q1; Samples.q2])))
                App.initial) = Some 65.
Proof.
  destruct (C7_restore_running_job Samples.getTime 1735689725000
              (Some (JobQueuePanel.mkHistoryData "success" (Some [Samples.q1; Samples.q2])))
              App.initial) as (_ & H & _).
  destruct (H _ _ Samples.q2 eq_refl eq_refl eq_refl eq_refl eq_refl)
    as (_ & _ & Ht & _ & He & _).
  split; [exact Ht|]. rewrite He; [reflexivity|discriminate].
Defined.

(** C7, the claim as stated fails: for a running job whose time stamp is
    empty the elapsed time is not set from the time stamp; it keeps the
    value it had. *)
Lemma C7_counterexample :
  JS.find JobQueuePanel.is_running [Samples.q1; Samples.q3] = Some Samples.q3
  ∧ App.taskId (App.checkRunningJobs Samples.getTime 1735689725000
                  (Some (JobQueuePanel.mkHistoryData "success" (Some [Samples.q1; Samples.q3])))
                  App.initial) = "t3"
  ∧ App.elapsedTime (App.checkRunningJobs Samples.getTime 1735689725000
                       (Some (JobQueuePanel.mkHistoryData "success"
                                (Some [Samples.q1; Samples.q3])))
                       App.initial) = Some 0
  ∧ App.seconds_since 1735689725000 (Samples.getTime (JobQueuePanel.timestamp Samples.q3))
    = None.
Proof. by repeat split. Qed.

(** ** The job state machine of the orchestration service *)
Section Service.
Import Orchestrator.

Lemma reconcile_status now r :
  status (reconcile now r) = (if decide (status r = running) then error else status r).
Proof. unfold reconcile. destruct (status r) eqn:E; simpl; by rewrite ?E. Qed.

Lemma classify_terminal c e s loc detail text :
  classify c e = (s, loc, detail, text) → terminal s = true.
Proof.
  unfold classify. destruct c; [by intros [= <- _ _ _]|].
  destruct e as [code [[l t]|] msg|reason]; [|by intros [= <- _ _ _]..].
  destruct (code =? 0); by intros [= <- _ _ _].
Qed.

Lemma startup_well_formed now persisted res next :
  (∀ i r, persisted !! i = Some r → (i < next)%nat) →
  well_formed (startup now persisted res next).
Proof.
  intros Hnext. unfold well_formed, startup; simpl. repeat split.
  - intros i r. rewrite lookup_fmap. destruct (persisted !! i) eqn:E; [|done].
    intros _. by eapply Hnext.
  - intros i [Hp _]%list_elem_of_filter. unfold is_pending in Hp.
    destruct ((reconcile now <$> persisted) !! i) as [r|]; [|done].
    exists r. split; [done|]. by apply bool_decide_eq_true in Hp.
  - apply NoDup_filter, NoDup_seq.
  - done.
  - intros i r. rewrite lookup_fmap. destruct (persisted !! i) as [r0|]; [|done].
    simpl. intros [= <-]. rewrite reconcile_status. by case_decide.
Qed.

Lemma step_well_formed ev sys : well_formed sys → well_formed (step ev sys).
Proof.
  intros Hwf. pose proof Hwf as (Hnext & Hqueue & Hnodup & Hslot & Hrun).
  destruct ev as [now spec|now|now e|now i|i|now]; simpl.
  - (* submit *)
    unfold submit. destruct (_ || _); [done|]. simpl.
    unfold well_formed; simpl. repeat split.
    + intros i r. destruct (decide (i = next_id sys)) as [->|Hne]; [lia|].
      rewrite lookup_insert_ne by done. intros H%Hnext. lia.
    + intros i [Hi| ->%list_elem_of_singleton]%elem_of_app.
      * destruct (Hqueue i Hi) as (r & Hr & Hp). exists r. split; [|done].
        rewrite lookup_insert_ne; [done|]. apply Hnext in Hr. lia.
      * eexists. split; [apply lookup_insert_eq|done].
    + apply NoDup_app. split; [done|]. split; [|apply NoDup_singleton].
      intros i Hi ->%list_elem_of_singleton.
      destruct (Hqueue _ Hi) as (r & Hr%Hnext & _). lia.
    + intros i Hi. destruct (Hslot i Hi) as (r & Hr & Hs). exists r. split; [|done].
      rewrite lookup_insert_ne; [done|]. apply Hnext in Hr. lia.
    + intros i r. destruct (decide (i = next_id sys)) as [->|Hne].
      * rewrite lookup_insert_eq. by intros [= <-].
      * rewrite lookup_insert_ne by done. apply Hrun.
  - (* dispatch *)
    unfold dispatch. destruct (slot sys) as [j|] eqn:Es; [done|].
    destruct (queue sys) as [|i rest] eqn:Eq; [done|].
    apply NoDup_cons in Hnodup as [Hi Hrest].
    destruct (Hqueue i) as (ri & Hri & Hpi); [apply list_elem_of_here|].
    unfold well_formed; simpl. repeat split.
    + intros k r. rewrite lookup_alter. case_decide as Hk.
      * subst k. rewrite Hri. simpl. intros _. by eapply Hnext.
      * apply Hnext.
    + intros k Hk. destruct (Hqueue k) as (r & Hr & Hp); [by apply list_elem_of_further|].
      exists r. split; [|done]. rewrite lookup_alter_ne; [done|]. by intros ->.
    + done.
    + intros k [= <-]. rewrite lookup_alter_eq, Hri. simpl. by eexists.
    + intros k r. rewrite lookup_alter. case_decide as Hk; [by subst k|].
      intros Hr Hs. by apply Hrun in Hr.
  - (* process exit *)
    unfold process_exit. destruct (slot sys) as [i|] eqn:Es; [|done].
    destruct (classify _ e) as [[[s loc] detail] text] eqn:Ec.
    apply classify_terminal in Ec.
    destruct (Hslot i eq_refl) as (ri & Hri & Hsi).
    unfold well_formed; simpl. repeat split.
    + intros k r. rewrite lookup_alter. case_decide as Hk.
      * subst k. rewrite Hri. simpl. intros _. by eapply Hnext.
      * apply Hnext.
    + intros k Hk. destruct (Hqueue k Hk) as (r & Hr & Hp).
      exists r. split; [|done]. rewrite lookup_alter_ne; [done|].
      intros ->. rewrite Hri in Hr. injection Hr as <-. by rewrite Hsi in Hp.
    + done.
    + done.
    + intros k r. rewrite lookup_alter. case_decide as Hk.
      * subst k. rewrite Hri. simpl. intros [= <-]. simpl. intros ->. done.
      * intros Hr Hs. apply Hrun in Hr; [|done]. congruence.
  - (* cancel *)
    unfold cancel. destruct (store sys !! i) as [r|] eqn:Er; [|done].
    destruct (status r) eqn:Est; try done; simpl.
    unfold well_formed; simpl. repeat split.
    + intros k r'. rewrite lookup_alter. case_decide as Hk.
      * subst k. rewrite Er. simpl. intros _. by eapply Hnext.
      * apply Hnext.
    + intros k [Hki Hk]%list_elem_of_filter.
      destruct (Hqueue k Hk) as (r' & Hr' & Hp).
      exists r'. split; [|done]. by rewrite lookup_alter_ne.
    + by apply NoDup_filter.
    + intros k Hk. destruct (Hslot k Hk) as (r' & Hr' & Hs).
      exists r'. split; [|done]. rewrite lookup_alter_ne; [done|].
      intros ->. rewrite Er in Hr'. injection Hr' as <-. by rewrite Est in Hs.
    + intros k r'. rewrite lookup_alter. case_decide as Hk.
      * subst k. rewrite Er. simpl. by intros [= <-].
      * apply Hrun.
  - (* delete *)
    unfold delete_job. destruct (store sys !! i) as [r|] eqn:Er; [|done].
    destruct (terminal (status r)) eqn:Et; [|done]. simpl.
    unfold well_formed; simpl. repeat split.
    + intros k r'. rewrite lookup_delete. case_decide; [done|]. apply Hnext.
    + intros k Hk. destruct (Hqueue k Hk) as (r' & Hr' & Hp).
      exists r'. split; [|done]. rewrite lookup_delete_ne; [done|].
      intros ->. rewrite Er in Hr'. injection Hr' as <-. by rewrite Hp in Et.
    + done.
    + intros k Hk. destruct (Hslot k Hk) as (r' & Hr' & Hs).
      exists r'. split; [|done]. rewrite lookup_delete_ne; [done|].
      intros ->. rewrite Er in Hr'. injection Hr' as <-. by rewrite Hs in Et.
    + intros k r'. rewrite lookup_delete. case_decide; [done|]. apply Hrun.
  - (* restart *)
    by apply startup_well_formed.
Qed.

Lemma run_well_formed evs sys : well_formed sys → well_formed (run evs sys).
Proof.
  revert sys. induction evs as [|ev evs IH]; intros sys H; [done|].
  apply IH. by apply step_well_formed.
Qed.

Lemma reachable_well_formed sys : reachable sys → well_formed sys.
Proof.
  intros (now & evs & ->). apply run_well_formed, startup_well_formed.
  intros i r. by rewrite lookup_empty.
Qed.
End Service.

Section Transitions.
Import Orchestrator.

Local Ltac gone := simpl; congruence.
Local Ltac same := let H := fresh in simpl; intros H; left; by simplify_eq.

Lemma terminal_cases s : terminal s = true → s = finished ∨ s = error ∨ s = cancelled.
Proof. destruct s; naive_solver. Qed.

Lemma step_transition ev sys i r r' :
  well_formed sys →
  store sys !! i = Some r → store (step ev sys) !! i = Some r' →
  status r' = status r ∨ transition (status r) (status r').
Proof.
  intros (Hnext & Hqueue & Hnodup & Hslot & Hrun) Hr.
  destruct ev as [now spec|now|now e|now k|k|now]; simpl.
  - unfold submit. destruct (_ || _); simpl; [same|].
    rewrite lookup_insert_ne; [same|]. apply Hnext in Hr. lia.
  - unfold dispatch. destruct (slot sys) as [j|]; [same|].
    destruct (queue sys) as [|k rest] eqn:Eq; [same|]. simpl.
    rewrite lookup_alter. case_decide as Hk; [|same].
    subst k. rewrite Hr. simpl. intros [= <-]. right.
    destruct (Hqueue i) as (r0 & Hr0 & Hp); [rewrite ?Eq; apply list_elem_of_here|].
    rewrite Hr in Hr0. injection Hr0 as <-. rewrite Hp. simpl. constructor.
  - unfold process_exit. destruct (slot sys) as [k|] eqn:Es; [|same].
    destruct (classify _ e) as [[[s loc] detail] text] eqn:Ec.
    apply classify_terminal, terminal_cases in Ec. simpl.
    rewrite lookup_alter. case_decide as Hk; [|same].
    subst k. rewrite Hr. simpl. intros [= <-]. right.
    destruct (Hslot i eq_refl) as (r0 & Hr0 & Hs).
    rewrite Hr in Hr0. injection Hr0 as <-. rewrite Hs. simpl.
    destruct Ec as [->|[->| ->]]; constructor.
  - unfold cancel. destruct (store sys !! k) as [rk|] eqn:Ek; [|same].
    destruct (status rk) eqn:Est; simpl; try (same).
    rewrite lookup_alter. case_decide as Hk; [|same].
    subst k. rewrite Hr. simpl. intros [= <-]. right.
    rewrite Hr in Ek. injection Ek as <-. rewrite Est. simpl. constructor.
  - unfold delete_job. destruct (store sys !! k) as [rk|] eqn:Ek; [|same].
    destruct (terminal (status rk)); simpl; [|same].
    rewrite lookup_delete. case_decide; [done|same].
  - rewrite lookup_fmap, Hr. simpl. intros [= <-]. rewrite reconcile_status.
    case_decide as Hs; [|by left]. right. rewrite Hs. constructor.
Qed.

Lemma step_fresh ev sys i r' :
  store sys !! i = None → store (step ev sys) !! i = Some r' → status r' = pending.
Proof.
  intros Hnone. destruct ev as [now spec|now|now e|now k|k|now]; simpl.
  - unfold submit. destruct (_ || _); simpl; [gone|].
    rewrite lookup_insert. case_decide; [by intros [= <-]|gone].
  - unfold dispatch. destruct (slot sys); [gone|].
    destruct (queue sys); [gone|]. simpl.
    rewrite lookup_alter. case_decide as Hk; [subst|gone]. by rewrite Hnone.
  - unfold process_exit. destruct (slot sys); [|gone].
    destruct (classify _ e) as [[[s loc] detail] text]. simpl.
    rewrite lookup_alter. case_decide as Hk; [subst|gone]. by rewrite Hnone.
  - unfold cancel. destruct (store sys !! k) as [rk|] eqn:Ek; [|gone].
    destruct (status rk); simpl; try gone.
    rewrite lookup_alter. case_decide as Hk; [subst|gone]. by rewrite Hnone.
  - unfold delete_job. destruct (store sys !! k) as [rk|]; [|gone].
    destruct (terminal (status rk)); simpl; [|gone].
    rewrite lookup_delete. case_decide; [done|gone].
  - by rewrite lookup_fmap, Hnone.
Qed.

Lemma transition_not_terminal s s' : transition s s' → terminal s = false.
Proof. by destruct 1. Qed.
End Transitions.

(** ** The polling loop of the client *)
Section Polling.
Import App.

Lemma show_result_intervals now start r st :
  intervals (show_result now start r st) = intervals st.
Proof. unfold show_result. by destruct (_ && _). Qed.

Lemma poll_tick_intervals start now progress result st :
  intervals (poll_tick start now progress result st)
  = match progress with
    | Some p =>
        if observes_terminal p
        then intervals (clearInterval (timerIntervalRef st)
                          (clearInterval (pollIntervalRef st) st))
        else intervals st
    | None => intervals st
    end.
Proof.
  unfold poll_tick. destruct progress as [p|]; [|done].
  destruct (observes_terminal p); [|done].
  assert (timerIntervalRef (clearInterval (pollIntervalRef st) st) = timerIntervalRef st)
    as -> by by destruct (pollIntervalRef st).
  destruct (JS.str_eq (progress_state p) "finished").
  { destruct result; [by rewrite show_result_intervals|done]. }
  by repeat (destruct (JS.str_eq (progress_state p) _)).
Qed.

Lemma clearInterval_lookup ref st id :
  intervals (clearInterval ref st) !! id
  = (if decide (ref = Some id) then None else intervals st !! id).
Proof.
  destruct ref as [k|]; simpl; [|try case_decide; done].
  rewrite lookup_delete. repeat case_decide; congruence.
Qed.

Lemma fire_own_interval st id t start now progress result :
  pollIntervalRef st = Some id →
  intervals st !! id = Some (Poller t start) →
  intervals (fire id now progress result st) !! id = None
  ↔ ∃ p, progress = Some p ∧ observes_terminal p = true.
Proof.
  intros Href Hid. unfold fire. rewrite Hid, poll_tick_intervals.
  destruct progress as [p|].
  2:{ rewrite Hid. split; [done|]. by intros (p & ? & _). }
  destruct (observes_terminal p) eqn:E.
  2:{ rewrite Hid. split; [done|]. intros (p' & [= <-] & H). congruence. }
  split; [intros _; by exists p|intros _].
  rewrite clearInterval_lookup. case_decide; [done|].
  rewrite clearInterval_lookup, Href. by case_decide.
Qed.

Lemma observes_terminal_spec p :
  observes_terminal p = true
  ↔ progress_status p = "success"
    ∧ (progress_state p = "finished" ∨ progress_state p = "error"
       ∨ progress_state p = "cancelled").
Proof.
  unfold observes_terminal, terminal.
  rewrite andb_true_iff, !orb_true_iff, !str_eq_true. tauto.
Qed.
End Polling.

(** ** Startup reconciliation, delete and result download *)
Section Operations.
Import Orchestrator.

Lemma list_ids_spec sys i : i ∈ list_ids sys ↔ is_Some (store sys !! i).
Proof.
  unfold list_ids. rewrite list_elem_of_fmap. split.
  - intros ([k r] & -> & Hkr%elem_of_map_to_list). by exists r.
  - intros [r Hr]. exists (i, r). split; [done|]. by apply elem_of_map_to_list.
Qed.

Lemma fetch_cases sys i r :
  store sys !! i = Some r →
  (status r = finished →
   ∃ body, ∀ f, fetchResultPackage i f sys = Ok (mkPackage f body))
  ∧ (status r ≠ finished → ∀ f, fetchResultPackage i f sys = Err NotReady)
  ∧ (∀ f p, fetchResultPackage i f sys = Ok p → status r = finished).
Proof.
  intros Hr. unfold fetchResultPackage. rewrite Hr.
  destruct (status r); (split; [|split]);
    solve [ done | intros _; by eexists | by intros H ].
Qed.

Lemma well_formed_not_stale sys i : well_formed sys → ¬ stale sys i.
Proof. intros (_ & _ & _ & _ & Hrun) (r & Hr & Hs & Hslot). eauto. Qed.
End Operations.

(** C3. When the runner starts on a persisted store, every record found
    running is forced to error with a non-empty diagnostic and an end
    time; the state in which the runner begins to accept jobs holds no
    running record and no live process, and from then on no state shows a
    record as running without a live process behind it. *)
Theorem C3_startup_reconciliation (now : Z) (persisted : gmap nat Orchestrator.JobRecord)
    (res : gmap nat string) (next i : nat) (r : Orchestrator.JobRecord) :
  persisted !! i = Some r →
  Orchestrator.status r = Orchestrator.running →
  (∃ r' d, Orchestrator.store (Orchestrator.startup now persisted res next) !! i = Some r'
           ∧ Orchestrator.status r' = Orchestrator.error
           ∧ Orchestrator.errorDetail r' = Some d ∧ d ≠ ""
           ∧ Orchestrator.endedAt r' = Some now)
  ∧ (∀ k rk, Orchestrator.store (Orchestrator.startup now persisted res next) !! k = Some rk →
             Orchestrator.status rk ≠ Orchestrator.running)
  ∧ Orchestrator.slot (Orchestrator.startup now persisted res next) = None
  ∧ ((∀ k rk, persisted !! k = Some rk → (k < next)%nat) →
     ∀ evs k, ¬ Orchestrator.stale
                  (Orchestrator.run evs (Orchestrator.startup now persisted res next)) k).
Proof.
  intros Hr Hrun. split; [|split; [|split]].
  - exists (Orchestrator.reconcile now r), Orchestrator.orphan_diagnostic.
    unfold Orchestrator.startup; simpl. rewrite lookup_fmap, Hr. simpl.
    unfold Orchestrator.reconcile. rewrite Hrun. simpl.
    repeat split; try done.
  - intros k rk. unfold Orchestrator.startup; simpl. rewrite lookup_fmap.
    destruct (persisted !! k) as [r0|]; [|done]. simpl. intros [= <-].
    rewrite reconcile_status. by case_decide.
  - done.
  - intros Hnext evs k.
    by apply well_formed_not_stale, run_well_formed, startup_well_formed.
Qed.

Lemma C3_startup_reconciliation_witness :
  ∃ r' d, Orchestrator.store
            (Orchestrator.step (Orchestrator.ev_restart 99) Samples.busy) !! 0%nat = Some r'
          ∧ Orchestrator.status r' = Orchestrator.error
          ∧ Orchestrator.errorDetail r' = Some d ∧ d ≠ ""
          ∧ Orchestrator.endedAt r' = Some 99.
Proof.
  refine (proj1 (C3_startup_reconciliation 99 (Orchestrator.store Samples.busy)
                   (Orchestrator.results Samples.busy) (Orchestrator.next_id Samples.busy) 0
                   (Orchestrator.mkJobRecord 0 Orchestrator.running "uploads/a.pdf"
                      "uploads/a.pdf" 10 (Some 11) None None None) _ _));
    reflexivity.
Defined.

(** C4. Deleting a job succeeds only when its status is terminal, and then
    removes the record and its result artifacts, so the job is gone from
    the list; for a pending or running job the operation fails with
    Conflict, changes nothing, and the job stays in the list. The client
    offers the delete button on every row, whatever the status, and leaves
    the decision to the service: it fetches the list again only on a
    'success' answer and otherwise shows the service's message. *)
Theorem C4_delete_terminal_only (sys : Orchestrator.System) (i : nat)
    (r : Orchestrator.JobRecord) :
  Orchestrator.store sys !! i = Some r →
  (Orchestrator.terminal (Orchestrator.status r) = true →
     fst (Orchestrator.delete_job i sys) = Orchestrator.Ok ()
     ∧ Orchestrator.store (snd (Orchestrator.delete_job i sys)) !! i = None
     ∧ Orchestrator.results (snd (Orchestrator.delete_job i sys)) !! i = None
     ∧ ¬ (i ∈ Orchestrator.list_ids (snd (Orchestrator.delete_job i sys)))
     ∧ (∀ k, k ≠ i → (Orchestrator.store (snd (Orchestrator.delete_job i sys)) !! k)
                     = (Orchestrator.store sys !! k)))
  ∧ (Orchestrator.status r = Orchestrator.pending
     ∨ Orchestrator.status r = Orchestrator.running →
     Orchestrator.delete_job i sys = (Orchestrator.Err Orchestrator.Conflict, sys)
     ∧ i ∈ Orchestrator.list_ids (snd (Orchestrator.delete_job i sys)))
  ∧ (fst (Orchestrator.delete_job i sys) = Orchestrator.Ok () →
     Orchestrator.terminal (Orchestrator.status r) = true)
  ∧ (∀ cancelling job,
       HistoryPanel.delete_button (HistoryPanel.row_actions cancelling job)
       = HistoryPanel.task_id job)
  ∧ (∀ st msg,
       HistoryPanel.handleDeleteTask true (Some (HistoryPanel.delete_answer st msg))
       = if JS.str_eq st "success"
         then Some (HistoryPanel.toast_success "Task deleted", true)
         else Some (HistoryPanel.toast_error "Failed to delete task" msg, false)).
Proof.
  intros Hr. unfold Orchestrator.delete_job. rewrite Hr.
  split; [|split; [|split; [|by split]]].
  - intros ->. simpl. split; [done|]. split; [apply lookup_delete_eq|].
    split; [apply lookup_delete_eq|]. split.
    + rewrite list_ids_spec. simpl. rewrite lookup_delete_eq. by intros [? ?].
    + intros k Hk. by apply lookup_delete_ne.
  - intros Hs.
    assert (Orchestrator.terminal (Orchestrator.status r) = false) as ->
      by (by destruct Hs as [-> | ->]).
    split; [done|]. simpl. apply list_ids_spec. by exists r.
  - by destruct (Orchestrator.terminal (Orchestrator.status r)).
Qed.

Lemma C4_delete_terminal_only_witness :
  fst (Orchestrator.delete_job 0 Samples.done_ok) = Orchestrator.Ok ()
  ∧ Orchestrator.store (snd (Orchestrator.delete_job 0 Samples.done_ok)) !! 0%nat = None
  ∧ Orchestrator.delete_job 0 Samples.busy = (Orchestrator.Err Orchestrator.Conflict, Samples.busy).
Proof.
  split; [|split].
  - eapply (C4_delete_terminal_only Samples.done_ok 0); reflexivity.
  - eapply (C4_delete_terminal_only Samples.done_ok 0); reflexivity.
  - eapply (C4_delete_terminal_only Samples.busy 0); [reflexivity|by right].
Defined.

(** C5. In the history list a download control is rendered for a job
    exactly when its status is finished, and it offers the three formats
    mmd, md and txt for that job; the service returns a package for a
    finished job in each format, built from the same result, and answers
    NotReady for a job in any other state. *)
Theorem C5_download_finished_only (cancelling : gset string)
    (job : HistoryPanel.HistoryJob) (sys : Orchestrator.System) (i : nat)
    (r : Orchestrator.JobRecord) :
  (is_Some (HistoryPanel.download_control (HistoryPanel.row_actions cancelling job))
   ↔ HistoryPanel.status job = "finished")
  ∧ (HistoryPanel.status job = "finished" →
     ∃ menu, HistoryPanel.download_control (HistoryPanel.row_actions cancelling job) = Some menu
             ∧ HistoryPanel.item_format <$> menu
               = [HistoryPanel.mmd; HistoryPanel.md; HistoryPanel.txt]
             ∧ Forall (λ it, HistoryPanel.item_task it = HistoryPanel.task_id job) menu)
  ∧ (HistoryPanel.status job ≠ "finished" →
     HistoryPanel.download_control (HistoryPanel.row_actions cancelling job) = None)
  ∧ NoDup (HistoryPanel.format_name
             <$> [HistoryPanel.mmd; HistoryPanel.md; HistoryPanel.txt])
  ∧ (Orchestrator.store sys !! i = Some r →
     (Orchestrator.status r = Orchestrator.finished →
      ∃ body, ∀ f, Orchestrator.fetchResultPackage i f sys
                   = Orchestrator.Ok (Orchestrator.mkPackage f body))
     ∧ (Orchestrator.status r ≠ Orchestrator.finished →
        ∀ f, Orchestrator.fetchResultPackage i f sys
             = Orchestrator.Err Orchestrator.NotReady)
     ∧ (∀ f p, Orchestrator.fetchResultPackage i f sys = Orchestrator.Ok p →
               Orchestrator.status r = Orchestrator.finished)).
Proof.
  unfold HistoryPanel.row_actions; simpl.
  destruct (JS.str_eq (HistoryPanel.status job) "finished") eqn:E.
  - apply str_eq_true in E. split; [by split|]. split.
    { intros _. eexists. split; [done|]. split; [done|]. by repeat constructor. }
    split; [done|]. split; [by apply (bool_decide_unpack _); vm_compute|].
    by apply fetch_cases.
  - apply str_eq_false in E. split; [split; [by intros [? ?]|done]|].
    split; [done|]. split; [done|].
    split; [by apply (bool_decide_unpack _); vm_compute|].
    by apply fetch_cases.
Qed.

Lemma C5_download_finished_only_witness :
  HistoryPanel.download_control (HistoryPanel.row_actions ∅ Samples.h3) = None
  ∧ (∃ menu, HistoryPanel.download_control (HistoryPanel.row_actions ∅ Samples.h1) = Some menu
             ∧ HistoryPanel.item_format <$> menu
               = [HistoryPanel.mmd; HistoryPanel.md; HistoryPanel.txt]
             ∧ Forall (λ it, HistoryPanel.item_task it = "t1") menu)
  ∧ Orchestrator.fetchResultPackage 0 Orchestrator.md Samples.busy
    = Orchestrator.Err Orchestrator.NotReady
  ∧ ∃ body, ∀ f, Orchestrator.fetchResultPackage 0 f Samples.done_ok
                 = Orchestrator.Ok (Orchestrator.mkPackage f body).
Proof.
  destruct (C5_download_finished_only ∅ Samples.h3 Samples.busy 0
              (Orchestrator.mkJobRecord 0 Orchestrator.running "uploads/a.pdf"
                 "uploads/a.pdf" 10 (Some 11) None None None))
    as (_ & _ & Hnone & _ & Hbusy).
  destruct (C5_download_finished_only ∅ Samples.h1 Samples.done_ok 0
              (Orchestrator.mkJobRecord 0 Orchestrator.finished "uploads/a.pdf"
                 "uploads/a.pdf" 10 (Some 11) (Some 50) (Some "results/0") None))
    as (_ & Hmenu & _ & _ & Hdone).
  split; [by apply Hnone|]. split; [by apply Hmenu|].
  split.
  - by apply (proj1 (proj2 (Hbusy eq_refl))).
  - by apply (proj1 (Hdone eq_refl)).
Defined.

(** * Further properties of the client *)

(** ** JobQueuePanel: the jobs kept by [fetchJobs] *)
Section QueueFacts.
Import JobQueuePanel.
Context (getTime : string -> option Z).

Lemma recent_sort_sorted (l : list Job) :
  StronglySorted Order.queue_running_first (JS.sort (recent_cmp getTime) l).
Proof.
  apply (sort_sorted _ (λ _, True)); [| | |by apply Forall_true];
    unfold JS.before, recent_cmp, Order.queue_running_first.
  - intros a b _ _. destruct (is_running a), (is_running b); simpl; try done.
  - intros a b _ _. destruct (is_running a), (is_running b); simpl; try done.
  - intros a b c _ _ _. tauto.
Qed.

Lemma recentJobs_of_length all : (length (recentJobs_of getTime all) ≤ 5)%nat.
Proof. unfold recentJobs_of, JS.slice0. rewrite length_take. lia. Qed.

Lemma recentJobs_of_elem all j :
  j ∈ recentJobs_of getTime all → j ∈ take 10 all.
Proof.
  unfold recentJobs_of, JS.slice0. intros Hj%subseteq_take.
  by rewrite sort_perm in Hj.
Qed.

Lemma recentJobs_of_keeps_running all a b :
  a ∈ take 10 all → is_running a = true →
  b ∈ recentJobs_of getTime all → is_running b = false →
  a ∈ recentJobs_of getTime all.
Proof.
  unfold recentJobs_of, JS.slice0. intros Ha Hra Hb Hrb.
  set (S := JS.sort (recent_cmp getTime) (take 10 all)) in *.
  assert (a ∈ S) as [k Hk]%list_elem_of_lookup by (unfold S; by rewrite sort_perm).
  apply list_elem_of_lookup in Hb as [i Hi].
  destruct (decide (k < 5)%nat) as [Hlt|Hge].
  - apply list_elem_of_lookup. exists k. by rewrite lookup_take_lt.
  - assert (i < 5)%nat as Hi5.
    { apply lookup_lt_Some in Hi. rewrite length_take in Hi. lia. }
    rewrite lookup_take_lt in Hi by done.
    pose proof (StronglySorted_pairs _ _ (recent_sort_sorted (take 10 all))
                  i k b a ltac:(lia) Hi Hk Hra) as Hbad.
    congruence.
Qed.
End QueueFacts.

(** X1. The job-queue panel keeps at most five jobs, all taken from the
    first ten of the history answer, so a job further down the history
    is never listed, running or not. With at most five jobs in the answer
    none is lost. When time stamps are dates and a job that is not running
    is kept, every running job among the first ten is kept too. *)
Theorem X1_recent_jobs_window (getTime : string -> option Z)
    (all : list JobQueuePanel.Job) :
  (length (JobQueuePanel.recentJobs_of getTime all) ≤ 5)%nat
  ∧ (∀ j, j ∈ JobQueuePanel.recentJobs_of getTime all → j ∈ take 10 all)
  ∧ ((length all ≤ 5)%nat → JobQueuePanel.recentJobs_of getTime all ≡ₚ all)
  ∧ (Forall (Order.queue_valid_date getTime) all →
     ∀ a b, a ∈ take 10 all → JobQueuePanel.is_running a = true →
            b ∈ JobQueuePanel.recentJobs_of getTime all →
            JobQueuePanel.is_running b = false →
            a ∈ JobQueuePanel.recentJobs_of getTime all).
Proof.
  split; [apply recentJobs_of_length|].
  split; [apply recentJobs_of_elem|].
  split.
  - intros Hlen. unfold JobQueuePanel.recentJobs_of, JS.slice0.
    rewrite (take_ge all) by lia.
    rewrite take_ge; [apply sort_perm|].
    by rewrite (Permutation_length (sort_perm _ all)).
  - intros _. apply recentJobs_of_keeps_running.
Qed.

Lemma X1_recent_jobs_window_witness :
  JobQueuePanel.recentJobs_of Samples.getTime [Samples.q1; Samples.q2]
    ≡ₚ [Samples.q1; Samples.q2]
  ∧ Samples.q2 ∈ JobQueuePanel.recentJobs_of Samples.getTime [Samples.q1; Samples.q2].
Proof.
  destruct (X1_recent_jobs_window Samples.getTime [Samples.q1; Samples.q2])
    as (_ & _ & Hperm & Hrun).
  split; [apply Hperm; simpl; lia|].
  apply (Hrun ltac:(repeat constructor; vm_compute; eexists; reflexivity)
           Samples.q2 Samples.q1); [|reflexivity| |reflexivity].
  - apply list_elem_of_lookup. by exists 1%nat.
  - apply list_elem_of_lookup. by exists 1%nat.
Defined.

Section NotifyFacts.
Context {A : Type} (p : A -> bool).

(** [arr.find(p)] gives the first element that satisfies [p]. *)
Lemma find_first (l : list A) (x : A) :
  JS.find p l = Some x
  ↔ ∃ i, l !! i = Some x ∧ p x = true
         ∧ ∀ i' y, (i' < i)%nat → l !! i' = Some y → p y = false.
Proof.
  unfold JS.find. revert x. induction l as [|a l IH]; intros x; simpl.
  - split; [done|]. by intros (i & Hi & _).
  - destruct (p a) eqn:Ha.
    + split.
      * intros [= <-]. exists 0%nat. repeat split; [done|]. intros i' y Hlt. lia.
      * intros ([|i] & Hi & Hx & Hbefore); simpl in Hi; [congruence|].
        specialize (Hbefore 0%nat a ltac:(lia) eq_refl). congruence.
    + rewrite IH. split.
      * intros (i & Hi & Hx & Hbefore). exists (S i). repeat split; [done..|].
        intros [|i'] y Hlt Hy; simpl in Hy; [congruence|].
        apply (Hbefore i' y); [lia|done].
      * intros ([|i] & Hi & Hx & Hbefore); simpl in Hi; [congruence|].
        exists i. repeat split; [done..|].
        intros i' y Hlt Hy. apply (Hbefore (S i') y); [lia|done].
Qed.

Lemma find_none_iff (l : list A) :
  JS.find p l = None ↔ ∀ x, x ∈ l → p x = false.
Proof.
  unfold JS.find. split.
  - intros H x Hx. apply (List.find_none _ _ H). by apply list_elem_of_In.
  - intros H. destruct (List.find p l) as [x|] eqn:E; [|done].
    apply List.find_some in E as [Hin Hx]. apply list_elem_of_In, H in Hin. congruence.
Qed.
End NotifyFacts.

(** X2. [fetchJobs] calls [onJobComplete] exactly when the callback is
    given, the answer is a success with jobs, no job it keeps is running,
    and a kept job is finished; the id passed is that of the first
    finished job kept. On such an answer the kept jobs replace the list. A
    failed request, an answer that is not a success or an answer without
    jobs leaves the job list as it was and notifies nobody. *)
Theorem X2_job_complete_notification (getTime : string -> option Z) (has_callback : bool)
    (jobs : list JobQueuePanel.Job) (answer : option JobQueuePanel.HistoryData) :
  (∀ id, snd (JobQueuePanel.fetchJobs getTime has_callback jobs answer) = Some id
     ↔ has_callback = true
       ∧ ∃ data all i j,
           answer = Some data
           ∧ JobQueuePanel.data_status data = "success"
           ∧ JobQueuePanel.data_jobs data = Some all
           ∧ (∀ r, r ∈ JobQueuePanel.recentJobs_of getTime all →
                   JobQueuePanel.status r ≠ "running")
           ∧ JobQueuePanel.recentJobs_of getTime all !! i = Some j
           ∧ JobQueuePanel.status j = "finished"
           ∧ (∀ i' j', (i' < i)%nat →
                JobQueuePanel.recentJobs_of getTime all !! i' = Some j' →
                JobQueuePanel.status j' ≠ "finished")
           ∧ JobQueuePanel.task_id j = id)
  ∧ (∀ data all, answer = Some data →
       JobQueuePanel.data_status data = "success" →
       JobQueuePanel.data_jobs data = Some all →
       fst (JobQueuePanel.fetchJobs getTime has_callback jobs answer)
       = JobQueuePanel.recentJobs_of getTime all)
  ∧ ((answer = None
      ∨ ∃ data, answer = Some data
                ∧ (JobQueuePanel.data_status data ≠ "success"
                   ∨ JobQueuePanel.data_jobs data = None)) →
     JobQueuePanel.fetchJobs getTime has_callback jobs answer = (jobs, None)).
Proof.
  unfold JobQueuePanel.fetchJobs. split; [|split].
  - intros id. split.
    + destruct answer as [data|]; [|done].
      destruct (JS.str_eq (JobQueuePanel.data_status data) "success") eqn:Hs; [|done].
      destruct (JobQueuePanel.data_jobs data) as [all|] eqn:Hj; [|done]. simpl.
      destruct (JS.find JobQueuePanel.is_running _) eqn:Hrun; [done|].
      destruct has_callback; [|done].
      destruct (JS.find JobQueuePanel.is_finished _) as [j|] eqn:Hfin; [|done].
      simpl. intros [= <-]. split; [done|].
      apply find_first in Hfin as (i & Hi & Hf & Hbefore).
      exists data, all, i, j. apply str_eq_true in Hs.
      repeat split; try done.
      * intros r Hr. apply str_eq_false.
        by apply (proj1 (find_none_iff JobQueuePanel.is_running _) Hrun).
      * by apply str_eq_true.
      * intros i' j' Hlt Hj'. apply str_eq_false. by apply (Hbefore i' j').
    + intros (-> & data & all & i & j & -> & Hs & -> & Hnone & Hi & Hf & Hbefore & <-).
      rewrite (proj2 (str_eq_true _ _) Hs). simpl.
      assert (JS.find JobQueuePanel.is_running (JobQueuePanel.recentJobs_of getTime all)
              = None) as ->.
      { apply find_none_iff. intros r Hr. apply str_eq_false. by apply Hnone. }
      assert (JS.find JobQueuePanel.is_finished (JobQueuePanel.recentJobs_of getTime all)
              = Some j) as ->; [|done].
      apply find_first. exists i. repeat split; [done|by apply str_eq_true|].
      intros i' j' Hlt Hj'. apply str_eq_false. by apply (Hbefore i' j').
  - intros data all -> Hs ->. by rewrite (proj2 (str_eq_true _ _) Hs).
  - intros [->|(data & -> & [Hbad| Hnone])]; [done| |].
    + by rewrite (proj2 (str_eq_false _ _) Hbad).
    + rewrite Hnone. by destruct (JS.str_eq _ _).
Qed.

Lemma X2_job_complete_notification_witness :
  snd (JobQueuePanel.fetchJobs Samples.getTime true []
         (Some (JobQueuePanel.mkHistoryData "success" (Some [Samples.q1]))))
  = Some "t1"
  ∧ JobQueuePanel.fetchJobs Samples.getTime true [Samples.q1] None = ([Samples.q1], None).
Proof.
  split.
  - apply (X2_job_complete_notification Samples.getTime true []
             (Some (JobQueuePanel.mkHistoryData "success" (Some [Samples.q1])))).
    split; [done|].
    exists (JobQueuePanel.mkHistoryData "success" (Some [Samples.q1])), [Samples.q1],
      0%nat, Samples.q1.
    repeat split; try done.
    + intros r Hr. vm_compute in Hr. apply list_elem_of_singleton in Hr as ->. done.
    + intros i' j' Hlt. lia.
  - by apply (X2_job_complete_notification Samples.getTime true [Samples.q1] None); left.
Defined.

(** ** JobQueuePanel: what the dropdown lists *)
Section DropdownFacts.
Import JobQueuePanel.

Lemma runningJobs_elem jobs j : j ∈ runningJobs jobs ↔ j ∈ jobs ∧ is_running j = true.
Proof. unfold runningJobs. rewrite list_elem_of_filter. tauto. Qed.

Lemma positive_length {A} (l : list A) : (0 <? length l)%nat = true ↔ l ≠ [].
Proof. destruct l; simpl; split; done. Qed.
End DropdownFacts.

(** X3. A rendered job-queue dropdown always has a section. The running
    section is there exactly when a job of the panel is running; its rows
    are the running jobs of the panel, each once and in the order of the
    panel, every row with the cancel button of its own job, and the
    button of the panel shows their number (and 'Jobs' when none is
    running). The other section is there exactly when a job is not
    running; its rows are the first three jobs that are not running, in
    the order of the panel, each with the icon of its status; the caption
    "Recent" appears exactly when both sections do. *)
Theorem X3_dropdown_sections (jobs : list JobQueuePanel.Job) (isOpen : bool)
    (d : JobQueuePanel.Dropdown) :
  JobQueuePanel.render jobs isOpen = Some d →
  (is_Some (JobQueuePanel.running_section d) ∨ is_Some (JobQueuePanel.recent_section d))
  ∧ (JobQueuePanel.running_section d = None
     ↔ ∀ j, j ∈ jobs → JobQueuePanel.status j ≠ "running")
  ∧ (∀ rows, JobQueuePanel.running_section d = Some rows →
       JobQueuePanel.running_key <$> rows
       = JobQueuePanel.task_id
           <$> filter (λ j, JobQueuePanel.status j = "running") jobs
       ∧ JobQueuePanel.running_cancel <$> rows = JobQueuePanel.running_key <$> rows
       ∧ JobQueuePanel.trigger d
         = JobQueuePanel.RunningCount
             (length (filter (λ j, JobQueuePanel.status j = "running") jobs)))
  ∧ (JobQueuePanel.running_section d = None →
     JobQueuePanel.trigger d = JobQueuePanel.JobsLabel)
  ∧ (JobQueuePanel.recent_section d = None
     ↔ ∀ j, j ∈ jobs → JobQueuePanel.status j = "running")
  ∧ (∀ caption rows,
       JobQueuePanel.recent_section d = Some (caption, rows) →
       JobQueuePanel.recent_key <$> rows
       = JobQueuePanel.task_id
           <$> take 3 (filter (λ j, JobQueuePanel.status j ≠ "running") jobs)
       ∧ JobQueuePanel.recent_icon <$> rows
         = (λ j, JobQueuePanel.getStatusIcon (JobQueuePanel.status j))
             <$> take 3 (filter (λ j, JobQueuePanel.status j ≠ "running") jobs)
       ∧ (caption = true ↔ is_Some (JobQueuePanel.running_section d))).
Proof.
  assert (JobQueuePanel.runningJobs jobs
          = filter (λ j, JobQueuePanel.status j = "running") jobs) as Hrun.
  { unfold JobQueuePanel.runningJobs. apply list_filter_iff. intros j.
    unfold JobQueuePanel.is_running. apply str_eq_true. }
  assert (JobQueuePanel.recentJobs jobs
          = take 3 (filter (λ j, JobQueuePanel.status j ≠ "running") jobs)) as Hrec.
  { unfold JobQueuePanel.recentJobs, JS.slice0. f_equal. apply list_filter_iff. intros j.
    unfold JobQueuePanel.is_running. apply str_eq_false. }
  unfold JobQueuePanel.render. destruct jobs as [|j0 jobs]; [done|].
  change ((length (j0 :: jobs) =? 0)%nat) with false. cbv iota.
  set (all := j0 :: jobs) in *. rewrite Hrun, Hrec. clear Hrun Hrec.
  set (running := filter (λ j, JobQueuePanel.status j = "running") all).
  set (others := filter (λ j, JobQueuePanel.status j ≠ "running") all).
  assert (running = [] ↔ ∀ j, j ∈ all → JobQueuePanel.status j ≠ "running") as Hnone.
  { split.
    - intros Hnil j Hj Hr. assert (j ∈ running) as Hin by by apply list_elem_of_filter.
      rewrite Hnil in Hin. by apply not_elem_of_nil in Hin.
    - intros Hno. destruct running as [|j l] eqn:E; [done|].
      assert (j ∈ running) as [Hr Hj]%list_elem_of_filter
        by (rewrite E; apply list_elem_of_here).
      by destruct (Hno j Hj). }
  assert (others = [] ↔ ∀ j, j ∈ all → JobQueuePanel.status j = "running") as Hall.
  { split.
    - intros Hnil j Hj. destruct (decide (JobQueuePanel.status j = "running")); [done|].
      assert (j ∈ others) as Hin by by apply list_elem_of_filter.
      rewrite Hnil in Hin. by apply not_elem_of_nil in Hin.
    - intros Hyes. destruct others as [|j l] eqn:E; [done|].
      assert (j ∈ others) as [Hr Hj]%list_elem_of_filter
        by (rewrite E; apply list_elem_of_here).
      by destruct (Hr (Hyes j Hj)). }
  assert (take 3 others = [] ↔ others = []) as Htake by by destruct others.
  clearbody running others. intros [= <-]; simpl.
  split; [|split; [|split; [|split; [|split]]]].
  - destruct (decide (JobQueuePanel.status j0 = "running")) as [H0|H0].
    + left. assert (running ≠ []) as Hne%positive_length.
      { intros Hnil. by apply (proj1 Hnone Hnil j0 (list_elem_of_here _ _)). }
      rewrite Hne. by eexists.
    + right. assert (take 3 others ≠ []) as Hne%positive_length.
      { rewrite Htake. intros Hnil.
        by apply H0, (proj1 Hall Hnil), list_elem_of_here. }
      rewrite Hne. by eexists.
  - rewrite <- Hnone. destruct running; simpl; by split.
  - intros rows. destruct (0 <? length running)%nat; [|done]. intros [= <-].
    by rewrite <- !list_fmap_compose.
  - destruct running; [done|]. done.
  - rewrite <- Hall, <- Htake. destruct (take 3 others); simpl; by split.
  - intros caption rows. destruct (0 <? length (take 3 others))%nat; [|done].
    intros [= <- <-].
    rewrite <- !list_fmap_compose. split; [done|]. split; [done|].
    destruct running; simpl; split; try done; try (by eexists); by intros [? ?].
Qed.

Lemma X3_dropdown_sections_witness :
  ∃ d rows, JobQueuePanel.render [Samples.q1; Samples.q2] false = Some d
       ∧ JobQueuePanel.running_section d = Some rows
       ∧ JobQueuePanel.running_key <$> rows = ["t2"]
       ∧ JobQueuePanel.trigger d = JobQueuePanel.RunningCount 1.
Proof.
  eexists _, _. split; [reflexivity|]. split; [reflexivity|].
  destruct (X3_dropdown_sections [Samples.q1; Samples.q2] false _ eq_refl)
    as (_ & _ & H & _).
  destruct (H _ eq_refl) as (Hkeys & _ & Htrigger). by rewrite Hkeys, Htrigger.
Defined.

(** ** JobQueuePanel: names in the dropdown *)
Section NameFacts.

Lemma string_length_app s1 s2 :
  String.length (s1 +:+ s2) = (String.length s1 + String.length s2)%nat.
Proof. induction s1 as [|c s1 IH]; simpl; [done|]. by rewrite IH. Qed.

Lemma substring_length n s :
  String.length (String.substring 0 n s) = (n `min` String.length s)%nat.
Proof.
  revert s. induction n as [|n IH]; intros [|c s]; simpl; try done.
  by rewrite IH.
Qed.

Lemma substring_prefix n s : String.prefix (String.substring 0 n s) s = true.
Proof.
  revert s. induction n as [|n IH]; intros [|c s]; simpl; try done.
  destruct (Ascii.ascii_dec c c); [apply IH|done].
Qed.
End NameFacts.

(** X4. In the job-queue dropdown a job with an original file name of
    ASCII characters is shown under that name when it has at most 20
    characters, and otherwise under its first 17 characters followed by
    three dots, so the name shown never exceeds 20 characters; without an
    original file name the job is shown as 'Task <task_id>', whatever its
    stored file name. *)
Theorem X4_queue_name_truncated (job : JobQueuePanel.Job) :
  JS.is_ascii (JobQueuePanel.original_filename job) = true →
  (JS.trim (JobQueuePanel.original_filename job) ≠ "" →
     (String.length (JobQueuePanel.getDisplayName job) ≤ 20)%nat
     ∧ ((String.length (JobQueuePanel.original_filename job) ≤ 20)%nat →
        JobQueuePanel.getDisplayName job = JobQueuePanel.original_filename job)
     ∧ ((20 < String.length (JobQueuePanel.original_filename job))%nat →
        ∃ head, JobQueuePanel.getDisplayName job = head +:+ "..."
                ∧ String.length head = 17%nat
                ∧ String.prefix head (JobQueuePanel.original_filename job) = true))
  ∧ (JS.trim (JobQueuePanel.original_filename job) = "" →
     JobQueuePanel.getDisplayName job = "Task " +:+ JobQueuePanel.task_id job).
Proof.
  intros _. unfold JobQueuePanel.getDisplayName, JobQueuePanel.str_length. split.
  - intros Ht%truthy_true. rewrite Ht, (truthy_trim _ Ht). simpl.
    destruct (20 <? String.length (JobQueuePanel.original_filename job))%nat eqn:E.
    + apply Nat.ltb_lt in E. split; [|split; [intros ?; lia|]].
      * rewrite string_length_app, substring_length.
        change (String.length "...") with 3%nat. lia.
      * intros _. eexists. split; [done|]. split; [|apply substring_prefix].
        rewrite substring_length. lia.
    + apply Nat.ltb_ge in E. split; [done|]. split; [done|intros ?; lia].
  - intros Ht%truthy_false. by rewrite Ht, andb_false_r.
Qed.

Lemma X4_queue_name_truncated_witness :
  JobQueuePanel.getDisplayName Samples.q1 = "a.pdf"
  ∧ JobQueuePanel.getDisplayName (Samples.qjob "t5" "  " "" "finished") = "Task t5".
Proof.
  split.
  - destruct (X4_queue_name_truncated Samples.q1 eq_refl) as [H _].
    destruct (H ltac:(done)) as (_ & Heq & _). apply Heq. simpl. lia.
  - destruct (X4_queue_name_truncated (Samples.qjob "t5" "  " "" "finished") eq_refl)
      as [_ H].
    by apply H.
Defined.

(** ** HistoryPanel: relative dates *)

(** X5. For a time stamp that is a date, the history list shows 'Just
    now' for less than a minute (and for any date in the future), then the
    whole minutes from 1 to 59, the whole hours from 1 to 23, the whole
    days from 1 to 6, and from seven days on the platform's date text;
    for a time stamp that is not a date it shows the platform's text. *)
Theorem X5_relative_date (getTime : string -> option Z)
    (toLocaleDateString : string -> string) (now : Z) (timestamp : string) :
  (getTime timestamp = None →
     HistoryView.formatDate getTime toLocaleDateString now timestamp
     = toLocaleDateString timestamp)
  ∧ (∀ t, getTime timestamp = Some t →
       (now - t < 60000 →
          HistoryView.formatDate getTime toLocaleDateString now timestamp = "Just now")
       ∧ (60000 <= now - t < 3600000 →
          ∃ n, HistoryView.formatDate getTime toLocaleDateString now timestamp
               = Num.to_string n +:+ "m ago"
               ∧ 1 <= n <= 59 ∧ n = (now - t) / 60000)
       ∧ (3600000 <= now - t < 86400000 →
          ∃ n, HistoryView.formatDate getTime toLocaleDateString now timestamp
               = Num.to_string n +:+ "h ago"
               ∧ 1 <= n <= 23 ∧ n = (now - t) / 3600000)
       ∧ (86400000 <= now - t < 604800000 →
          ∃ n, HistoryView.formatDate getTime toLocaleDateString now timestamp
               = Num.to_string n +:+ "d ago"
               ∧ 1 <= n <= 6 ∧ n = (now - t) / 86400000)
       ∧ (604800000 <= now - t →
          HistoryView.formatDate getTime toLocaleDateString now timestamp
          = toLocaleDateString timestamp)).
Proof.
  unfold HistoryView.formatDate. split; [by intros ->|].
  intros t ->. cbv zeta.
  repeat split.
  - intros H. assert (((now - t) / 60000 <? 1) = true) as -> by (apply Z.ltb_lt, Z.div_lt_upper_bound; lia). done.
  - intros H.
    assert (((now - t) / 60000 <? 1) = false) as -> by (apply Z.ltb_ge, Z.div_le_lower_bound; lia).
    assert (((now - t) / 60000 <? 60) = true) as -> by (apply Z.ltb_lt, Z.div_lt_upper_bound; lia).
    eexists. split; [done|]. split; [|done].
    split; [apply Z.div_le_lower_bound; lia|].
    apply Z.lt_succ_r, Z.div_lt_upper_bound; lia.
  - intros H.
    assert (((now - t) / 60000 <? 1) = false) as -> by (apply Z.ltb_ge, Z.div_le_lower_bound; lia).
    assert (((now - t) / 60000 <? 60) = false) as -> by (apply Z.ltb_ge, Z.div_le_lower_bound; lia).
    assert (((now - t) / 3600000 <? 24) = true) as -> by (apply Z.ltb_lt, Z.div_lt_upper_bound; lia).
    eexists. split; [done|]. split; [|done].
    split; [apply Z.div_le_lower_bound; lia|].
    apply Z.lt_succ_r, Z.div_lt_upper_bound; lia.
  - intros H.
    assert (((now - t) / 60000 <? 1) = false) as -> by (apply Z.ltb_ge, Z.div_le_lower_bound; lia).
    assert (((now - t) / 60000 <? 60) = false) as -> by (apply Z.ltb_ge, Z.div_le_lower_bound; lia).
    assert (((now - t) / 3600000 <? 24) = false) as -> by (apply Z.ltb_ge, Z.div_le_lower_bound; lia).
    assert (((now - t) / 86400000 <? 7) = true) as -> by (apply Z.ltb_lt, Z.div_lt_upper_bound; lia).
    eexists. split; [done|]. split; [|done].
    split; [apply Z.div_le_lower_bound; lia|].
    apply Z.lt_succ_r, Z.div_lt_upper_bound; lia.
  - intros H.
    assert (((now - t) / 60000 <? 1) = false) as -> by (apply Z.ltb_ge, Z.div_le_lower_bound; lia).
    assert (((now - t) / 60000 <? 60) = false) as -> by (apply Z.ltb_ge, Z.div_le_lower_bound; lia).
    assert (((now - t) / 3600000 <? 24) = false) as -> by (apply Z.ltb_ge, Z.div_le_lower_bound; lia).
    assert (((now - t) / 86400000 <? 7) = false) as -> by (apply Z.ltb_ge, Z.div_le_lower_bound; lia).
    done.
Qed.

Lemma X5_relative_date_witness :
  HistoryView.formatDate Samples.getTime Cases.toLocaleDateString 1735689725000
    "2025-01-01T00:00:00Z" = "2m ago"
  ∧ HistoryView.formatDate Samples.getTime Cases.toLocaleDateString 1735689725000
      "yesterday" = "1/1/2025".
Proof.
  destruct (X5_relative_date Samples.getTime Cases.toLocaleDateString 1735689725000
              "2025-01-01T00:00:00Z") as [_ H].
  destruct (H 1735689600000 eq_refl) as (_ & Hmin & _).
  destruct Hmin as (n & -> & _ & ->); [lia|].
  split; [reflexivity|].
  by apply (X5_relative_date Samples.getTime Cases.toLocaleDateString 1735689725000
              "yesterday").
Defined.

(** ** HistoryPanel: file icons *)
Section IconFacts.
Import HistoryView.



End IconFacts.



(** ** HistoryPanel: cancelling a task *)
Section CancelFacts.
Context (taskId : string) (cancelling : gset string).

Lemma begin_marks : taskId ∈ HistoryView.handleCancelTask_begin taskId cancelling.
Proof.
  unfold HistoryView.handleCancelTask_begin.
  apply elem_of_union. left. by apply elem_of_singleton.
Qed.

Lemma end_unmarks answer :
  (HistoryView.handleCancelTask_end taskId answer
     (HistoryView.handleCancelTask_begin taskId cancelling)).1.1
  = cancelling ∖ {[taskId]}.
Proof.
  assert (HistoryView.handleCancelTask_begin taskId cancelling ∖ {[taskId]}
          = cancelling ∖ {[taskId]}) as Hset.
  { apply set_eq. intros x. unfold HistoryView.handleCancelTask_begin.
    rewrite !elem_of_difference, elem_of_union, elem_of_singleton. tauto. }
  unfold HistoryView.handleCancelTask_end.
  destruct answer as [[st msg]|]; [destruct (JS.str_eq st "success")|]; simpl; apply Hset.
Qed.
End CancelFacts.

(** X7. While the cancel request of a task is in flight the cancel button
    of its row is disabled; when the request is over, whatever its
    outcome, the task is no longer marked, its button is enabled again,
    and the marks of all other tasks are what they were before. The
    history is fetched again exactly on a 'success' answer. *)
Theorem X7_cancel_mark_round_trip (taskId : string) (answer : option HistoryView.CancelAnswer)
    (cancelling : gset string) (job : HistoryPanel.HistoryJob) :
  (HistoryPanel.status job = "running" → HistoryPanel.task_id job = taskId →
     HistoryPanel.cancel_button
       (HistoryPanel.row_actions (HistoryView.handleCancelTask_begin taskId cancelling) job)
     = Some true
     ∧ HistoryPanel.cancel_button
         (HistoryPanel.row_actions
            (HistoryView.handleCancelTask_end taskId answer
               (HistoryView.handleCancelTask_begin taskId cancelling)).1.1 job)
       = Some false)
  ∧ (HistoryView.handleCancelTask_end taskId answer
       (HistoryView.handleCancelTask_begin taskId cancelling)).1.1
    = cancelling ∖ {[taskId]}
  ∧ (∀ other, other ≠ taskId →
       other ∈ (HistoryView.handleCancelTask_end taskId answer
                  (HistoryView.handleCancelTask_begin taskId cancelling)).1.1
       ↔ other ∈ cancelling)
  ∧ ((HistoryView.handleCancelTask_end taskId answer
        (HistoryView.handleCancelTask_begin taskId cancelling)).2 = true
     ↔ ∃ msg, answer = Some (HistoryView.cancel_answer "success" msg)).
Proof.
  pose proof (end_unmarks taskId cancelling answer) as Hset.
  split; [|split; [done|split]].
  - intros Hrun <-. unfold HistoryPanel.row_actions; simpl.
    rewrite !(proj2 (str_eq_true _ _) Hrun), Hset. split; f_equal.
    + apply bool_decide_eq_true, begin_marks.
    + apply bool_decide_eq_false. rewrite elem_of_difference, elem_of_singleton. tauto.
  - intros other Hne. rewrite Hset, elem_of_difference, elem_of_singleton. tauto.
  - unfold HistoryView.handleCancelTask_end.
    destruct answer as [[st msg]|]; simpl.
    + destruct (JS.str_eq st "success") eqn:E; simpl.
      * apply str_eq_true in E as ->. split; [by eexists|done].
      * apply str_eq_false in E. split; [done|]. by intros (m & [= -> _]).
    + split; [done|]. by intros (m & ?).
Qed.

Lemma X7_cancel_mark_round_trip_witness :
  HistoryPanel.cancel_button
    (HistoryPanel.row_actions (HistoryView.handleCancelTask_begin "t3" ∅) Samples.h3)
  = Some true
  ∧ HistoryPanel.cancel_button
      (HistoryPanel.row_actions
         (HistoryView.handleCancelTask_end "t3" None
            (HistoryView.handleCancelTask_begin "t3" ∅)).1.1 Samples.h3)
    = Some false.
Proof.
  by apply (X7_cancel_mark_round_trip "t3" None ∅ Samples.h3).
Defined.

(** ** HistoryPanel: the order "oldest first" and the list *)
Section HistoryListFacts.
Import HistoryPanel.
Context (getTime : string -> option Z).

Lemma oldest_sorted jobs :
  Forall (Order.valid_date getTime) jobs →
  StronglySorted (Cases.not_newer getTime) (sortedJobs getTime oldest jobs).
Proof.
  apply sort_sorted.
  - intros a b [ta Ha] [tb Hb]. unfold JS.before, oldest_cmp. rewrite Ha, Hb. simpl.
    intros H%Z.leb_le. exists ta, tb. repeat split; [done..|lia].
  - intros a b [ta Ha] [tb Hb]. unfold JS.before, oldest_cmp. rewrite Ha, Hb. simpl.
    intros H%Z.leb_gt. exists tb, ta. repeat split; [done..|lia].
  - intros a b c _ _ _ (ta & tb & Ha & Hb & Hab) (tb' & tc & Hb' & Hc & Hbc).
    exists ta, tc. repeat split; [done..|]. rewrite Hb in Hb'. injection Hb' as <-. lia.
Qed.

Lemma cancel_rows_count now toLocale cancelling (l : list HistoryJob) :
  length (filter Cases.has_cancel (HistoryView.row getTime toLocale now cancelling <$> l))
  = HistoryView.runningCount l.
Proof.
  unfold HistoryView.runningCount. induction l as [|j l IH]; [done|].
  rewrite fmap_cons.
  destruct (JS.str_eq (status j) "running") eqn:E.
  - rewrite filter_cons_True; [|by unfold Cases.has_cancel; simpl; rewrite E].
    rewrite (filter_cons_True _ j) by done. simpl. by rewrite IH.
  - rewrite filter_cons_False;
      [|unfold Cases.has_cancel; simpl; rewrite E; by intros [? ?]].
    rewrite (filter_cons_False _ j); [done|]. by rewrite E.
Qed.

Lemma runningCount_perm l1 l2 :
  l1 ≡ₚ l2 → HistoryView.runningCount l1 = HistoryView.runningCount l2.
Proof. intros H. unfold HistoryView.runningCount. by rewrite H. Qed.
End HistoryListFacts.

(** X8. Under "oldest first" the history list is a permutation of the
    fetched jobs in which, when every time stamp is a date, each job was
    submitted no later than every job after it. *)
Theorem X8_oldest_first (getTime : string -> option Z) (jobs : list HistoryPanel.HistoryJob) :
  Forall (Order.valid_date getTime) jobs →
  HistoryPanel.sortedJobs getTime HistoryPanel.oldest jobs ≡ₚ jobs
  ∧ Order.ordered (Cases.not_newer getTime)
      (HistoryPanel.sortedJobs getTime HistoryPanel.oldest jobs).
Proof.
  intros Hvalid. split; [apply sort_perm|].
  by apply ordered_of_sorted, oldest_sorted.
Qed.

Lemma X8_oldest_first_witness :
  Order.ordered (Cases.not_newer Samples.getTime)
    (HistoryPanel.sortedJobs Samples.getTime HistoryPanel.oldest
       [Samples.h3; Samples.h1; Samples.h4]).
Proof.
  apply (X8_oldest_first Samples.getTime [Samples.h3; Samples.h1; Samples.h4]).
  repeat constructor; vm_compute; eexists; reflexivity.
Defined.

(** X9. The history panel shows the loading notice only while a request
    is out and no job is held, and the notice 'No job history yet' only
    when no request is out and no job is held. As soon as jobs are held
    it shows the list, also during a refresh: one card per job, in the
    selected order, and as many cards with a cancel button as the header
    counts running jobs. *)
Theorem X9_history_body (getTime : string -> option Z) (toLocaleDateString : string -> string)
    (now : Z) (isLoading : bool) (sortBy : HistoryPanel.SortOption)
    (cancelling : gset string) (jobs : list HistoryPanel.HistoryJob) :
  (HistoryView.body getTime toLocaleDateString now isLoading sortBy cancelling jobs
   = HistoryView.Loading ↔ isLoading = true ∧ jobs = [])
  ∧ (HistoryView.body getTime toLocaleDateString now isLoading sortBy cancelling jobs
     = HistoryView.NoHistory ↔ isLoading = false ∧ jobs = [])
  ∧ (jobs ≠ [] →
     ∃ rows,
       HistoryView.body getTime toLocaleDateString now isLoading sortBy cancelling jobs
       = HistoryView.Cards rows
       ∧ length rows = length jobs
       ∧ HistoryView.row_key <$> rows ≡ₚ HistoryPanel.task_id <$> jobs
       ∧ rows = HistoryView.row getTime toLocaleDateString now cancelling
                  <$> HistoryPanel.sortedJobs getTime sortBy jobs
       ∧ length (filter Cases.has_cancel rows) = HistoryView.runningCount jobs).
Proof.
  unfold HistoryView.body.
  pose proof (sortedJobs_perm getTime sortBy jobs) as Hperm.
  pose proof (Permutation_length Hperm) as Hlen.
  destruct jobs as [|j jobs].
  - apply Permutation_nil_r in Hperm. rewrite Hperm. simpl.
    rewrite andb_true_r. destruct isLoading; repeat split; try done; by intros [? ?].
  - rewrite andb_false_r.
    assert ((0 <? length (HistoryPanel.sortedJobs getTime sortBy (j :: jobs)))%nat = true)
      as -> by by rewrite Hlen.
    split; [split; [done|by intros [? ?]]|].
    split; [split; [done|by intros [? ?]]|].
    intros _. eexists. split; [done|].
    split; [by rewrite length_fmap|]. split.
    + rewrite <- list_fmap_compose. by rewrite Hperm.
    + split; [done|].
      rewrite cancel_rows_count. by apply runningCount_perm.
Qed.

Lemma X9_history_body_witness :
  ∃ rows,
    HistoryView.body Samples.getTime Cases.toLocaleDateString 1735689725000 true
      HistoryPanel.newest ∅ [Samples.h1; Samples.h3]
    = HistoryView.Cards rows
    ∧ length rows = 2%nat.
Proof.
  destruct (X9_history_body Samples.getTime Cases.toLocaleDateString 1735689725000 true
              HistoryPanel.newest ∅ [Samples.h1; Samples.h3]) as (_ & _ & H).
  destruct (H ltac:(done)) as (rows & Hb & Hl & _). by exists rows.
Defined.

(** ** The address of the console socket *)
Section UrlFacts.

Lemma prefix_app (pat s : string) : String.prefix pat (pat +:+ s) = true.
Proof.
  induction pat as [|c pat IH]; simpl; [by destruct s|].
  destruct (Ascii.ascii_dec c c); [apply IH|done].
Qed.

Lemma drop_chars_app (pat s : string) :
  Api.drop_chars (String.length pat) (pat +:+ s) = s.
Proof. induction pat as [|c pat IH]; simpl; [done|apply IH]. Qed.

Lemma replace_first_head (pat rep s : string) :
  Api.replace_first pat rep (pat +:+ s) = rep +:+ s.
Proof.
  destruct s as [|c s]; destruct pat as [|d pat]; try done; simpl.
  - destruct (Ascii.ascii_dec d d); [|done].
    by rewrite (prefix_app pat ""), (drop_chars_app pat "").
  - destruct (Ascii.ascii_dec d d); [|done].
    by rewrite (prefix_app pat (String c s)), (drop_chars_app pat (String c s)).
Qed.
End UrlFacts.

(** X10. Whatever the host name of the page, the console socket of a
    task is opened on the host and port of the HTTP API: the base address
    is 'http://' followed by host and port 8002, and the socket address is
    'ws://' followed by the same host and port and the path
    '/ws/console/<task id>'; a host name that itself contains 'http' is
    left as it is. *)
Theorem X10_console_socket_address (hostname : option string) (task_id : string) :
  Api.getBackendUrl hostname = "http://" +:+ Api.authority hostname
  ∧ Api.console_url (Api.getBackendUrl hostname) task_id
    = "ws://" +:+ Api.authority hostname +:+ "/ws/console/" +:+ task_id.
Proof.
  assert (Api.getBackendUrl hostname = "http" +:+ "://" +:+ Api.authority hostname) as Hbase
    by by destruct hostname.
  split; [by rewrite Hbase|].
  unfold Api.console_url. rewrite Hbase, replace_first_head. done.
Qed.

(** ** One firing of the polling callback *)
Section PollFacts.
Import App.


Lemma clearInterval_frame ref st :
  uploadedFilePath (clearInterval ref st) = uploadedFilePath st
  ∧ originalFilename (clearInterval ref st) = originalFilename st
  ∧ isProcessing (clearInterval ref st) = isProcessing st
  ∧ taskId (clearInterval ref st) = taskId st
  ∧ resultDir (clearInterval ref st) = resultDir st
  ∧ parseCompleted (clearInterval ref st) = parseCompleted st
  ∧ consoleMessages (clearInterval ref st) = consoleMessages st
  ∧ elapsedTime (clearInterval ref st) = elapsedTime st
  ∧ totalRuntime (clearInterval ref st) = totalRuntime st
  ∧ hasRestoredState (clearInterval ref st) = hasRestoredState st
  ∧ pollIntervalRef (clearInterval ref st) = pollIntervalRef st
  ∧ timerIntervalRef (clearInterval ref st) = timerIntervalRef st
  ∧ next_interval (clearInterval ref st) = next_interval st
  ∧ sockets (clearInterval ref st) = sockets st
  ∧ toasts (clearInterval ref st) = toasts st.
Proof. by destruct ref. Qed.

Lemma stopped_frame st :
  uploadedFilePath (Page.stopped st) = uploadedFilePath st
  ∧ originalFilename (Page.stopped st) = originalFilename st
  ∧ isProcessing (Page.stopped st) = false
  ∧ taskId (Page.stopped st) = taskId st
  ∧ resultDir (Page.stopped st) = resultDir st
  ∧ parseCompleted (Page.stopped st) = parseCompleted st
  ∧ consoleMessages (Page.stopped st) = consoleMessages st
  ∧ elapsedTime (Page.stopped st) = elapsedTime st
  ∧ totalRuntime (Page.stopped st) = totalRuntime st
  ∧ hasRestoredState (Page.stopped st) = hasRestoredState st
  ∧ pollIntervalRef (Page.stopped st) = pollIntervalRef st
  ∧ timerIntervalRef (Page.stopped st) = timerIntervalRef st
  ∧ next_interval (Page.stopped st) = next_interval st
  ∧ sockets (Page.stopped st) = sockets st
  ∧ toasts (Page.stopped st) = toasts st.
Proof.
  unfold Page.stopped.
  pose proof (clearInterval_frame (pollIntervalRef st) st) as (?&?&?&?&?&?&?&?&?&?&?&?&?&?&?).
  pose proof (clearInterval_frame
                (timerIntervalRef (clearInterval (pollIntervalRef st) st))
                (clearInterval (pollIntervalRef st) st)) as (?&?&?&?&?&?&?&?&?&?&?&?&?&?&?).
  simpl. repeat split; congruence.
Qed.

Lemma poll_tick_terminal start now p result st :
  observes_terminal p = true →
  poll_tick start now (Some p) result st
  = if JS.str_eq (progress_state p) "finished" then
      match result with
      | Some r => show_result now start r (Page.stopped st)
      | None => Page.stopped st
      end
    else if JS.str_eq (progress_state p) "cancelled" then
      toast (toast_info "Task was cancelled" None) (Page.stopped st)
    else toast (toast_error "Processing failed" None) (Page.stopped st).
Proof.
  intros Hp. unfold poll_tick. rewrite Hp. fold (Page.stopped st).
  destruct (JS.str_eq (progress_state p) "finished") eqn:E1; [done|].
  destruct (JS.str_eq (progress_state p) "cancelled") eqn:E2; [done|].
  destruct (JS.str_eq (progress_state p) "error") eqn:E3; [done|].
  apply observes_terminal_spec in Hp as (_ & [H|[H|H]]);
    apply str_eq_true in H; congruence.
Qed.

Lemma show_result_frame now start r st :
  uploadedFilePath (show_result now start r st) = uploadedFilePath st
  ∧ originalFilename (show_result now start r st) = originalFilename st
  ∧ isProcessing (show_result now start r st) = isProcessing st
  ∧ taskId (show_result now start r st) = taskId st
  ∧ consoleMessages (show_result now start r st) = consoleMessages st
  ∧ elapsedTime (show_result now start r st) = elapsedTime st
  ∧ pollIntervalRef (show_result now start r st) = pollIntervalRef st
  ∧ timerIntervalRef (show_result now start r st) = timerIntervalRef st
  ∧ next_interval (show_result now start r st) = next_interval st
  ∧ sockets (show_result now start r st) = sockets st.
Proof. unfold show_result. by destruct (_ && _). Qed.

Lemma poll_tick_frame start now progress result st :
  uploadedFilePath (poll_tick start now progress result st) = uploadedFilePath st
  ∧ originalFilename (poll_tick start now progress result st) = originalFilename st
  ∧ taskId (poll_tick start now progress result st) = taskId st
  ∧ consoleMessages (poll_tick start now progress result st) = consoleMessages st
  ∧ elapsedTime (poll_tick start now progress result st) = elapsedTime st
  ∧ pollIntervalRef (poll_tick start now progress result st) = pollIntervalRef st
  ∧ timerIntervalRef (poll_tick start now progress result st) = timerIntervalRef st
  ∧ next_interval (poll_tick start now progress result st) = next_interval st
  ∧ sockets (poll_tick start now progress result st) = sockets st.
Proof.
  destruct progress as [p|]; [|done].
  destruct (observes_terminal p) eqn:Hp; [|by unfold poll_tick; rewrite Hp].
  rewrite poll_tick_terminal by done.
  pose proof (stopped_frame st) as (?&?&?&?&?&?&?&?&?&?&?&?&?&?&?).
  destruct (JS.str_eq (progress_state p) "finished").
  - destruct result as [r|]; [|done].
    pose proof (show_result_frame now start r (Page.stopped st)) as (?&?&?&?&?&?&?&?&?&?).
    repeat split; congruence.
  - by destruct (JS.str_eq (progress_state p) "cancelled").
Qed.

Lemma stopped_lookup st id :
  intervals (Page.stopped st) !! id
  = if bool_decide (pollIntervalRef st = Some id ∨ timerIntervalRef st = Some id)
    then None else intervals st !! id.
Proof.
  unfold Page.stopped.
  change (intervals (setIsProcessing false ?s)) with (intervals s).
  rewrite !clearInterval_lookup.
  assert (timerIntervalRef (clearInterval (pollIntervalRef st) st) = timerIntervalRef st)
    as -> by by destruct (pollIntervalRef st).
  case_bool_decide as Hd; repeat case_decide; try done; tauto.
Qed.

Lemma poll_tick_terminal_lookup start now p result st id :
  observes_terminal p = true →
  intervals (poll_tick start now (Some p) result st) !! id = intervals (Page.stopped st) !! id.
Proof.
  intros Hp. rewrite poll_tick_intervals, Hp. unfold Page.stopped.
  by destruct (pollIntervalRef st).
Qed.
End PollFacts.

(** X11. A firing of the polling callback whose request fails, or whose
    answer is not a success with a terminal state, leaves the page exactly
    as it was. A firing that observes a terminal state turns processing
    off and stops exactly the intervals the two refs hold, every other
    interval keeps firing; the refs themselves are not reset, and the
    file, the task id, the console lines, the elapsed time and the open
    sockets are left alone. *)
Theorem X11_poll_firing (startTime now : Z) (progress : option App.ProgressData)
    (result : option App.ResultData) (st : App.State) :
  ((∀ p, progress = Some p → App.observes_terminal p = false) →
     App.poll_tick startTime now progress result st = st)
  ∧ (∀ p, progress = Some p → App.observes_terminal p = true →
       App.isProcessing (App.poll_tick startTime now progress result st) = false
       ∧ (∀ id, App.intervals (App.poll_tick startTime now progress result st) !! id
                = if bool_decide (App.pollIntervalRef st = Some id
                                  ∨ App.timerIntervalRef st = Some id)
                  then None else App.intervals st !! id))
  ∧ App.pollIntervalRef (App.poll_tick startTime now progress result st)
    = App.pollIntervalRef st
  ∧ App.timerIntervalRef (App.poll_tick startTime now progress result st)
    = App.timerIntervalRef st
  ∧ App.uploadedFilePath (App.poll_tick startTime now progress result st)
    = App.uploadedFilePath st
  ∧ App.taskId (App.poll_tick startTime now progress result st) = App.taskId st
  ∧ App.consoleMessages (App.poll_tick startTime now progress result st)
    = App.consoleMessages st
  ∧ App.elapsedTime (App.poll_tick startTime now progress result st) = App.elapsedTime st
  ∧ App.sockets (App.poll_tick startTime now progress result st) = App.sockets st.
Proof.
  pose proof (poll_tick_frame startTime now progress result st)
    as (Hf & _ & Ht & Hc & He & Hp & Hti & _ & Hs).
  split; [|split; [|done]].
  - intros Hno. destruct progress as [p|]; [|done].
    unfold App.poll_tick. by rewrite (Hno p eq_refl).
  - intros p -> Hterm. split.
    + rewrite poll_tick_terminal by done.
      pose proof (stopped_frame st) as (_ & _ & Hoff & _).
      destruct (JS.str_eq (App.progress_state p) "finished").
      * destruct result as [r|]; [|done].
        by destruct (show_result_frame now startTime r (Page.stopped st)) as (_ & _ & -> & _).
      * by destruct (JS.str_eq (App.progress_state p) "cancelled").
    + intros id. by rewrite poll_tick_terminal_lookup, stopped_lookup.
Qed.

Lemma X11_poll_firing_witness :
  App.poll_tick 0 4000 (Some (App.mkProgress "success" "running")) None Samples.polling
  = Samples.polling
  ∧ App.isProcessing
      (App.poll_tick 0 4000 (Some (App.mkProgress "success" "error")) None Samples.polling)
    = false.
Proof.
  destruct (X11_poll_firing 0 4000 (Some (App.mkProgress "success" "running")) None
              Samples.polling) as (H1 & _).
  destruct (X11_poll_firing 0 4000 (Some (App.mkProgress "success" "error")) None
              Samples.polling) as (_ & H2 & _).
  split.
  - apply H1. by intros p [= <-].
  - by destruct (H2 _ eq_refl eq_refl).
Defined.

(** ** The end of a run *)
Section ResultFacts.
Import App.

Lemma show_result_accepted now start r st :
  result_status r = "success" → result_state r = "finished" →
  show_result now start r st
  = toast (toast_success "Processing complete!"
             (Some ("Finished in "
                    +:+ Num.format_seconds
                          (runtime_or (result_runtime r) ((now - start) / 1000)))))
      (mkState (uploadedFilePath st) (originalFilename st) (isProcessing st) (taskId st)
         (result_dir r) true (consoleMessages st) (elapsedTime st)
         (Some (runtime_or (result_runtime r) ((now - start) / 1000)))
         (hasRestoredState st) (pollIntervalRef st) (timerIntervalRef st)
         (intervals st) (next_interval st) (sockets st) (toasts st)).
Proof.
  intros Hs Hf. unfold show_result.
  by rewrite (proj2 (str_eq_true _ _) Hs), (proj2 (str_eq_true _ _) Hf).
Qed.

Lemma show_result_refused now start r st :
  ¬ (result_status r = "success" ∧ result_state r = "finished") →
  show_result now start r st = st.
Proof.
  intros Hno. unfold show_result.
  destruct (JS.str_eq (result_status r) "success") eqn:E1; [|done].
  destruct (JS.str_eq (result_state r) "finished") eqn:E2; [|done].
  apply str_eq_true in E1, E2. tauto.
Qed.

Lemma finished_result_shown start now p result st :
  observes_terminal p = true → progress_state p = "finished" →
  ∀ r, result = Some r → result_status r = "success" → result_state r = "finished" →
  parseCompleted (poll_tick start now (Some p) result st) = true
  ∧ resultDir (poll_tick start now (Some p) result st) = result_dir r.
Proof.
  intros Hterm Hfin r -> Hs Hf. rewrite poll_tick_terminal by done.
  rewrite (proj2 (str_eq_true _ _) Hfin), show_result_accepted by done. done.
Qed.
End ResultFacts.

(** X12. When a poll firing sees the state 'finished' and the result
    request answers with a success in state finished, the page is marked
    completed with the result directory of the answer, and the total
    runtime shown is the runtime the server reports, or, when the server
    reports none or 0, the whole seconds since the polling started; one
    toast 'Processing complete!' is added. When the result request fails
    or answers anything else, the run ends silently: processing is off,
    nothing is marked completed and no toast is shown. A cancelled or
    failed run adds exactly one toast and leaves the result fields
    alone. *)
Theorem X12_end_of_run (startTime now : Z) (p : App.ProgressData)
    (result : option App.ResultData) (st : App.State) :
  App.observes_terminal p = true →
  (App.progress_state p = "finished" →
     (∀ r, result = Some r →
           App.result_status r = "success" → App.result_state r = "finished" →
           App.parseCompleted (App.poll_tick startTime now (Some p) result st) = true
           ∧ App.resultDir (App.poll_tick startTime now (Some p) result st)
             = App.result_dir r
           ∧ (∀ n, App.result_runtime r = Some n → n ≠ 0 →
                App.totalRuntime (App.poll_tick startTime now (Some p) result st) = Some n)
           ∧ (App.result_runtime r = None ∨ App.result_runtime r = Some 0 →
                App.totalRuntime (App.poll_tick startTime now (Some p) result st)
                = Some ((now - startTime) / 1000))
           ∧ ∃ text,
               App.toasts (App.poll_tick startTime now (Some p) result st)
               = App.toasts st ++ [App.toast_success "Processing complete!" (Some text)])
     ∧ ((∀ r, result = Some r →
              ¬ (App.result_status r = "success" ∧ App.result_state r = "finished")) →
          App.poll_tick startTime now (Some p) result st = Page.stopped st
          ∧ App.toasts (App.poll_tick startTime now (Some p) result st) = App.toasts st
          ∧ App.parseCompleted (App.poll_tick startTime now (Some p) result st)
            = App.parseCompleted st))
  ∧ (App.progress_state p ≠ "finished" →
       App.parseCompleted (App.poll_tick startTime now (Some p) result st)
       = App.parseCompleted st
       ∧ App.resultDir (App.poll_tick startTime now (Some p) result st) = App.resultDir st
       ∧ App.totalRuntime (App.poll_tick startTime now (Some p) result st)
         = App.totalRuntime st
       ∧ App.toasts (App.poll_tick startTime now (Some p) result st)
         = App.toasts st
           ++ [if JS.str_eq (App.progress_state p) "cancelled"
               then App.toast_info "Task was cancelled" None
               else App.toast_error "Processing failed" None]).
Proof.
  intros Hterm. rewrite poll_tick_terminal by done.
  pose proof (stopped_frame st) as (_&_&_&_&Hd&Hc&_&_&Hr&_&_&_&_&_&Ht).
  split.
  - intros Hfin. rewrite (proj2 (str_eq_true _ _) Hfin). split.
    + intros r -> Hs Hf. rewrite show_result_accepted by done.
      unfold App.toast.
      cbn [App.parseCompleted App.resultDir App.totalRuntime App.toasts].
      split; [done|]. split; [done|]. split; [|split].
      * intros n -> Hn. simpl. by rewrite (proj2 (Z.eqb_neq _ _) Hn).
      * by intros [->| ->].
      * eexists. by rewrite Ht.
    + intros Hno. destruct result as [r|]; [|done].
      rewrite show_result_refused by by apply Hno. done.
  - intros Hnot. rewrite (proj2 (str_eq_false _ _) Hnot).
    destruct (JS.str_eq (App.progress_state p) "cancelled"); unfold App.toast;
      cbn [App.parseCompleted App.resultDir App.totalRuntime App.toasts];
      by rewrite Hd, Hc, Hr, Ht.
Qed.

Lemma X12_end_of_run_witness :
  App.parseCompleted
    (App.poll_tick 0 61500 (Some (App.mkProgress "success" "finished"))
       (Some (App.mkResult "success" "finished" "results/t7" (Some 0))) Samples.polling)
  = true
  ∧ App.totalRuntime
      (App.poll_tick 0 61500 (Some (App.mkProgress "success" "finished"))
         (Some (App.mkResult "success" "finished" "results/t7" (Some 0))) Samples.polling)
    = Some 61.
Proof.
  destruct (X12_end_of_run 0 61500 (App.mkProgress "success" "finished")
              (Some (App.mkResult "success" "finished" "results/t7" (Some 0)))
              Samples.polling eq_refl) as (H & _).
  destruct (H eq_refl) as (H1 & _).
  destruct (H1 _ eq_refl eq_refl eq_refl) as (Hc & _ & _ & Hr & _).
  split; [exact Hc|]. apply Hr. by right.
Defined.

(** ** Restoring a running job, then the first tick *)

(** X13. After a running job has been restored, the elapsed-time timer
    that the restoration starts counts from the moment of the
    restoration: its first firing replaces the elapsed time taken from
    the job's time stamp by the whole seconds since the page restored the
    job, whatever the time stamp of the job. *)
Theorem X13_restored_timer_counts_from_restore (getTime : string -> option Z) (now now' : Z)
    (runningJob : JobQueuePanel.Job) (progress : option App.ProgressData)
    (result : option App.ResultData) (st : App.State) :
  ∃ id,
    App.timerIntervalRef (App.restore getTime now runningJob st) = Some id
    ∧ App.intervals (App.restore getTime now runningJob st) !! id = Some (App.Timer now)
    ∧ App.elapsedTime (App.fire id now' progress result (App.restore getTime now runningJob st))
      = Some ((now' - now) / 1000)
    ∧ (JS.truthy (JobQueuePanel.timestamp runningJob) = true →
       App.elapsedTime (App.restore getTime now runningJob st)
       = App.seconds_since now (getTime (JobQueuePanel.timestamp runningJob))).
Proof.
  unfold App.restore.
  match goal with |- context [App.startPolling ?t ?s ?st0] =>
    destruct (startPolling_refs t s st0) as (_ & Href & _ & Hiv);
    exists (App.next_interval st0) end.
  split; [exact Href|]. split; [exact Hiv|]. split.
  - unfold App.fire. by rewrite Hiv.
  - intros Hts. by rewrite Hts.
Qed.

Lemma X13_restored_timer_counts_from_restore_witness :
  ∃ id,
    App.elapsedTime (App.restore Samples.getTime 1735689725000 Samples.q2 App.initial)
    = Some 65
    ∧ App.elapsedTime
        (App.fire id 1735689726000 None None
           (App.restore Samples.getTime 1735689725000 Samples.q2 App.initial))
      = Some 1.
Proof.
  destruct (X13_restored_timer_counts_from_restore Samples.getTime 1735689725000
              1735689726000 Samples.q2 None None App.initial) as (id & _ & _ & Hfire & Hts).
  exists id. split; [by rewrite Hts|exact Hfire].
Defined.

(** ** Removing the file while a job is polled *)

(** X14. Removing the uploaded file resets the run state of the page but
    stops no interval and resets no ref: a poller that was running keeps
    running. When it later sees its job finished and the result request
    succeeds, the page is marked completed with the result directory of
    that job although it then holds neither a file nor a task id. *)
Theorem X14_file_removed_while_polling (st : App.State) (id : nat) (t : string)
    (start now : Z) (p : App.ProgressData) (r : App.ResultData) :
  App.intervals st !! id = Some (App.Poller t start) →
  App.observes_terminal p = true → App.progress_state p = "finished" →
  App.result_status r = "success" → App.result_state r = "finished" →
  App.intervals (App.handleFileChange_null st) = App.intervals st
  ∧ App.pollIntervalRef (App.handleFileChange_null st) = App.pollIntervalRef st
  ∧ App.timerIntervalRef (App.handleFileChange_null st) = App.timerIntervalRef st
  ∧ App.isProcessing (App.handleFileChange_null st) = false
  ∧ App.parseCompleted (App.handleFileChange_null st) = false
  ∧ App.parseCompleted
      (App.fire id now (Some p) (Some r) (App.handleFileChange_null st)) = true
  ∧ App.resultDir
      (App.fire id now (Some p) (Some r) (App.handleFileChange_null st)) = App.result_dir r
  ∧ App.taskId (App.fire id now (Some p) (Some r) (App.handleFileChange_null st)) = ""
  ∧ App.uploadedFilePath
      (App.fire id now (Some p) (Some r) (App.handleFileChange_null st)) = "".
Proof.
  intros Hid Hterm Hfin Hs Hf. repeat (split; [done|]).
  unfold App.fire.
  change (App.intervals (App.handleFileChange_null st)) with (App.intervals st).
  rewrite Hid.
  destruct (finished_result_shown start now p (Some r) (App.handleFileChange_null st) Hterm Hfin
              r eq_refl Hs Hf) as (Hc & Hd).
  pose proof (poll_tick_frame start now (Some p) (Some r) (App.handleFileChange_null st))
    as (Hpath & _ & Htask & _).
  by rewrite Hc, Hd, Hpath, Htask.
Qed.

Lemma X14_file_removed_while_polling_witness :
  App.intervals (App.handleFileChange_null Samples.polling) = App.intervals Samples.polling
  ∧ App.parseCompleted
      (App.fire 2 5000 (Some (App.mkProgress "success" "finished"))
         (Some (App.mkResult "success" "finished" "results/t7" (Some 12)))
         (App.handleFileChange_null Samples.polling)) = true
  ∧ App.taskId
      (App.fire 2 5000 (Some (App.mkProgress "success" "finished"))
         (Some (App.mkResult "success" "finished" "results/t7" (Some 12)))
         (App.handleFileChange_null Samples.polling)) = "".
Proof.
  destruct (X14_file_removed_while_polling Samples.polling 2 "t7" 0 5000
              (App.mkProgress "success" "finished")
              (App.mkResult "success" "finished" "results/t7" (Some 12))
              eq_refl eq_refl eq_refl eq_refl eq_refl)
    as (H1 & _ & _ & _ & _ & H2 & _ & H3 & _).
  by repeat split.
Defined.

(** ** Starting a run *)

(** X15. A click on the parse button without an uploaded path only shows
    the toast 'Please upload a file first': no request is sent and
    nothing else changes. With a path, an answer 'running' that carries a
    task id adopts that id, opens one console socket for it, empties the
    console, and starts one timer and one poller on two fresh interval
    ids which the refs then hold. Any other answer, and a failed request,
    turn processing off again, add one error toast, and start no interval
    and open no socket. *)
Theorem X15_start_outcomes (startTime : Z) (answer : option App.StartData) (st : App.State) :
  (JS.truthy (App.uploadedFilePath st) = false →
     Page.handleStartParsing startTime answer st
     = App.toast (App.toast_error "Please upload a file first" None) st
     ∧ (App.handleStartParsing_begin st).2 = false)
  ∧ (JS.truthy (App.uploadedFilePath st) = true →
     (App.handleStartParsing_begin st).2 = true
     ∧ (∀ data, answer = Some data → App.start_status data = "running" →
                JS.truthy (App.start_task_id data) = true →
          App.taskId (Page.handleStartParsing startTime answer st) = App.start_task_id data
          ∧ App.isProcessing (Page.handleStartParsing startTime answer st) = true
          ∧ App.consoleMessages (Page.handleStartParsing startTime answer st) = []
          ∧ App.elapsedTime (Page.handleStartParsing startTime answer st) = Some 0
          ∧ App.parseCompleted (Page.handleStartParsing startTime answer st) = false
          ∧ App.sockets (Page.handleStartParsing startTime answer st)
            = App.sockets st ++ [App.start_task_id data]
          ∧ App.intervals (Page.handleStartParsing startTime answer st)
            = <[S (App.next_interval st) := App.Poller (App.start_task_id data) startTime]>
                (<[App.next_interval st := App.Timer startTime]> (App.intervals st))
          ∧ App.timerIntervalRef (Page.handleStartParsing startTime answer st)
            = Some (App.next_interval st)
          ∧ App.pollIntervalRef (Page.handleStartParsing startTime answer st)
            = Some (S (App.next_interval st))
          ∧ App.toasts (Page.handleStartParsing startTime answer st) = App.toasts st)
     ∧ ((∀ data, answer = Some data →
           ¬ (App.start_status data = "running"
              ∧ JS.truthy (App.start_task_id data) = true)) →
          App.isProcessing (Page.handleStartParsing startTime answer st) = false
          ∧ App.intervals (Page.handleStartParsing startTime answer st) = App.intervals st
          ∧ App.sockets (Page.handleStartParsing startTime answer st) = App.sockets st
          ∧ App.pollIntervalRef (Page.handleStartParsing startTime answer st)
            = App.pollIntervalRef st
          ∧ App.timerIntervalRef (Page.handleStartParsing startTime answer st)
            = App.timerIntervalRef st
          ∧ App.taskId (Page.handleStartParsing startTime answer st) = App.taskId st
          ∧ ∃ title text,
              App.toasts (Page.handleStartParsing startTime answer st)
              = App.toasts st ++ [App.toast_error title (Some text)])).
Proof.
  unfold Page.handleStartParsing, App.handleStartParsing_begin.
  split; intros Hpath; rewrite Hpath; simpl; [done|].
  split; [done|]. split.
  - intros data -> Hrun Hid. unfold App.handleStartParsing_answer.
    rewrite (proj2 (str_eq_true _ _) Hrun), Hid. by cbn.
  - intros Hno. unfold App.handleStartParsing_answer.
    destruct answer as [data|]; [|by repeat split; eauto].
    destruct (JS.str_eq (App.start_status data) "running") eqn:E1;
      [|by repeat split; eauto].
    destruct (JS.truthy (App.start_task_id data)) eqn:E2; [|by repeat split; eauto].
    apply str_eq_true in E1. destruct (Hno data eq_refl). done.
Qed.

Lemma X15_start_outcomes_witness :
  App.toasts (Page.handleStartParsing 0 (Some Samples.started) App.initial)
  = [App.toast_error "Please upload a file first" None]
  ∧ App.sockets (Page.handleStartParsing 0 (Some Samples.started) Samples.ready) = ["t7"]
  ∧ App.isProcessing (Page.handleStartParsing 0 None Samples.ready) = false.
Proof.
  destruct (X15_start_outcomes 0 (Some Samples.started) App.initial) as (H1 & _).
  destruct (X15_start_outcomes 0 (Some Samples.started) Samples.ready) as (_ & H2).
  destruct (X15_start_outcomes 0 None Samples.ready) as (_ & H3).
  destruct (H1 eq_refl) as (-> & _).
  destruct (H2 eq_refl) as (_ & H2' & _).
  destruct (H2' _ eq_refl eq_refl eq_refl) as (_ & _ & _ & _ & _ & Hs & _).
  destruct (H3 eq_refl) as (_ & _ & H3').
  destruct H3' as (Hp & _); [by intros data [=]|].
  by rewrite Hs, Hp.
Defined.

(** ** The intervals of the page over its whole life *)
Section PageFacts.
Import App.
Context (getTime : string -> option Z).

Lemma startPolling_timers t s st :
  Page.timers (startPolling t s st)
  = (<[S (next_interval st) := Poller t s]> (<[next_interval st := Timer s]> (intervals st)),
     Some (S (next_interval st)), Some (next_interval st), S (S (next_interval st))).
Proof. done. Qed.

Lemma stopped_timers st :
  Page.timers (Page.stopped st)
  = (intervals (Page.stopped st), pollIntervalRef st, timerIntervalRef st, next_interval st).
Proof.
  pose proof (stopped_frame st) as (_&_&_&_&_&_&_&_&_&_&Hp&Ht&Hn&_).
  unfold Page.timers. by rewrite Hp, Ht, Hn.
Qed.

Lemma restore_timers now j st :
  Page.timers (restore getTime now j st)
  = Page.timers (startPolling (JobQueuePanel.task_id j) now st).
Proof. unfold restore. by destruct (JS.truthy (JobQueuePanel.timestamp j)). Qed.

Lemma poll_tick_timers start now progress result st :
  Page.timers (poll_tick start now progress result st) = Page.timers st
  ∨ Page.timers (poll_tick start now progress result st) = Page.timers (Page.stopped st).
Proof.
  destruct progress as [p|]; [|by left].
  destruct (observes_terminal p) eqn:Hp; [right|left; by unfold poll_tick; rewrite Hp].
  pose proof (poll_tick_frame start now (Some p) result st) as (_&_&_&_&_&H1&H2&H3&_).
  rewrite stopped_timers. unfold Page.timers. rewrite H1, H2, H3.
  do 3 f_equal. apply map_eq. intros id. by apply poll_tick_terminal_lookup.
Qed.

(** Each piece of code of the page leaves the timers alone, or calls
    [startPolling], or stops the intervals of the refs. *)
Lemma act_timers a st :
  Page.timers (Page.act getTime a st) = Page.timers st
  ∨ (∃ t s, Page.timers (Page.act getTime a st) = Page.timers (startPolling t s st))
  ∨ Page.timers (Page.act getTime a st) = Page.timers (Page.stopped st).
Proof.
  destruct a as [now answer| |file_name answer| |startTime answer|m|id now progress result];
    simpl.
  - unfold checkRunningJobs_answer. destruct answer as [data|]; [|by left].
    destruct (JS.str_eq _ _); [|by left].
    destruct (JobQueuePanel.data_jobs data) as [jobs|]; [|by left].
    destruct (JS.find _ jobs) as [j|]; [|by left].
    right; left. eexists _, _. apply restore_timers.
  - by left.
  - left. unfold Page.handleFileChange_answer. destruct answer as [data|]; [|done].
    by destruct (JS.str_eq _ _).
  - left. unfold handleStartParsing_begin. by destruct (negb _).
  - unfold handleStartParsing_answer. destruct answer as [data|]; [|by left].
    destruct (_ && _); [|by left]. right; left. by eexists _, _.
  - left. unfold onmessage. by destruct (JS.str_eq _ _).
  - unfold fire. destruct (intervals st !! id) as [[s|t s]|]; [by left| |by left].
    destruct (poll_tick_timers s now progress result st) as [H|H]; [by left|by right; right].
Qed.

Lemma timers_eq st1 st2 :
  Page.timers st1 = Page.timers st2 →
  intervals st1 = intervals st2 ∧ pollIntervalRef st1 = pollIntervalRef st2
  ∧ timerIntervalRef st1 = timerIntervalRef st2 ∧ next_interval st1 = next_interval st2.
Proof. unfold Page.timers. by intros [= ? ? ? ?]. Qed.

Lemma paired_timers st1 st2 :
  Page.timers st1 = Page.timers st2 → Page.paired st1 → Page.paired st2.
Proof.
  intros (Hi & Hp & Ht & Hn)%timers_eq. unfold Page.paired.
  by rewrite Hi, Hp, Ht, Hn.
Qed.

Lemma paired_startPolling t s st : Page.paired st → Page.paired (startPolling t s st).
Proof.
  intros (Hlt & _ & Htimer & Hpoller).
  set (n := next_interval st).
  assert (intervals (startPolling t s st)
          = <[S n := Poller t s]> (<[n := Timer s]> (intervals st))) as Hi by done.
  assert (pollIntervalRef (startPolling t s st) = Some (S n)) as Hp by done.
  assert (timerIntervalRef (startPolling t s st) = Some n) as Ht by done.
  assert (next_interval (startPolling t s st) = S (S n)) as Hn' by done.
  unfold Page.paired. rewrite Hi, Hp, Ht, Hn'. clear Hi Hp Ht Hn'.
  assert (∀ id, (id < n)%nat →
            (<[S n := Poller t s]> (<[n := Timer s]> (intervals st))) !! id
            = intervals st !! id) as Hold.
  { intros id Hid. by rewrite !lookup_insert_ne by lia. }
  assert ((<[S n := Poller t s]> (<[n := Timer s]> (intervals st))) !! n = Some (Timer s))
    as Hn.
  { rewrite lookup_insert_ne by lia. apply lookup_insert_eq. }
  assert ((<[S n := Poller t s]> (<[n := Timer s]> (intervals st))) !! S n
          = Some (Poller t s)) as HSn by apply lookup_insert_eq.
  assert (∀ id iv, (<[S n := Poller t s]> (<[n := Timer s]> (intervals st))) !! id = Some iv →
            id = S n ∧ iv = Poller t s ∨ id = n ∧ iv = Timer s
            ∨ (id < n)%nat ∧ intervals st !! id = Some iv) as Hcases.
  { intros id iv. destruct (decide (id = S n)) as [->|]; [rewrite HSn; intros [= <-]; by left|].
    destruct (decide (id = n)) as [->|]; [rewrite Hn; intros [= <-]; right; by left|].
    rewrite !lookup_insert_ne by done. intros H. right; right. split; [|done].
    by apply (Hlt id iv). }
  split; [|split; [|split]].
  - intros id iv [[-> _]|[[-> _]|[H _]]]%Hcases; lia.
  - right. exists n. repeat split; [lia|intros ??; by rewrite Hn|intros ?; by rewrite HSn].
  - intros id s' [[_ [=]]|[[-> [= <-]]|[Hid H]]]%Hcases; [by exists t|].
    destruct (Htimer id s' H) as (task & Hp). exists task.
    rewrite Hold; [done|]. by apply (Hlt _ _ Hp).
  - intros id task s' [[-> [= <- <-]]|[[_ [=]]|[Hid H]]]%Hcases; [by exists n|].
    destruct (Hpoller id task s' H) as (id' & -> & Ht). exists id'. split; [done|].
    rewrite Hold; [done|lia].
Qed.

Lemma paired_stopped st : Page.paired st → Page.paired (Page.stopped st).
Proof.
  intros (Hlt & Hrefs & Htimer & Hpoller).
  pose proof (stopped_frame st) as (_&_&_&_&_&_&_&_&_&_&Hp&Ht&Hn&_).
  unfold Page.paired. rewrite Hp, Ht, Hn.
  assert (∀ id iv, intervals (Page.stopped st) !! id = Some iv →
            intervals st !! id = Some iv
            ∧ pollIntervalRef st ≠ Some id ∧ timerIntervalRef st ≠ Some id) as Hkept.
  { intros id iv. rewrite stopped_lookup. case_bool_decide as Hd; [done|]. tauto. }
  assert (∀ id, pollIntervalRef st ≠ Some id → timerIntervalRef st ≠ Some id →
            intervals (Page.stopped st) !! id = intervals st !! id) as Hsame.
  { intros id H1 H2. rewrite stopped_lookup. case_bool_decide as Hd; [tauto|done]. }
  assert (∀ id, pollIntervalRef st = Some id ∨ timerIntervalRef st = Some id →
            intervals (Page.stopped st) !! id = None) as Hgone.
  { intros id H. rewrite stopped_lookup. by case_bool_decide. }
  split; [|split; [|split]].
  - intros id iv [H _]%Hkept. by apply (Hlt id iv).
  - destruct Hrefs as [?|(t & Hrt & Hrp & Hlt' & _)]; [by left|right].
    exists t. repeat split; [done..| |].
    + intros ??. rewrite Hgone; [done|by right].
    + intros ?. rewrite Hgone; [done|by left].
  - intros id s (H & Hnp & Hnt)%Hkept.
    destruct (Htimer id s H) as (task & HS). exists task.
    rewrite Hsame; [done| |].
    + destruct Hrefs as [[-> _]|(t & Hrt & Hrp & _)]; [done|].
      rewrite Hrp. intros [= <-]. by rewrite Hrt in Hnt.
    + destruct Hrefs as [[_ ->]|(t & Hrt & Hrp & _ & Hno & _)]; [done|].
      rewrite Hrt. intros [= ->]. by apply (Hno task s).
  - intros id task s (H & Hnp & Hnt)%Hkept.
    destruct (Hpoller id task s H) as (id' & -> & HT). exists id'. split; [done|].
    rewrite Hsame; [done| |].
    + destruct Hrefs as [[-> _]|(t & Hrt & Hrp & _ & _ & Hno)]; [done|].
      rewrite Hrp. intros [= <-]. by apply (Hno s).
    + destruct Hrefs as [[_ ->]|(t & Hrt & Hrp & _)]; [done|].
      rewrite Hrt. intros [= ->]. by rewrite Hrp in Hnp.
Qed.

Lemma act_paired a st : Page.paired st → Page.paired (Page.act getTime a st).
Proof.
  intros H. destruct (act_timers a st) as [E|[(t & s & E)|E]];
    apply (paired_timers _ _ (eq_sym E));
    [done|by apply paired_startPolling|by apply paired_stopped].
Qed.

Lemma run_paired l st : Page.paired st → Page.paired (Page.run getTime l st).
Proof.
  revert st. induction l as [|a l IH]; intros st H; [done|].
  apply IH. by apply act_paired.
Qed.

Lemma initial_paired : Page.paired initial.
Proof.
  unfold Page.paired. simpl. repeat split; try (by intros; simplify_map_eq). by left.
Qed.

(** An interval that no ref holds stays what it is. *)
Lemma act_keeps_unheld a st id iv :
  Page.paired st → intervals st !! id = Some iv →
  pollIntervalRef st ≠ Some id → timerIntervalRef st ≠ Some id →
  intervals (Page.act getTime a st) !! id = Some iv
  ∧ pollIntervalRef (Page.act getTime a st) ≠ Some id
  ∧ timerIntervalRef (Page.act getTime a st) ≠ Some id.
Proof.
  intros (Hlt & _) Hid Hp Ht. pose proof (Hlt id iv Hid) as Hlt'.
  destruct (act_timers a st) as [E|[(t & s & E)|E]];
    apply timers_eq in E as (-> & -> & -> & _).
  - done.
  - destruct (startPolling_refs t s st) as (-> & -> & _).
    change (intervals (startPolling t s st))
      with (<[S (next_interval st) := Poller t s]>
              (<[next_interval st := Timer s]> (intervals st))).
    rewrite !lookup_insert_ne by lia. repeat split; [done|intros [=]; lia..].
  - pose proof (stopped_frame st) as (_&_&_&_&_&_&_&_&_&_& -> & -> & _).
    rewrite stopped_lookup. case_bool_decide; [tauto|done].
Qed.

Lemma run_keeps_unheld l st id iv :
  Page.paired st → intervals st !! id = Some iv →
  pollIntervalRef st ≠ Some id → timerIntervalRef st ≠ Some id →
  intervals (Page.run getTime l st) !! id = Some iv
  ∧ pollIntervalRef (Page.run getTime l st) ≠ Some id
  ∧ timerIntervalRef (Page.run getTime l st) ≠ Some id.
Proof.
  revert st. induction l as [|a l IH]; intros st Hpair Hid Hp Ht; [done|].
  destruct (act_keeps_unheld a st id iv) as (? & ? & ?); [done..|].
  apply IH; [by apply act_paired|done..].
Qed.
End PageFacts.

(** X16. Whatever handlers, answers and callbacks of the page have run
    since it was mounted, and in whatever order: the two refs are both
    null or both set, to different intervals that are live together or
    cleared together; every live elapsed-time timer has a live poller
    with the same start time and every live poller such a timer; and a
    call of [startPolling] never replaces an interval that is still
    live. *)
Theorem X16_timers_and_pollers_in_pairs (getTime : string -> option Z)
    (l : list Page.Action) :
  (App.pollIntervalRef (Page.run getTime l App.initial) = None
   ↔ App.timerIntervalRef (Page.run getTime l App.initial) = None)
  ∧ (∀ p t, App.pollIntervalRef (Page.run getTime l App.initial) = Some p →
            App.timerIntervalRef (Page.run getTime l App.initial) = Some t →
            p ≠ t
            ∧ (App.intervals (Page.run getTime l App.initial) !! p = None
               ↔ App.intervals (Page.run getTime l App.initial) !! t = None))
  ∧ (∀ id s, App.intervals (Page.run getTime l App.initial) !! id = Some (App.Timer s) →
       ∃ id' task,
         App.intervals (Page.run getTime l App.initial) !! id' = Some (App.Poller task s))
  ∧ (∀ id task s,
       App.intervals (Page.run getTime l App.initial) !! id = Some (App.Poller task s) →
       ∃ id', App.intervals (Page.run getTime l App.initial) !! id' = Some (App.Timer s))
  ∧ (∀ task s id iv,
       App.intervals (Page.run getTime l App.initial) !! id = Some iv →
       App.intervals (App.startPolling task s (Page.run getTime l App.initial)) !! id
       = Some iv).
Proof.
  pose proof (run_paired getTime l App.initial initial_paired)
    as (Hlt & Hrefs & Htimer & Hpoller).
  set (st := Page.run getTime l App.initial) in *.
  split; [|split; [|split; [|split]]].
  - destruct Hrefs as [[-> ->]|(t & -> & -> & _)]; [done|]. by split.
  - intros p t Hp Ht.
    destruct Hrefs as [[Hn _]|(t' & Ht' & Hp' & _ & Hnp & Hnt)]; [congruence|].
    rewrite Hp in Hp'. rewrite Ht in Ht'. injection Hp' as ->. injection Ht' as ->.
    split; [lia|]. split; intros Hnone.
    + destruct (App.intervals st !! t') as [[s|task s]|] eqn:E; [|by destruct (Hnp task s)|done].
      destruct (Htimer t' s E) as (task & HS). congruence.
    + destruct (App.intervals st !! S t') as [[s|task s]|] eqn:E;
        [by destruct (Hnt s)| |done].
      destruct (Hpoller (S t') task s E) as (id' & [= <-] & HT). congruence.
  - intros id s H. destruct (Htimer id s H) as (task & HS). by exists (S id), task.
  - intros id task s H. destruct (Hpoller id task s H) as (id' & _ & HT). by exists id'.
  - intros task s id iv H. pose proof (Hlt id iv H).
    change (App.intervals (App.startPolling task s st))
      with (<[S (App.next_interval st) := App.Poller task s]>
              (<[App.next_interval st := App.Timer s]> (App.intervals st))).
    by rewrite !lookup_insert_ne by lia.
Qed.

(** X17. An interval that neither ref holds is out of the page's reach:
    whatever runs afterwards, it is never cleared, and the cleanup on
    unmount does not clear it either. (Such an interval exists as soon as
    a second run is started while the first one is still polled.) *)
Theorem X17_unheld_interval_never_cleared (getTime : string -> option Z)
    (before after : list Page.Action) (id : nat) (iv : App.Interval) :
  App.intervals (Page.run getTime before App.initial) !! id = Some iv →
  App.pollIntervalRef (Page.run getTime before App.initial) ≠ Some id →
  App.timerIntervalRef (Page.run getTime before App.initial) ≠ Some id →
  App.intervals (Page.run getTime after (Page.run getTime before App.initial)) !! id
  = Some iv
  ∧ App.intervals
      (Page.unmount (Page.run getTime after (Page.run getTime before App.initial))) !! id
    = Some iv.
Proof.
  intros Hid Hp Ht.
  pose proof (run_paired getTime before App.initial initial_paired) as Hpair.
  destruct (run_keeps_unheld getTime after _ id iv Hpair Hid Hp Ht) as (Hid' & Hp' & Ht').
  split; [done|].
  change (App.intervals (Page.unmount ?s)) with (App.intervals (Page.stopped s)).
  rewrite stopped_lookup. case_bool_decide; [tauto|done].
Qed.

Lemma X17_unheld_interval_never_cleared_witness :
  App.intervals
    (Page.unmount
       (Page.run Samples.getTime
          [Page.interval_fired 2 4000 (Some (App.mkProgress "success" "finished")) None]
          (Page.run Samples.getTime
             [Page.upload_answer "a.pdf"
                (Some (Page.mkUpload "success" "uploads/a.pdf" "a.pdf" None));
              Page.parse_clicked;
              Page.start_answer 0 (Some Samples.started);
              Page.file_removed;
              Page.upload_answer "b.pdf"
                (Some (Page.mkUpload "success" "uploads/b.pdf" "b.pdf" None));
              Page.parse_clicked;
              Page.start_answer 100 (Some (App.mkStart "running" "t8" None))]
             App.initial))) !! 2%nat
  = Some (App.Poller "t7" 0).
Proof.
  apply (X17_unheld_interval_never_cleared Samples.getTime
           [Page.upload_answer "a.pdf"
              (Some (Page.mkUpload "success" "uploads/a.pdf" "a.pdf" None));
            Page.parse_clicked;
            Page.start_answer 0 (Some Samples.started);
            Page.file_removed;
            Page.upload_answer "b.pdf"
              (Some (Page.mkUpload "success" "uploads/b.pdf" "b.pdf" None));
            Page.parse_clicked;
            Page.start_answer 100 (Some (App.mkStart "running" "t8" None))]
           [Page.interval_fired 2 4000 (Some (App.mkProgress "success" "finished")) None]
           2%nat (App.Poller "t7" 0)); [done| |]; by vm_compute.
Defined.

(** ** FileUploader: the object URLs of the preview *)
Section UploaderFacts.
Import FileUploader.
Context (urls : gset nat) (next : nat).

Hypothesis urls_below : ∀ url, url ∈ urls → (url < next)%nat.

Lemma handle_tidy ev st : tidy urls next st → tidy urls next (handle ev st).
Proof.
  intros (Hurls & Hnext & Hheld & Hsel). unfold FileUploader.tidy, held in *.
  destruct st as [sel [u|] live n made]; simpl in *.
  - specialize (Hheld u eq_refl).
    assert (u ∉ urls) by (intros Hin; apply urls_below in Hin; lia).
    assert (sel ≠ None) as Hsel' by by apply Hsel.
    destruct ev as [[f|]| |[f|]]; simpl; unfold rerender; simpl;
      repeat (case_decide; simpl); try destruct sel; simpl;
      try done; split_and!;
      first [done | lia | (intros ? [= <-]; lia) | set_solver by lia].
  - destruct ev as [[f|]| |[f|]]; simpl; unfold rerender; simpl;
      repeat (case_decide; simpl); try destruct sel; simpl;
      try done; split_and!;
      first [done | lia | (intros ? [= <-]; lia) | set_solver by lia].
Qed.

Lemma run_tidy evs st : tidy urls next st → tidy urls next (run evs st).
Proof.
  revert st. induction evs as [|ev evs IH]; intros st H; [done|].
  apply IH. by apply handle_tidy.
Qed.

Lemma mount_state initialFile :
  mount initialFile urls next = mkState initialFile None urls next [].
Proof.
  unfold mount, sync. destruct initialFile as [f|]; simpl; [|done].
  by rewrite decide_False by (intros H; by apply H).
Qed.

Lemma mount_tidy initialFile : tidy urls next (mount initialFile urls next).
Proof.
  rewrite mount_state. unfold FileUploader.tidy, held. simpl.
  repeat split; [set_solver|done..].
Qed.
End UploaderFacts.

Section ReportFacts.
Import FileUploader.

Lemma handle_reported ev st :
  reported (handle ev st) = reported st ++ choices [ev].
Proof.
  destruct ev as [[f|]| |[f|]]; simpl; try destruct (selectedFile st); simpl;
    repeat (unfold handleDelete, rerender, revoke; simpl; try case_decide; simpl);
    try destruct (previewUrl st); simpl; by rewrite ?app_nil_r.
Qed.

Lemma run_reported evs st :
  reported (run evs st) = reported st ++ choices evs.
Proof.
  revert st. induction evs as [|ev evs IH]; intros st; simpl; [by rewrite app_nil_r|].
  fold (run evs (handle ev st)). rewrite IH, handle_reported.
  rewrite <- app_assoc. f_equal.
  unfold choices. simpl. by destruct ev as [[f|]| |[f|]].
Qed.
End ReportFacts.

Section SelectionFacts.
Import FileUploader.

Lemma handleFileSelect_fields f st :
  selectedFile (handleFileSelect (Some f) st) = Some f
  ∧ previewUrl (handleFileSelect (Some f) st) = Some (next_url st).
Proof.
  unfold handleFileSelect. simpl. unfold rerender. simpl.
  case_decide; destruct (previewUrl st); done.
Qed.

Lemma handleDelete_fields st :
  selectedFile (handleDelete st) = None ∧ previewUrl (handleDelete st) = None.
Proof.
  unfold handleDelete, rerender. simpl. case_decide; destruct (previewUrl st); done.
Qed.
Lemma handle_selected ev st :
  (previewUrl st ≠ None → selectedFile st ≠ None) →
  previewUrl (handle ev st) ≠ None → selectedFile (handle ev st) ≠ None.
Proof.
  intros Hsel. destruct ev as [[f|]| |[f|]]; unfold handle.
  - by destruct (handleFileSelect_fields f st) as (-> & _).
  - done.
  - by destruct (handleDelete_fields st) as (_ & ->).
  - unfold sync. case_decide; [|done]. simpl. unfold rerender; simpl.
    case_decide; by destruct (previewUrl st).
  - unfold sync. destruct (selectedFile st) eqn:E; [|by rewrite E].
    unfold rerender; simpl. case_decide as Hd; [done|]. by destruct (previewUrl st).
Qed.

Lemma run_selected evs st :
  (previewUrl st ≠ None → selectedFile st ≠ None) →
  previewUrl (run evs st) ≠ None → selectedFile (run evs st) ≠ None.
Proof.
  revert st. induction evs as [|ev evs IH]; intros st H; [done|].
  apply IH. by apply handle_selected.
Qed.

End SelectionFacts.

(** X18. The component cleans up after itself: at any time the object
    URLs of the browser are those that were there when the component was
    mounted plus the one URL the preview shows, which is a URL the
    component created and has not revoked; after unmount they are again
    exactly those that were there at mount. *)
Theorem X18_preview_urls_do_not_leak (urls : gset nat) (next : nat)
    (initialFile : option FileUploader.File) (evs : list FileUploader.Event) :
  (∀ url, url ∈ urls → (url < next)%nat) →
  FileUploader.object_urls (FileUploader.run evs (FileUploader.mount initialFile urls next))
  = urls ∪ FileUploader.held
             (FileUploader.run evs (FileUploader.mount initialFile urls next))
  ∧ (∀ url,
       FileUploader.previewUrl
         (FileUploader.run evs (FileUploader.mount initialFile urls next)) = Some url →
       url ∈ FileUploader.object_urls
               (FileUploader.run evs (FileUploader.mount initialFile urls next))
       ∧ ¬ (url ∈ urls))
  ∧ FileUploader.object_urls
      (FileUploader.unmount
         (FileUploader.run evs (FileUploader.mount initialFile urls next)))
    = urls.
Proof.
  intros Hbelow.
  pose proof (run_tidy urls next Hbelow evs _ (mount_tidy urls next Hbelow initialFile))
    as (Hurls & _ & Hheld & _).
  set (st := FileUploader.run evs (FileUploader.mount initialFile urls next)) in *.
  unfold FileUploader.held in *. split; [done|].
  assert (∀ url, FileUploader.previewUrl st = Some url → ¬ (url ∈ urls)) as Hnot.
  { intros url Hu Hin. apply Hheld in Hu. apply Hbelow in Hin. lia. }
  split.
  - intros url Hu. split; [|by apply Hnot]. rewrite Hurls, Hu.
    apply elem_of_union. right. by apply elem_of_singleton.
  - unfold FileUploader.unmount, FileUploader.revoke.
    destruct (FileUploader.previewUrl st) as [u|] eqn:E; simpl; rewrite Hurls.
    + specialize (Hnot u eq_refl). apply set_eq. intros x.
      rewrite elem_of_difference, elem_of_union, elem_of_singleton.
      split; [tauto|]. intros Hx. split; [by left|]. by intros ->.
    + apply set_eq. intros x. rewrite elem_of_union, elem_of_empty. tauto.
Qed.

Lemma X18_preview_urls_do_not_leak_witness :
  FileUploader.object_urls
    (FileUploader.unmount
       (FileUploader.run
          [FileUploader.file_chosen (Some (FileUploader.mkFile 1 "a.pdf" "application/pdf"));
           FileUploader.file_chosen (Some (FileUploader.mkFile 2 "b.png" "image/png"))]
          (FileUploader.mount None {[0%nat]} 1)))
  = {[0%nat]}.
Proof.
  apply (X18_preview_urls_do_not_leak {[0%nat]} 1 None
           [FileUploader.file_chosen (Some (FileUploader.mkFile 1 "a.pdf" "application/pdf"));
            FileUploader.file_chosen (Some (FileUploader.mkFile 2 "b.png" "image/png"))]).
  intros url Hin. apply elem_of_singleton in Hin. lia.
Defined.

(** X19. A freshly mounted uploader shows the placeholder whatever file
    it is given: after a remount with the file chosen earlier the file is
    still selected and can be deleted, but no preview is shown. Afterwards
    a preview is only ever shown together with a selected file. Choosing a
    file selects it and previews it under a fresh URL, as a PDF frame for
    the type 'application/pdf' and as an image otherwise; deleting leaves
    no file and the placeholder. The parent is told exactly the files
    chosen and the deletions, in their order; a closed file dialog and a
    change of the prop tell it nothing. *)
Theorem X19_preview_and_selection (urls : gset nat) (next : nat)
    (initialFile : option FileUploader.File) (evs : list FileUploader.Event)
    (f : FileUploader.File) :
  FileUploader.preview (FileUploader.mount initialFile urls next)
  = FileUploader.Placeholder
  ∧ FileUploader.selectedFile (FileUploader.mount initialFile urls next) = initialFile
  ∧ (FileUploader.preview
       (FileUploader.run evs (FileUploader.mount initialFile urls next))
     ≠ FileUploader.Placeholder →
     FileUploader.delete_disabled
       (FileUploader.run evs (FileUploader.mount initialFile urls next)) = false)
  ∧ FileUploader.selectedFile
      (FileUploader.handleFileSelect (Some f)
         (FileUploader.run evs (FileUploader.mount initialFile urls next))) = Some f
  ∧ FileUploader.preview
      (FileUploader.handleFileSelect (Some f)
         (FileUploader.run evs (FileUploader.mount initialFile urls next)))
    = (if JS.str_eq (FileUploader.type f) "application/pdf"
       then FileUploader.Pdf
              (FileUploader.next_url
                 (FileUploader.run evs (FileUploader.mount initialFile urls next)))
       else FileUploader.Img
              (FileUploader.next_url
                 (FileUploader.run evs (FileUploader.mount initialFile urls next))))
  ∧ FileUploader.handleFileSelect None
      (FileUploader.run evs (FileUploader.mount initialFile urls next))
    = FileUploader.run evs (FileUploader.mount initialFile urls next)
  ∧ FileUploader.preview
      (FileUploader.handleDelete
         (FileUploader.run evs (FileUploader.mount initialFile urls next)))
    = FileUploader.Placeholder
  ∧ FileUploader.delete_disabled
      (FileUploader.handleDelete
         (FileUploader.run evs (FileUploader.mount initialFile urls next))) = true
  ∧ FileUploader.reported
      (FileUploader.run evs (FileUploader.mount initialFile urls next))
    = FileUploader.choices evs.
Proof.
  set (st := FileUploader.run evs (FileUploader.mount initialFile urls next)).
  split; [by rewrite mount_state|]. split; [by rewrite mount_state|].
  split.
  { pose proof (run_selected evs (FileUploader.mount initialFile urls next)) as Hsel.
    fold st in Hsel. rewrite mount_state in Hsel. specialize (Hsel ltac:(done)).
    unfold FileUploader.preview, FileUploader.delete_disabled.
    destruct (FileUploader.previewUrl st); [|done].
    intros _. destruct (FileUploader.selectedFile st); [done|]. by destruct Hsel. }
  destruct (handleFileSelect_fields f st) as (Hf & Hu).
  destruct (handleDelete_fields st) as (Hd & Hn).
  unfold FileUploader.preview, FileUploader.delete_disabled.
  rewrite Hf, Hu, Hd, Hn. repeat (split; [done|]).
  unfold st. by rewrite run_reported, mount_state.
Qed.

(** ** HistoryPanel: what the automatic refresh looks at *)
Section RefreshFacts.
Import AutoRefresh.

Lemma handle_keeps_length ev p :
  keeps_length (length (jobs p)) ev = true →
  seen (handle ev p) = seen p
  ∧ length (jobs (handle ev p)) = length (jobs p)
  ∧ fetches (handle ev p)
    = (fetches p + calls (hasRunningJobs (seen p)) [ev])%nat.
Proof.
  intros Hkeep. destruct ev as [| |answer]; simpl.
  - unfold tick. destruct (hasRunningJobs (seen p)); simpl; repeat split; lia.
  - repeat split; lia.
  - assert (length (HistoryView.fetchHistory (jobs p) answer).1 = length (jobs p)) as Hlen.
    { unfold HistoryView.fetchHistory. destruct answer as [[st [fetched|]]|]; try done.
      simpl in Hkeep. destruct (JS.str_eq st "success"); [|done].
      simpl in *. by apply Nat.eqb_eq. }
    unfold answered. rewrite Hlen, Nat.eqb_refl. simpl. repeat split; [done|lia].
Qed.
End RefreshFacts.

(** X20. Whether the history panel refreshes by itself is decided by
    the job list of the render in which the number of jobs last changed,
    not by the list it shows: as long as the answers bring the same
    number of jobs, the interval callback keeps looking at that older
    list. Over such events the panel fetches on every tick when that list
    had a running job (also after the job has finished) and on no tick
    when it had none (also after a job has started running); only manual
    refreshes are added. *)
Theorem X20_refresh_uses_the_list_of_the_last_length_change
    (p : AutoRefresh.Panel) (evs : list AutoRefresh.Event) :
  forallb (AutoRefresh.keeps_length (length (AutoRefresh.jobs p))) evs = true →
  AutoRefresh.seen (AutoRefresh.run evs p) = AutoRefresh.seen p
  ∧ length (AutoRefresh.jobs (AutoRefresh.run evs p)) = length (AutoRefresh.jobs p)
  ∧ AutoRefresh.fetches (AutoRefresh.run evs p)
    = (AutoRefresh.fetches p
       + AutoRefresh.calls (AutoRefresh.hasRunningJobs (AutoRefresh.seen p)) evs)%nat.
Proof.
  revert p. induction evs as [|ev evs IH]; intros p Hkeep.
  { simpl. repeat split; lia. }
  simpl in Hkeep. apply andb_true_iff in Hkeep as (Hev & Hkeep).
  destruct (handle_keeps_length ev p Hev) as (Hseen & Hlen & Hf).
  simpl. fold (AutoRefresh.run evs (AutoRefresh.handle ev p)).
  destruct (IH (AutoRefresh.handle ev p)) as (Hseen' & Hlen' & Hf');
    [by rewrite Hlen|].
  rewrite Hseen', Hlen', Hf', Hseen, Hlen, Hf. repeat split.
  destruct ev; simpl; lia.
Qed.

Lemma X20_refresh_uses_the_list_of_the_last_length_change_witness :
  AutoRefresh.hasRunningJobs
    (AutoRefresh.jobs
       (AutoRefresh.run
          [AutoRefresh.on_answer (Some ("success", Some [Samples.h1; Samples.h2]));
           AutoRefresh.on_tick; AutoRefresh.on_tick]
          (AutoRefresh.mkPanel [Samples.h1; Samples.h3] [Samples.h1; Samples.h3] 1)))
  = false
  ∧ AutoRefresh.fetches
      (AutoRefresh.run
         [AutoRefresh.on_answer (Some ("success", Some [Samples.h1; Samples.h2]));
          AutoRefresh.on_tick; AutoRefresh.on_tick]
         (AutoRefresh.mkPanel [Samples.h1; Samples.h3] [Samples.h1; Samples.h3] 1))
    = 3%nat.
Proof.
  split; [reflexivity|].
  by destruct (X20_refresh_uses_the_list_of_the_last_length_change
                 (AutoRefresh.mkPanel [Samples.h1; Samples.h3] [Samples.h1; Samples.h3] 1)
                 [AutoRefresh.on_answer (Some ("success", Some [Samples.h1; Samples.h2]));
                  AutoRefresh.on_tick; AutoRefresh.on_tick] eq_refl) as (_ & _ & ->).
Defined.

(** ** A poller whose refs were taken over *)

(** C1 (a defect of the client). The polling callback does not stop its
    own interval but the one [pollIntervalRef] holds when it runs, and
    [startPolling] overwrites both refs without clearing them. A poller
    that the refs no longer hold (a second run was started while its job
    was still polled) therefore observes a terminal state of its task and
    keeps polling it, and what it stops are the timer and the poller of
    the later run. *)
Theorem C1_superseded_poller_keeps_polling (st : App.State) (id : nat) (t : string)
    (start now : Z) (p : App.ProgressData) (result : option App.ResultData) :
  App.intervals st !! id = Some (App.Poller t start) →
  App.pollIntervalRef st ≠ Some id → App.timerIntervalRef st ≠ Some id →
  App.observes_terminal p = true →
  App.intervals (App.fire id now (Some p) result st) !! id = Some (App.Poller t start)
  ∧ (∀ held, App.pollIntervalRef st = Some held ∨ App.timerIntervalRef st = Some held →
       App.intervals (App.fire id now (Some p) result st) !! held = None)
  ∧ App.isProcessing (App.fire id now (Some p) result st) = false.
Proof.
  intros Hid Hp Ht Hterm. unfold App.fire. rewrite Hid.
  split; [|split].
  - rewrite poll_tick_terminal_lookup, stopped_lookup by done.
    case_bool_decide; [tauto|done].
  - intros held Hheld. rewrite poll_tick_terminal_lookup, stopped_lookup by done.
    by case_bool_decide.
  - rewrite poll_tick_terminal by done.
    pose proof (stopped_frame st) as (_ & _ & Hoff & _).
    destruct (JS.str_eq (App.progress_state p) "finished").
    + destruct result as [r|]; [|done].
      by destruct (show_result_frame now start r (Page.stopped st)) as (_ & _ & -> & _).
    + by destruct (JS.str_eq (App.progress_state p) "cancelled").
Qed.

Lemma C1_superseded_poller_keeps_polling_witness :
  App.pollIntervalRef Samples.second_run = Some 4%nat
  ∧ App.intervals Samples.second_run !! 4%nat = Some (App.Poller "t8" 100)
  ∧ App.intervals Samples.second_run !! 2%nat = Some (App.Poller "t7" 0)
  ∧ App.intervals
      (App.fire 2 4000 (Some (App.mkProgress "success" "finished")) None Samples.second_run)
      !! 2%nat = Some (App.Poller "t7" 0)
  ∧ App.intervals
      (App.fire 2 4000 (Some (App.mkProgress "success" "finished")) None Samples.second_run)
      !! 4%nat = None.
Proof.
  destruct (C1_superseded_poller_keeps_polling Samples.second_run 2 "t7" 0 4000
              (App.mkProgress "success" "finished") None)
    as (Hkeeps & Hstops & _); [reflexivity|by vm_compute|by vm_compute|reflexivity|].
  split; [reflexivity|]. split; [reflexivity|]. split; [reflexivity|].
  split; [exact Hkeeps|]. apply Hstops. by left.
Defined.

(** ** Log lines from the broadcaster to the console *)
Section BroadcastFacts.
Import Broadcaster.





End BroadcastFacts.

Section ConsoleFacts.
Import App.
Context (getTime : string -> option Z).









End ConsoleFacts.



